(** * PrivarionHook: the hook registry of [privarion_hook.c]

    A shallow embedding of [Sources/PrivarionHook/privarion_hook.c] and of
    its header.  The globals of the C file become one record that every
    operation threads through a small state-and-trace monad; the mutex
    operations and the writes to [g_config_data] are recorded as events so
    that the locking discipline can be read off an operation's trace.  C
    strings are byte lists read up to their first NUL, machine integers are
    [Z] with the wrap-around written out, pointers are [option] (for data)
    or [Z] addresses with [0] for [NULL] (for functions).

    [ph_log_debug] only prints to [stderr] and is left out of the
    operations; [hooked_uname] (which needs [struct utsname] of the
    platform) and [ph_get_version] are not modelled. *)

From Stdlib Require Import ZArith List Bool Lia Sorted.
From Stdlib Require Import Strings.Byte.
From Stdlib Require Strings.String.
Import Strings.String.StringSyntax.
Delimit Scope string_scope with string.
Import ListNotations.
Local Open Scope Z_scope.

(** ** Machine integers *)

(** [uint32_t] and [size_t] arithmetic wraps around. *)
Definition u32 (z : Z) : Z := z mod 2 ^ 32.
Definition usize (z : Z) : Z := z mod 2 ^ 64.

(** ** C strings and the [<string.h>] functions the file uses *)

Definition NUL : byte := x00.

(** The characters of the string stored at an address: everything before
    the first NUL.  The end of the modelled memory counts as a NUL. *)
Fixpoint c_str (s : list byte) : list byte :=
  match s with
  | [] => []
  | c :: s' => if Byte.eqb c NUL then [] else c :: c_str s'
  end.

Definition strlen (s : list byte) : Z := Z.of_nat (length (c_str s)).

Definition uchar (c : byte) : Z := Z.of_N (Byte.to_N c).

(** [strcmp]: the difference of the first pair of characters that differ,
    [0] when both strings end together. *)
Fixpoint strcmp (a b : list byte) {struct a} : Z :=
  match a, b with
  | [], [] => 0
  | [], y :: _ => 0 - uchar y
  | x :: _, [] => uchar x - 0
  | x :: a', y :: b' =>
      if Byte.eqb x y
      then if Byte.eqb x NUL then 0 else strcmp a' b'
      else uchar x - uchar y
  end.

(** [strncpy dst src n] writes exactly [n] bytes at [dst]: the characters
    of [src], cut after [n] of them, and NUL padding up to [n] when [src]
    is shorter.  No terminator is written when [src] has [n] characters or
    more. *)
Definition strncpy (dst src : list byte) (n : Z) : list byte :=
  let k := Z.to_nat n in
  firstn k (c_str src ++ repeat NUL k) ++ skipn k dst.

(** [dst[i] = c]. *)
Definition store (dst : list byte) (i : Z) (c : byte) : list byte :=
  firstn (Z.to_nat i) dst ++ c :: skipn (S (Z.to_nat i)) dst.

(** [strcpy(buffer + offset, src)]: the characters of [src] and one NUL. *)
Definition strcpy_at (buffer : list byte) (offset : Z) (src : list byte)
  : list byte :=
  let o := Z.to_nat offset in
  let w := c_str src ++ [NUL] in
  firstn o buffer ++ w ++ skipn (o + length w) buffer.

(** A string literal as the bytes the compiler lays out for it. *)
Definition lit (s : String.string) : list byte :=
  String.list_byte_of_string s ++ [NUL].
Arguments lit s%_string.

(** ** The header: result codes and structures *)

Inductive PHResult : Set :=
| PH_SUCCESS
| PH_ERROR_INVALID_PARAM
| PH_ERROR_FUNCTION_NOT_FOUND
| PH_ERROR_ALREADY_HOOKED
| PH_ERROR_NOT_HOOKED
| PH_ERROR_MEMORY_ERROR
| PH_ERROR_PERMISSION_DENIED
| PH_ERROR_UNSUPPORTED_PLATFORM.

Definition PHResult_value (r : PHResult) : Z :=
  match r with
  | PH_SUCCESS => 0
  | PH_ERROR_INVALID_PARAM => -1
  | PH_ERROR_FUNCTION_NOT_FOUND => -2
  | PH_ERROR_ALREADY_HOOKED => -3
  | PH_ERROR_NOT_HOOKED => -4
  | PH_ERROR_MEMORY_ERROR => -5
  | PH_ERROR_PERMISSION_DENIED => -6
  | PH_ERROR_UNSUPPORTED_PLATFORM => -7
  end.

(** [struct PHookEntry]; the [next] pointer is the tail of the list that
    holds the entry. *)
Module Entry.
Record PHookEntry : Set := mk {
  function_name : list byte;            (* char function_name[256] *)
  original_function : Z;
  replacement_function : Z;
  is_active : bool
}.
End Entry.
Definition PHookEntry : Set := Entry.PHookEntry.

(** [PHookHandle]. *)
Module Handle.
Record PHookHandle : Set := mk {
  id : Z;                               (* uint32_t *)
  function_name : list byte;            (* char function_name[256] *)
  is_valid : bool
}.
End Handle.
Definition PHookHandle : Set := Handle.PHookHandle.

(** [PHookConfigData]. *)
Record PHookConfigData : Set := mkConfig {
  user_id : Z;
  group_id : Z;
  hostname : list byte;                 (* char hostname[256] *)
  system_name : list byte;              (* char system_name[256] *)
  machine : list byte;                  (* char machine[256] *)
  release : list byte;                  (* char release[256] *)
  version : list byte                   (* char version[512] *)
}.

Inductive ConfigField : Set :=
| F_user_id | F_group_id | F_hostname | F_system_name | F_machine
| F_release | F_version.

(** ** Global state *)

Record Globals : Set := mkGlobals {
  g_hook_system_initialized : bool;
  g_debug_logging_enabled : bool;
  g_hook_list_head : list PHookEntry;
  g_next_hook_id : Z;
  g_config_data : PHookConfigData
}.

(** The values the globals are initialised with when the library loads. *)
Definition zero_config : PHookConfigData :=
  mkConfig 0 0 (repeat NUL 256) (repeat NUL 256) (repeat NUL 256)
           (repeat NUL 256) (repeat NUL 512).

Definition initial_globals : Globals :=
  mkGlobals false false [] 1 zero_config.

Definition set_initialized (b : bool) (g : Globals) : Globals :=
  mkGlobals b (g_debug_logging_enabled g) (g_hook_list_head g)
            (g_next_hook_id g) (g_config_data g).

Definition set_debug (b : bool) (g : Globals) : Globals :=
  mkGlobals (g_hook_system_initialized g) b (g_hook_list_head g)
            (g_next_hook_id g) (g_config_data g).

Definition set_list_head (l : list PHookEntry) (g : Globals) : Globals :=
  mkGlobals (g_hook_system_initialized g) (g_debug_logging_enabled g) l
            (g_next_hook_id g) (g_config_data g).

Definition set_next_hook_id (n : Z) (g : Globals) : Globals :=
  mkGlobals (g_hook_system_initialized g) (g_debug_logging_enabled g)
            (g_hook_list_head g) n (g_config_data g).

Definition set_config (c : PHookConfigData) (g : Globals) : Globals :=
  mkGlobals (g_hook_system_initialized g) (g_debug_logging_enabled g)
            (g_hook_list_head g) (g_next_hook_id g) c.

(** ** The monad of the operations: state and a trace of events *)

Inductive Event : Set :=
| EvLock                                (* pthread_mutex_lock(&g_hook_mutex) *)
| EvUnlock                              (* pthread_mutex_unlock(&g_hook_mutex) *)
| EvConfigWrite (f : ConfigField).      (* a store into g_config_data *)

Definition M (A : Type) : Type := Globals -> A * Globals * list Event.

Definition ret {A} (a : A) : M A := fun g => (a, g, []).

Definition bind {A B} (m : M A) (k : A -> M B) : M B :=
  fun g =>
    let '(a, g1, t1) := m g in
    let '(b, g2, t2) := k a g1 in
    (b, g2, t1 ++ t2).

Notation "x <- c1 ;; c2" := (bind c1 (fun x => c2))
  (at level 61, c1 at next level, right associativity).
Notation "c1 ;; c2" := (bind c1 (fun _ => c2))
  (at level 61, right associativity).

Definition gets {A} (f : Globals -> A) : M A := fun g => (f g, g, []).
Definition modify (f : Globals -> Globals) : M unit :=
  fun g => (tt, f g, []).

Definition pthread_mutex_lock : M unit := fun g => (tt, g, [EvLock]).
Definition pthread_mutex_unlock : M unit := fun g => (tt, g, [EvUnlock]).

(** A store into one field of [g_config_data]. *)
Definition config_write (f : ConfigField)
           (upd : PHookConfigData -> PHookConfigData) : M unit :=
  fun g => (tt, set_config (upd (g_config_data g)) g, [EvConfigWrite f]).

(** What an operation returns, the globals it leaves and its trace. *)
Definition result_of {A} (x : A * Globals * list Event) : A := fst (fst x).
Definition globals_of {A} (x : A * Globals * list Event) : Globals :=
  snd (fst x).
Definition trace_of {A} (x : A * Globals * list Event) : list Event := snd x.

(** ** The environment of the library *)

(** What the file takes from the platform: the dynamic symbol resolver
    ([dlsym(RTLD_DEFAULT, name)], [0] when the symbol is not found), the
    outcome of [#ifdef __APPLE__], and the addresses of the four static
    replacement functions. *)
Record Env : Type := mkEnv {
  dlsym : list byte -> Z;
  apple : bool;
  addr_hooked_getuid : Z;
  addr_hooked_getgid : Z;
  addr_hooked_gethostname : Z;
  addr_hooked_uname : Z
}.

(** ** Pre-defined replacement functions *)

Definition hooked_getuid (g : Globals) : Z := user_id (g_config_data g).

Definition hooked_getgid (g : Globals) : Z := group_id (g_config_data g).

(** [hooked_gethostname(name, len)]: [name] is the memory at the caller's
    pointer; the function returns its [int] and that memory afterwards. *)
Definition hooked_gethostname (g : Globals) (name : list byte) (len : Z)
  : Z * list byte :=
  let hostname_len := strlen (hostname (g_config_data g)) in
  if len <=? hostname_len then (-1, name)
  else
    let name1 := strncpy name (hostname (g_config_data g)) (len - 1) in
    let name2 := store name1 (len - 1) NUL in
    (0, name2).

(** ** Internal helper functions *)

Fixpoint ph_find_hook_by_name (current : list PHookEntry)
         (function_name : list byte) : option PHookEntry :=
  match current with
  | [] => None
  | e :: next =>
      if strcmp (Entry.function_name e) function_name =? 0 then Some e
      else ph_find_hook_by_name next function_name
  end.

Definition ph_find_hook_by_id (id : Z) : option PHookEntry := None.

(** ** Core implementation *)

Definition ph_is_platform_supported (env : Env) : bool := apple env.

Definition ph_initialize (env : Env) : M PHResult :=
  pthread_mutex_lock ;;
  initialized <- gets g_hook_system_initialized ;;
  if initialized then
    pthread_mutex_unlock ;; ret PH_SUCCESS
  else if negb (ph_is_platform_supported env) then
    pthread_mutex_unlock ;; ret PH_ERROR_UNSUPPORTED_PLATFORM
  else
    modify (set_list_head []) ;;
    modify (set_next_hook_id 1) ;;
    modify (set_initialized true) ;;
    pthread_mutex_unlock ;;
    ret PH_SUCCESS.

Definition ph_cleanup : M unit :=
  pthread_mutex_lock ;;
  initialized <- gets g_hook_system_initialized ;;
  if negb initialized then
    pthread_mutex_unlock ;; ret tt
  else
    (* every entry of the list is freed *)
    modify (set_list_head []) ;;
    modify (set_initialized false) ;;
    pthread_mutex_unlock ;;
    ret tt.

(** [ph_install_hook(function_name, replacement_function, handle)].
    [new_hook] is what [malloc(sizeof(PHookEntry))] returns at this call:
    [None] for [NULL], otherwise the fresh block with whatever it holds.
    The second component of the result is the memory at [handle] after the
    call. *)
Definition ph_install_hook (env : Env) (function_name : option (list byte))
           (replacement_function : Z) (handle : option PHookHandle)
           (new_hook : option PHookEntry)
  : M (PHResult * option PHookHandle) :=
  match function_name, handle with
  | Some name, Some h =>
    if replacement_function =? 0 then ret (PH_ERROR_INVALID_PARAM, handle)
    else
    pthread_mutex_lock ;;
    initialized <- gets g_hook_system_initialized ;;
    if negb initialized then
      pthread_mutex_unlock ;; ret (PH_ERROR_INVALID_PARAM, handle)
    else
    head <- gets g_hook_list_head ;;
    match ph_find_hook_by_name head name with
    | Some _ =>
      pthread_mutex_unlock ;; ret (PH_ERROR_ALREADY_HOOKED, handle)
    | None =>
      let original_function := dlsym env name in
      if original_function =? 0 then
        pthread_mutex_unlock ;; ret (PH_ERROR_FUNCTION_NOT_FOUND, handle)
      else
      match new_hook with
      | None =>
        pthread_mutex_unlock ;; ret (PH_ERROR_MEMORY_ERROR, handle)
      | Some blk =>
        let fn1 := strncpy (Entry.function_name blk) name (256 - 1) in
        let fn2 := store fn1 (256 - 1) NUL in
        let e := Entry.mk fn2 original_function replacement_function true in
        modify (set_list_head (e :: head)) ;;
        next_id <- gets g_next_hook_id ;;
        modify (set_next_hook_id (u32 (next_id + 1))) ;;
        let hn1 := strncpy (Handle.function_name h) name (256 - 1) in
        let hn2 := store hn1 (256 - 1) NUL in
        let h' := Handle.mk next_id hn2 true in
        pthread_mutex_unlock ;;
        ret (PH_SUCCESS, Some h')
      end
    end
  | _, _ => ret (PH_ERROR_INVALID_PARAM, handle)
  end.

(** The [while] loop of [ph_remove_hook]: unlink the first entry whose name
    compares equal, [None] when the loop runs off the list. *)
Fixpoint remove_loop (current : list PHookEntry) (name : list byte)
  : option (list PHookEntry) :=
  match current with
  | [] => None
  | e :: next =>
      if strcmp (Entry.function_name e) name =? 0 then Some next
      else match remove_loop next name with
           | Some next' => Some (e :: next')
           | None => None
           end
  end.

(** [ph_remove_hook(handle)].  The handle is a pointer to [const]: the
    second component of the result is the memory at [handle] after the
    call, which no statement of the function writes. *)
Definition ph_remove_hook (handle : option PHookHandle)
  : M (PHResult * option PHookHandle) :=
  match handle with
  | None => ret (PH_ERROR_INVALID_PARAM, handle)
  | Some h =>
    if negb (Handle.is_valid h) then ret (PH_ERROR_INVALID_PARAM, handle)
    else
    pthread_mutex_lock ;;
    initialized <- gets g_hook_system_initialized ;;
    if negb initialized then
      pthread_mutex_unlock ;; ret (PH_ERROR_INVALID_PARAM, handle)
    else
    head <- gets g_hook_list_head ;;
    match remove_loop head (Handle.function_name h) with
    | Some head' =>
      modify (set_list_head head') ;;
      pthread_mutex_unlock ;;
      ret (PH_SUCCESS, handle)
    | None =>
      pthread_mutex_unlock ;; ret (PH_ERROR_NOT_HOOKED, handle)
    end
  end.

Definition ph_get_original (handle : option PHookHandle) : M Z :=
  match handle with
  | None => ret 0
  | Some h =>
    if negb (Handle.is_valid h) then ret 0
    else
    pthread_mutex_lock ;;
    head <- gets g_hook_list_head ;;
    let original :=
      match ph_find_hook_by_name head (Handle.function_name h) with
      | Some hook => Entry.original_function hook
      | None => 0
      end in
    pthread_mutex_unlock ;;
    ret original
  end.

Definition ph_is_hooked (function_name : option (list byte)) : M bool :=
  match function_name with
  | None => ret false
  | Some name =>
    pthread_mutex_lock ;;
    head <- gets g_hook_list_head ;;
    let hooked :=
      match ph_find_hook_by_name head name with
      | Some _ => true
      | None => false
      end in
    pthread_mutex_unlock ;;
    ret hooked
  end.

(** ** System call specific implementations *)

Definition ph_hook_uname (env : Env) (replacement : Z)
           (handle : option PHookHandle) (new_hook : option PHookEntry) :=
  ph_install_hook env (Some (lit "uname")) replacement handle new_hook.

Definition ph_hook_gethostname (env : Env) (replacement : Z)
           (handle : option PHookHandle) (new_hook : option PHookEntry) :=
  ph_install_hook env (Some (lit "gethostname")) replacement handle new_hook.

Definition ph_hook_getuid (env : Env) (replacement : Z)
           (handle : option PHookHandle) (new_hook : option PHookEntry) :=
  ph_install_hook env (Some (lit "getuid")) replacement handle new_hook.

Definition ph_hook_getgid (env : Env) (replacement : Z)
           (handle : option PHookHandle) (new_hook : option PHookEntry) :=
  ph_install_hook env (Some (lit "getgid")) replacement handle new_hook.

(** ** Configuration-driven hook installation *)

Definition set_user_id (v : Z) (c : PHookConfigData) : PHookConfigData :=
  mkConfig v (group_id c) (hostname c) (system_name c) (machine c)
           (release c) (version c).
Definition set_group_id (v : Z) (c : PHookConfigData) : PHookConfigData :=
  mkConfig (user_id c) v (hostname c) (system_name c) (machine c)
           (release c) (version c).
Definition set_hostname (v : list byte) (c : PHookConfigData) :=
  mkConfig (user_id c) (group_id c) v (system_name c) (machine c)
           (release c) (version c).
Definition set_system_name (v : list byte) (c : PHookConfigData) :=
  mkConfig (user_id c) (group_id c) (hostname c) v (machine c)
           (release c) (version c).
Definition set_machine (v : list byte) (c : PHookConfigData) :=
  mkConfig (user_id c) (group_id c) (hostname c) (system_name c) v
           (release c) (version c).
Definition set_release (v : list byte) (c : PHookConfigData) :=
  mkConfig (user_id c) (group_id c) (hostname c) (system_name c) (machine c)
           v (version c).
Definition set_version (v : list byte) (c : PHookConfigData) :=
  mkConfig (user_id c) (group_id c) (hostname c) (system_name c) (machine c)
           (release c) v.

Definition ph_install_getuid_hook (env : Env)
           (config_data : option PHookConfigData)
           (handle : option PHookHandle) (new_hook : option PHookEntry)
  : M (PHResult * option PHookHandle) :=
  match config_data, handle with
  | Some cfg, Some _ =>
    pthread_mutex_lock ;;
    config_write F_user_id (set_user_id (user_id cfg)) ;;
    pthread_mutex_unlock ;;
    ph_install_hook env (Some (lit "getuid")) (addr_hooked_getuid env)
                    handle new_hook
  | _, _ => ret (PH_ERROR_INVALID_PARAM, handle)
  end.

Definition ph_install_getgid_hook (env : Env)
           (config_data : option PHookConfigData)
           (handle : option PHookHandle) (new_hook : option PHookEntry)
  : M (PHResult * option PHookHandle) :=
  match config_data, handle with
  | Some cfg, Some _ =>
    pthread_mutex_lock ;;
    config_write F_group_id (set_group_id (group_id cfg)) ;;
    pthread_mutex_unlock ;;
    ph_install_hook env (Some (lit "getgid")) (addr_hooked_getgid env)
                    handle new_hook
  | _, _ => ret (PH_ERROR_INVALID_PARAM, handle)
  end.

Definition ph_install_gethostname_hook (env : Env)
           (config_data : option PHookConfigData)
           (handle : option PHookHandle) (new_hook : option PHookEntry)
  : M (PHResult * option PHookHandle) :=
  match config_data, handle with
  | Some cfg, Some _ =>
    config_write F_hostname
      (fun c => set_hostname (strncpy (hostname c) (hostname cfg) (256 - 1)) c) ;;
    config_write F_hostname
      (fun c => set_hostname (store (hostname c) (256 - 1) NUL) c) ;;
    ph_install_hook env (Some (lit "gethostname"))
                    (addr_hooked_gethostname env) handle new_hook
  | _, _ => ret (PH_ERROR_INVALID_PARAM, handle)
  end.

Definition ph_install_uname_hook (env : Env)
           (config_data : option PHookConfigData)
           (handle : option PHookHandle) (new_hook : option PHookEntry)
  : M (PHResult * option PHookHandle) :=
  match config_data, handle with
  | Some cfg, Some _ =>
    config_write F_system_name
      (fun c => set_system_name
                  (strncpy (system_name c) (system_name cfg) (256 - 1)) c) ;;
    config_write F_machine
      (fun c => set_machine (strncpy (machine c) (machine cfg) (256 - 1)) c) ;;
    config_write F_release
      (fun c => set_release (strncpy (release c) (release cfg) (256 - 1)) c) ;;
    config_write F_version
      (fun c => set_version (strncpy (version c) (version cfg) (512 - 1)) c) ;;
    config_write F_hostname
      (fun c => set_hostname (strncpy (hostname c) (hostname cfg) (256 - 1)) c) ;;
    config_write F_system_name
      (fun c => set_system_name (store (system_name c) (256 - 1) NUL) c) ;;
    config_write F_machine
      (fun c => set_machine (store (machine c) (256 - 1) NUL) c) ;;
    config_write F_release
      (fun c => set_release (store (release c) (256 - 1) NUL) c) ;;
    config_write F_version
      (fun c => set_version (store (version c) (512 - 1) NUL) c) ;;
    config_write F_hostname
      (fun c => set_hostname (store (hostname c) (256 - 1) NUL) c) ;;
    ph_install_hook env (Some (lit "uname")) (addr_hooked_uname env)
                    handle new_hook
  | _, _ => ret (PH_ERROR_INVALID_PARAM, handle)
  end.

(** ** Utility functions *)

(** [ph_get_error_message(result)]: [result] is the integer the caller
    passes for the enumeration; a value outside it reaches [default]. *)
Definition ph_get_error_message (result : Z) : String.string :=
  (if result =? PHResult_value PH_SUCCESS then "Success"
   else if result =? PHResult_value PH_ERROR_INVALID_PARAM
        then "Invalid parameter"
   else if result =? PHResult_value PH_ERROR_FUNCTION_NOT_FOUND
        then "Function not found"
   else if result =? PHResult_value PH_ERROR_ALREADY_HOOKED
        then "Function already hooked"
   else if result =? PHResult_value PH_ERROR_NOT_HOOKED
        then "Function not hooked"
   else if result =? PHResult_value PH_ERROR_MEMORY_ERROR
        then "Memory allocation error"
   else if result =? PHResult_value PH_ERROR_PERMISSION_DENIED
        then "Permission denied"
   else if result =? PHResult_value PH_ERROR_UNSUPPORTED_PLATFORM
        then "Unsupported platform"
   else "Unknown error")%string.

Definition ph_set_debug_logging (enabled : bool) : M unit :=
  modify (set_debug enabled).

(** The counting loop of [ph_get_active_hook_count]; [count] is a
    [uint32_t]. *)
Fixpoint count_loop (current : list PHookEntry) (count : Z) : Z :=
  match current with
  | [] => count
  | e :: next =>
      count_loop next (if Entry.is_active e then u32 (count + 1) else count)
  end.

Definition ph_get_active_hook_count : M Z :=
  pthread_mutex_lock ;;
  head <- gets g_hook_list_head ;;
  let count := count_loop head 0 in
  pthread_mutex_unlock ;;
  ret count.

(** The loop of [ph_get_active_hooks]; [offset] is a [size_t], [count] a
    [uint32_t].  It returns [count] and the buffer when the loop is left. *)
Fixpoint active_hooks_loop (current : list PHookEntry) (buffer : list byte)
         (buffer_size offset count : Z) : Z * list byte :=
  match current with
  | [] => (count, buffer)
  | e :: next =>
      if offset <? usize (buffer_size - 1) then
        if Entry.is_active e then
          let name_len := strlen (Entry.function_name e) in
          if usize (offset + name_len + 1) <? buffer_size then
            active_hooks_loop next
              (strcpy_at buffer offset (Entry.function_name e))
              buffer_size (usize (offset + (name_len + 1))) (u32 (count + 1))
          else (count, buffer)
        else active_hooks_loop next buffer buffer_size offset count
      else (count, buffer)
  end.

(** [ph_get_active_hooks(buffer, buffer_size)]: the count returned and the
    memory at [buffer] after the call. *)
Definition ph_get_active_hooks (buffer : option (list byte))
           (buffer_size : Z) : M (Z * option (list byte)) :=
  match buffer with
  | None => ret (0, buffer)
  | Some buf =>
    if buffer_size =? 0 then ret (0, buffer)
    else
    pthread_mutex_lock ;;
    head <- gets g_hook_list_head ;;
    let '(count, buf') := active_hooks_loop head buf buffer_size 0 0 in
    pthread_mutex_unlock ;;
    ret (count, Some buf')
  end.

(** ** Calls of the public interface and their sequences *)

Inductive Call : Type :=
| CallInitialize
| CallCleanup
| CallInstallHook (function_name : option (list byte)) (replacement : Z)
                  (handle : option PHookHandle) (new_hook : option PHookEntry)
| CallRemoveHook (handle : option PHookHandle)
| CallGetOriginal (handle : option PHookHandle)
| CallIsHooked (function_name : option (list byte))
| CallInstallGetuidHook (config_data : option PHookConfigData)
                        (handle : option PHookHandle)
                        (new_hook : option PHookEntry)
| CallInstallGetgidHook (config_data : option PHookConfigData)
                        (handle : option PHookHandle)
                        (new_hook : option PHookEntry)
| CallInstallGethostnameHook (config_data : option PHookConfigData)
                             (handle : option PHookHandle)
                             (new_hook : option PHookEntry)
| CallInstallUnameHook (config_data : option PHookConfigData)
                       (handle : option PHookHandle)
                       (new_hook : option PHookEntry)
| CallSetDebugLogging (enabled : bool)
| CallGetActiveHookCount
| CallGetActiveHooks (buffer : option (list byte)) (buffer_size : Z).

Inductive Return : Type :=
| RInit (r : PHResult)
| RUnit
| RInstall (r : PHResult) (handle : option PHookHandle)
| RRemove (r : PHResult) (handle : option PHookHandle)
| RAddress (p : Z)
| RBool (b : bool)
| RCount (n : Z)
| RNames (n : Z) (buffer : option (list byte)).

Definition fmap {A B} (f : A -> B) (m : M A) : M B :=
  x <- m ;; ret (f x).

Definition call (env : Env) (c : Call) : M Return :=
  match c with
  | CallInitialize => fmap RInit (ph_initialize env)
  | CallCleanup => fmap (fun _ => RUnit) ph_cleanup
  | CallInstallHook n r h b =>
      fmap (fun x => RInstall (fst x) (snd x)) (ph_install_hook env n r h b)
  | CallRemoveHook h =>
      fmap (fun x => RRemove (fst x) (snd x)) (ph_remove_hook h)
  | CallGetOriginal h => fmap RAddress (ph_get_original h)
  | CallIsHooked n => fmap RBool (ph_is_hooked n)
  | CallInstallGetuidHook c h b =>
      fmap (fun x => RInstall (fst x) (snd x))
           (ph_install_getuid_hook env c h b)
  | CallInstallGetgidHook c h b =>
      fmap (fun x => RInstall (fst x) (snd x))
           (ph_install_getgid_hook env c h b)
  | CallInstallGethostnameHook c h b =>
      fmap (fun x => RInstall (fst x) (snd x))
           (ph_install_gethostname_hook env c h b)
  | CallInstallUnameHook c h b =>
      fmap (fun x => RInstall (fst x) (snd x))
           (ph_install_uname_hook env c h b)
  | CallSetDebugLogging b => fmap (fun _ => RUnit) (ph_set_debug_logging b)
  | CallGetActiveHookCount => fmap RCount ph_get_active_hook_count
  | CallGetActiveHooks b n =>
      fmap (fun x => RNames (fst x) (snd x)) (ph_get_active_hooks b n)
  end.

(** A program of the client: calls made one after the other. *)
Fixpoint calls (env : Env) (cs : list Call) : M (list Return) :=
  match cs with
  | [] => ret []
  | c :: cs' => r <- call env c ;; rs <- calls env cs' ;; ret (r :: rs)
  end.

(** ** What a call does to the registry *)

(** The registry proper: the flag, the list and the counter. *)
Definition registry_eq (g g' : Globals) : Prop :=
  g_hook_system_initialized g = g_hook_system_initialized g' /\
  g_hook_list_head g = g_hook_list_head g' /\
  g_next_hook_id g = g_next_hook_id g'.

(** The id a call hands out: the one in the handle of a successful
    install. *)
Definition issued_id (r : Return) : option Z :=
  match r with
  | RInstall PH_SUCCESS (Some h) => Some (Handle.id h)
  | _ => None
  end.

Fixpoint issued_ids (rs : list Return) : list Z :=
  match rs with
  | [] => []
  | r :: rs' =>
      match issued_id r with
      | Some i => i :: issued_ids rs'
      | None => issued_ids rs'
      end
  end.

Definition is_cleanup (c : Call) : bool :=
  match c with CallCleanup => true | _ => false end.

(** The name a successful [ph_remove_hook] was called for. *)
Definition removed_name (c : Call) (r : Return) : option (list byte) :=
  match c, r with
  | CallRemoveHook (Some h), RRemove PH_SUCCESS _ =>
      Some (Handle.function_name h)
  | _, _ => None
  end.

(** The name an installing call passes to [ph_install_hook]. *)
Definition called_name (c : Call) : option (list byte) :=
  match c with
  | CallInstallHook n _ _ _ => n
  | CallInstallGetuidHook _ _ _ => Some (lit "getuid")
  | CallInstallGetgidHook _ _ _ => Some (lit "getgid")
  | CallInstallGethostnameHook _ _ _ => Some (lit "gethostname")
  | CallInstallUnameHook _ _ _ => Some (lit "uname")
  | _ => None
  end.

(** The five ways a call can act on the registry. *)
Inductive effect (c : Call) (g : Globals) (r : Return) (g' : Globals)
  : Prop :=
| eff_quiet :
    registry_eq g g' -> issued_id r = None -> removed_name c r = None ->
    effect c g r g'
| eff_init :
    g_hook_system_initialized g = false ->
    g_hook_system_initialized g' = true ->
    g_hook_list_head g' = [] -> g_next_hook_id g' = 1 ->
    issued_id r = None -> removed_name c r = None ->
    effect c g r g'
| eff_cleanup :
    is_cleanup c = true ->
    g_hook_system_initialized g' = false ->
    g_hook_list_head g' = [] -> g_next_hook_id g' = g_next_hook_id g ->
    issued_id r = None ->
    effect c g r g'
| eff_install (e : PHookEntry) (name : list byte) :
    called_name c = Some name ->
    g_hook_system_initialized g = true ->
    g_hook_system_initialized g' = true ->
    ph_find_hook_by_name (g_hook_list_head g) name = None ->
    c_str (Entry.function_name e) = firstn 255 (c_str name) ->
    Entry.is_active e = true ->
    g_hook_list_head g' = e :: g_hook_list_head g ->
    issued_id r = Some (g_next_hook_id g) ->
    g_next_hook_id g' = u32 (g_next_hook_id g + 1) ->
    removed_name c r = None ->
    effect c g r g'
| eff_remove (name : list byte) :
    g_hook_system_initialized g = true ->
    g_hook_system_initialized g' = true ->
    removed_name c r = Some name ->
    remove_loop (g_hook_list_head g) name = Some (g_hook_list_head g') ->
    g_next_hook_id g' = g_next_hook_id g ->
    issued_id r = None ->
    effect c g r g'.

(** States a client can bring the library to. *)
Definition reachable (env : Env) (g : Globals) : Prop :=
  exists cs, globals_of (calls env cs initial_globals) = g.

(** The names stored in a list of entries, in list order. *)
Definition entry_names (l : list PHookEntry) : list (list byte) :=
  map (fun e => c_str (Entry.function_name e)) l.

(** A call that gives up the hook on [name]: [ph_cleanup], or a
    [ph_remove_hook] that returned [PH_SUCCESS] for a handle with that
    name. *)
Definition releases (name : list byte) (c : Call) (r : Return) : bool :=
  is_cleanup c ||
  match removed_name c r with
  | Some n => strcmp n name =? 0
  | None => false
  end.

(** No call of [cs], run from [g], releases [name]. *)
Fixpoint no_release (env : Env) (name : list byte) (cs : list Call)
         (g : Globals) : bool :=
  match cs with
  | [] => true
  | c :: cs' =>
      negb (releases name c (result_of (call env c g))) &&
      no_release env name cs' (globals_of (call env c g))
  end.

(** No entry exists while the library is not initialised. *)
Definition no_entry_before_init (g : Globals) : Prop :=
  g_hook_system_initialized g = false -> g_hook_list_head g = [].

(** ** Sample environment and data *)

(** A symbol table for examples: four libc symbols and one symbol with a
    name of 300 characters. *)
Definition long_name : list byte := repeat "a"%byte 300 ++ [NUL].

Definition sample_symbols : list (list byte * Z) :=
  [ (lit "getuid", 4096); (lit "getgid", 4112); (lit "gethostname", 4128);
    (lit "uname", 4144); (long_name, 4160) ].

Fixpoint lookup_symbol (table : list (list byte * Z)) (name : list byte)
  : Z :=
  match table with
  | [] => 0
  | (n, a) :: rest =>
      if strcmp n name =? 0 then a else lookup_symbol rest name
  end.

Definition sample_env : Env :=
  mkEnv (lookup_symbol sample_symbols) true 8192 8208 8224 8240.

(** A block as [malloc] may return it, and a handle as a caller declares
    it before the call. *)
Definition fresh_block : PHookEntry :=
  Entry.mk (repeat "U"%byte 256) 0 0 false.

Definition blank_handle : PHookHandle :=
  Handle.mk 0 (repeat NUL 256) false.

Definition sample_config : PHookConfigData :=
  mkConfig 501 20 (lit "test-host") (lit "Darwin") (lit "arm64")
           (lit "23.0.0") (lit "Darwin Kernel Version 23.0.0").

(** The library after [ph_initialize]. *)
Definition ready_globals : Globals :=
  globals_of (ph_initialize sample_env initial_globals).

(** ... and after [ph_install_hook("getuid", 0x3000, &handle)]. *)
Definition getuid_installed :=
  ph_install_hook sample_env (Some (lit "getuid")) 12288 (Some blank_handle)
                  (Some fresh_block) ready_globals.

Definition getuid_globals : Globals := globals_of getuid_installed.
Definition getuid_handle : option PHookHandle :=
  snd (result_of getuid_installed).

(** The handle behind a non-null pointer. *)
Definition the_handle (o : option PHookHandle) : PHookHandle :=
  match o with
  | Some h => h
  | None => blank_handle
  end.

(** ** Locking discipline *)

(** Every store into [g_config_data] of a trace happens between a lock and
    the next unlock; [held] tells whether the mutex is held at the start. *)
Fixpoint writes_locked (held : bool) (t : list Event) : bool :=
  match t with
  | [] => true
  | EvLock :: t' => writes_locked true t'
  | EvUnlock :: t' => writes_locked false t'
  | EvConfigWrite _ :: t' => held && writes_locked held t'
  end.

(** ** The listing of active names *)

(** The names [ph_get_active_hooks] walks over: those of the active
    entries, in list order. *)
Definition active_names (l : list PHookEntry) : list (list byte) :=
  map (fun e => c_str (Entry.function_name e)) (filter Entry.is_active l).

(** Names laid out one after the other, each with its terminator. *)
Fixpoint layout (names : list (list byte)) : list byte :=
  match names with
  | [] => []
  | n :: rest => (n ++ [NUL]) ++ layout rest
  end.

(** [bytes] stored at index [off] of [buffer]. *)
Definition write_at (buffer : list byte) (off : nat) (bytes : list byte)
  : list byte :=
  firstn off buffer ++ bytes ++ skipn (off + length bytes) buffer.

(** The names the loop copies when it starts at [offset]: it goes on as
    long as [offset + length + 1] stays below [buffer_size]. *)
Fixpoint fitting (names : list (list byte)) (buffer_size offset : Z)
  : list (list byte) :=
  match names with
  | [] => []
  | n :: rest =>
      if offset + Z.of_nat (length n) + 1 <? buffer_size
      then n :: fitting rest buffer_size (offset + Z.of_nat (length n) + 1)
      else []
  end.

(** The entries a reachable registry holds: names that fit their field,
    all active. *)
Definition entry_ok (e : PHookEntry) : Prop :=
  strlen (Entry.function_name e) <= 255 /\ Entry.is_active e = true.

(** A call whose name, if it installs one, fits the 255 characters of the
    entry's field. *)
Definition short_call (c : Call) : Prop :=
  forall n, called_name c = Some n -> strlen n <= 255.

(** ** Proof automation *)

Ltac unfold_monad :=
  unfold fmap, bind, ret, gets, modify, config_write,
    pthread_mutex_lock, pthread_mutex_unlock,
    result_of, globals_of, trace_of in *.

(** ** The system information handler *)

(** [struct utsname] of [<sys/utsname.h>]: five character arrays of the
    same size. *)
Module Utsname.
Record utsname : Set := mk {
  sysname : list byte;
  nodename : list byte;
  release : list byte;
  version : list byte;
  machine : list byte
}.
End Utsname.

(** [hooked_uname(buf)].  [namelen] is [sizeof(buf->sysname)], the size the
    platform header gives to every field of [struct utsname]; the second
    component of the result is the memory at [buf] after the call. *)
Definition hooked_uname (namelen : Z) (g : Globals)
           (buf : option Utsname.utsname)
  : Z * option Utsname.utsname :=
  match buf with
  | None => (-1, None)
  | Some u =>
    let c := g_config_data g in
    let sysname1 :=
      strncpy (Utsname.sysname u) (system_name c) (usize (namelen - 1)) in
    let machine1 :=
      strncpy (Utsname.machine u) (machine c) (usize (namelen - 1)) in
    let release1 :=
      strncpy (Utsname.release u) (release c) (usize (namelen - 1)) in
    let version1 :=
      strncpy (Utsname.version u) (version c) (usize (namelen - 1)) in
    let nodename1 :=
      strncpy (Utsname.nodename u) (hostname c) (usize (namelen - 1)) in
    (0, Some (Utsname.mk
                (store sysname1 (usize (namelen - 1)) NUL)
                (store nodename1 (usize (namelen - 1)) NUL)
                (store release1 (usize (namelen - 1)) NUL)
                (store version1 (usize (namelen - 1)) NUL)
                (store machine1 (usize (namelen - 1)) NUL)))
  end.

(** ** The mutex along a trace *)

(** The state of [g_hook_mutex] after a trace, starting from [held];
    [None] when the trace locks a mutex that is held or unlocks one that
    is free. *)
Fixpoint mutex_after (held : bool) (t : list Event) : option bool :=
  match t with
  | [] => Some held
  | EvLock :: t' => if held then None else mutex_after true t'
  | EvUnlock :: t' => if held then mutex_after false t' else None
  | EvConfigWrite _ :: t' => mutex_after held t'
  end.

(** ** Well-formed configuration *)

(** A character array of [size] bytes holding a terminated string. *)
Definition terminated_array (size : nat) (a : list byte) : Prop :=
  length a = size /\ strlen a < Z.of_nat size.

Definition config_ok (c : PHookConfigData) : Prop :=
  terminated_array 256 (hostname c) /\
  terminated_array 256 (system_name c) /\
  terminated_array 256 (machine c) /\
  terminated_array 256 (release c) /\
  terminated_array 512 (version c).

(** ** More sample data *)

(** A platform other than the supported one. *)
Definition other_platform_env : Env :=
  mkEnv (lookup_symbol sample_symbols) false 8192 8208 8224 8240.

Definition blank_utsname : Utsname.utsname :=
  Utsname.mk (repeat "U"%byte 8) (repeat "U"%byte 8) (repeat "U"%byte 8)
             (repeat "U"%byte 8) (repeat "U"%byte 8).

(** * Properties *)

(** ** C strings *)

Lemma byte_eqb_refl (c : byte) : Byte.eqb c c = true.
Proof. now apply Byte.byte_dec_lb. Qed.

Lemma byte_eqb_eq (x y : byte) : Byte.eqb x y = true <-> x = y.
Proof. split; [apply Byte.byte_dec_bl | apply Byte.byte_dec_lb]. Qed.

Lemma byte_eqb_neq (x y : byte) : Byte.eqb x y = false <-> x <> y.
Proof.
  split.
  - apply Byte.eqb_false.
  - intros H. destruct (Byte.eqb x y) eqn:E; [|reflexivity].
    now apply byte_eqb_eq in E.
Qed.

Lemma to_N_inj (x y : byte) : Byte.to_N x = Byte.to_N y -> x = y.
Proof.
  intros H. pose proof (Byte.of_to_N x) as Hx.
  rewrite H, Byte.of_to_N in Hx. now inversion Hx.
Qed.

Lemma uchar_inj (x y : byte) : uchar x - uchar y = 0 -> x = y.
Proof. unfold uchar. intros H. apply to_N_inj. lia. Qed.

Lemma uchar_NUL (x : byte) : uchar x = 0 <-> x = NUL.
Proof.
  split.
  - intros H. apply uchar_inj. unfold uchar at 2. simpl. lia.
  - intros ->. reflexivity.
Qed.

Lemma c_str_no_NUL (s : list byte) : ~ In NUL (c_str s).
Proof.
  induction s as [|c s IH]; simpl; [tauto|].
  destruct (Byte.eqb c NUL) eqn:E; simpl; [tauto|].
  apply byte_eqb_neq in E. intros [H|H]; [now apply E | now apply IH].
Qed.

Lemma c_str_app_NUL (a r : list byte) :
  ~ In NUL a -> c_str (a ++ NUL :: r) = a.
Proof.
  induction a as [|c a IH]; simpl; intros H.
  - reflexivity.
  - destruct (Byte.eqb c NUL) eqn:E.
    + apply byte_eqb_eq in E. exfalso. apply H. now left.
    + f_equal. apply IH. intros Hin. apply H. now right.
Qed.

Lemma c_str_fixed (a : list byte) : ~ In NUL a -> c_str a = a.
Proof.
  induction a as [|c a IH]; simpl; intros H; [reflexivity|].
  destruct (Byte.eqb c NUL) eqn:E.
  - apply byte_eqb_eq in E. exfalso. apply H. now left.
  - f_equal. apply IH. intros Hin. apply H. now right.
Qed.

Lemma c_str_idem (s : list byte) : c_str (c_str s) = c_str s.
Proof. apply c_str_fixed, c_str_no_NUL. Qed.

Lemma c_str_lit_free (a r : list byte) :
  c_str (c_str a ++ NUL :: r) = c_str a.
Proof. apply c_str_app_NUL, c_str_no_NUL. Qed.

Lemma firstn_no_NUL (n : nat) (a : list byte) :
  ~ In NUL a -> ~ In NUL (firstn n a).
Proof.
  intros H Hin. apply H. rewrite <- (firstn_skipn n a).
  apply in_or_app. now left.
Qed.

Lemma firstn_repeat {A} (x : A) (k n : nat) :
  (k <= n)%nat -> firstn k (repeat x n) = repeat x k.
Proof.
  revert n. induction k as [|k IH]; intros [|n] H; simpl; try reflexivity.
  - lia.
  - f_equal. apply IH. lia.
Qed.

(** [strcmp] returns [0] exactly on equal strings. *)
Lemma strcmp_zero (a b : list byte) :
  strcmp a b = 0 <-> c_str a = c_str b.
Proof.
  revert b. induction a as [|x a IH]; intros [|y b]; simpl.
  - tauto.
  - destruct (Byte.eqb y NUL) eqn:E.
    + apply byte_eqb_eq in E. subst. split; reflexivity.
    + apply byte_eqb_neq in E. split; [|discriminate].
      intros H. exfalso. apply E. apply uchar_NUL. lia.
  - destruct (Byte.eqb x NUL) eqn:E.
    + apply byte_eqb_eq in E. subst. split; reflexivity.
    + apply byte_eqb_neq in E. split; [|discriminate].
      intros H. exfalso. apply E. apply uchar_NUL. lia.
  - destruct (Byte.eqb x y) eqn:Exy.
    + apply byte_eqb_eq in Exy. subst y.
      destruct (Byte.eqb x NUL); [tauto|].
      rewrite IH. split; [congruence | now inversion 1].
    + apply byte_eqb_neq in Exy. split.
      * intros H. exfalso. now apply Exy, uchar_inj.
      * destruct (Byte.eqb x NUL) eqn:Ex, (Byte.eqb y NUL) eqn:Ey;
          try discriminate.
        -- apply byte_eqb_eq in Ex, Ey. congruence.
        -- intros H. inversion H. contradiction.
Qed.

Lemma strcmp_eqb_true (a b : list byte) :
  (strcmp a b =? 0) = true <-> c_str a = c_str b.
Proof. rewrite Z.eqb_eq. apply strcmp_zero. Qed.

Lemma strcmp_eqb_false (a b : list byte) :
  (strcmp a b =? 0) = false <-> c_str a <> c_str b.
Proof. rewrite Z.eqb_neq. now rewrite strcmp_zero. Qed.

Lemma strcmp_congr (a a' b : list byte) :
  c_str a = c_str a' -> (strcmp a b =? 0) = (strcmp a' b =? 0).
Proof.
  intros H. destruct (strcmp a' b =? 0) eqn:E.
  - apply strcmp_eqb_true. apply strcmp_eqb_true in E. congruence.
  - apply strcmp_eqb_false. apply strcmp_eqb_false in E. congruence.
Qed.

Lemma strcmp_congr_r (a b b' : list byte) :
  c_str b = c_str b' -> (strcmp a b =? 0) = (strcmp a b' =? 0).
Proof.
  intros H. destruct (strcmp a b' =? 0) eqn:E.
  - apply strcmp_eqb_true. apply strcmp_eqb_true in E. congruence.
  - apply strcmp_eqb_false. apply strcmp_eqb_false in E. congruence.
Qed.

(** The bounded copy followed by the explicit terminator, as the file does
    it for every [char[256]] field: the stored string is the source cut to
    255 characters, whatever the destination held. *)
Lemma c_str_bounded_copy (dst src : list byte) :
  c_str (store (strncpy dst src (256 - 1)) (256 - 1) NUL)
  = firstn 255 (c_str src).
Proof.
  unfold store, strncpy.
  change (Z.to_nat (256 - 1)) with 255%nat.
  set (X := firstn 255 (c_str src ++ repeat NUL 255)).
  assert (HX : length X = 255%nat).
  { unfold X. rewrite length_firstn, length_app, repeat_length.
    apply Nat.min_l. lia. }
  rewrite firstn_app, HX, Nat.sub_diag, firstn_0, app_nil_r.
  rewrite firstn_all2 by lia.
  unfold X. rewrite firstn_app.
  destruct (Nat.le_gt_cases 255 (length (c_str src))) as [Hl|Hl].
  - replace (255 - length (c_str src))%nat with 0%nat by lia.
    rewrite firstn_0, app_nil_r.
    apply c_str_app_NUL, firstn_no_NUL, c_str_no_NUL.
  - rewrite (firstn_all2 (c_str src)) by lia.
    rewrite firstn_repeat by lia.
    destruct (255 - length (c_str src))%nat as [|k] eqn:Ek; [lia|].
    simpl repeat. rewrite <- app_assoc. simpl.
    apply c_str_lit_free.
Qed.

Lemma bounded_copy_matches (dst src : list byte) :
  strlen src <= 255 ->
  c_str (store (strncpy dst src (256 - 1)) (256 - 1) NUL) = c_str src.
Proof.
  unfold strlen. intros H. rewrite c_str_bounded_copy.
  apply firstn_all2. lia.
Qed.

(** ** The operations, step by step *)

(** The entry and the handle a successful [ph_install_hook] builds. *)
Lemma install_success_inv (env : Env) (n : option (list byte)) (r : Z)
      (h : option PHookHandle) (b : option PHookEntry) (g : Globals) :
  fst (result_of (ph_install_hook env n r h b g)) = PH_SUCCESS ->
  exists name h0 blk,
    n = Some name /\ h = Some h0 /\ b = Some blk /\ r <> 0 /\
    g_hook_system_initialized g = true /\
    ph_find_hook_by_name (g_hook_list_head g) name = None /\
    dlsym env name <> 0 /\
    globals_of (ph_install_hook env n r h b g) =
      set_next_hook_id (u32 (g_next_hook_id g + 1))
        (set_list_head
           (Entry.mk (store (strncpy (Entry.function_name blk) name (256 - 1))
                            (256 - 1) NUL)
                     (dlsym env name) r true :: g_hook_list_head g) g) /\
    snd (result_of (ph_install_hook env n r h b g)) =
      Some (Handle.mk (g_next_hook_id g)
                      (store (strncpy (Handle.function_name h0) name (256 - 1))
                             (256 - 1) NUL)
                      true).
Proof.
  unfold ph_install_hook.
  destruct n as [name|], h as [h0|]; try (unfold_monad; simpl; discriminate).
  destruct (r =? 0) eqn:Er; [unfold_monad; simpl; discriminate|].
  unfold_monad; simpl.
  destruct (g_hook_system_initialized g) eqn:Ei; simpl; [|discriminate].
  destruct (ph_find_hook_by_name (g_hook_list_head g) name) eqn:Ef;
    simpl; [discriminate|].
  destruct (dlsym env name =? 0) eqn:Ed; simpl; [discriminate|].
  destruct b as [blk|]; simpl; [|discriminate].
  intros _. exists name, h0, blk.
  apply Z.eqb_neq in Er, Ed. repeat split; auto.
Qed.

(** A failing [ph_install_hook] changes neither the globals nor the
    handle. *)
Lemma install_failure_unchanged (env : Env) (n : option (list byte)) (r : Z)
      (h : option PHookHandle) (b : option PHookEntry) (g : Globals) :
  fst (result_of (ph_install_hook env n r h b g)) <> PH_SUCCESS ->
  globals_of (ph_install_hook env n r h b g) = g /\
  snd (result_of (ph_install_hook env n r h b g)) = h.
Proof.
  unfold ph_install_hook.
  destruct n as [name|], h as [h0|]; try (unfold_monad; simpl; tauto).
  destruct (r =? 0) eqn:Er; [unfold_monad; simpl; tauto|].
  unfold_monad; simpl.
  destruct (g_hook_system_initialized g) eqn:Ei; simpl; [|tauto].
  destruct (ph_find_hook_by_name (g_hook_list_head g) name) eqn:Ef;
    simpl; [tauto|].
  destruct (dlsym env name =? 0) eqn:Ed; simpl; [tauto|].
  destruct b as [blk|]; simpl; [|tauto].
  intros H. now elim H.
Qed.

Lemma remove_success_inv (h : option PHookHandle) (g : Globals) :
  fst (result_of (ph_remove_hook h g)) = PH_SUCCESS ->
  exists h0 l',
    h = Some h0 /\ Handle.is_valid h0 = true /\
    g_hook_system_initialized g = true /\
    remove_loop (g_hook_list_head g) (Handle.function_name h0) = Some l' /\
    globals_of (ph_remove_hook h g) = set_list_head l' g.
Proof.
  unfold ph_remove_hook.
  destruct h as [h0|]; [|unfold_monad; simpl; discriminate].
  destruct (Handle.is_valid h0) eqn:Ev; simpl;
    [|unfold_monad; simpl; discriminate].
  unfold_monad; simpl.
  destruct (g_hook_system_initialized g) eqn:Ei; simpl; [|discriminate].
  destruct (remove_loop (g_hook_list_head g) (Handle.function_name h0))
    as [l'|] eqn:El; simpl; [|discriminate].
  intros _. exists h0, l'. auto.
Qed.

Lemma remove_failure_unchanged (h : option PHookHandle) (g : Globals) :
  fst (result_of (ph_remove_hook h g)) <> PH_SUCCESS ->
  globals_of (ph_remove_hook h g) = g.
Proof.
  unfold ph_remove_hook.
  destruct h as [h0|]; [|unfold_monad; simpl; tauto].
  destruct (Handle.is_valid h0) eqn:Ev; simpl;
    [|unfold_monad; simpl; tauto].
  unfold_monad; simpl.
  destruct (g_hook_system_initialized g) eqn:Ei; simpl; [|tauto].
  destruct (remove_loop (g_hook_list_head g) (Handle.function_name h0))
    as [l'|] eqn:El; simpl; [|tauto].
  intros H. now elim H.
Qed.

(** [ph_remove_hook] never writes through its handle. *)
Lemma remove_handle_untouched (h : option PHookHandle) (g : Globals) :
  snd (result_of (ph_remove_hook h g)) = h.
Proof.
  unfold ph_remove_hook.
  destruct h as [h0|]; [|reflexivity].
  destruct (Handle.is_valid h0); simpl; [|reflexivity].
  unfold_monad; simpl.
  destruct (g_hook_system_initialized g); simpl; [|reflexivity].
  now destruct (remove_loop (g_hook_list_head g) (Handle.function_name h0)).
Qed.

Lemma registry_eq_refl (g : Globals) : registry_eq g g.
Proof. now repeat split. Qed.

Lemma registry_eq_set_config (c : PHookConfigData) (g : Globals) :
  registry_eq g (set_config c g).
Proof. now repeat split. Qed.

(** The effect of [ph_install_hook], seen from a state [g0] with the same
    registry as the one it runs in. *)
Lemma install_effect (env : Env) (c : Call) (n : option (list byte)) (r : Z)
      (h : option PHookHandle) (b : option PHookEntry) (g0 g : Globals) :
  registry_eq g0 g ->
  called_name c = n ->
  (forall x, removed_name c (RInstall (fst x) (snd x)) = None) ->
  effect c g0
         (RInstall (fst (result_of (ph_install_hook env n r h b g)))
                   (snd (result_of (ph_install_hook env n r h b g))))
         (globals_of (ph_install_hook env n r h b g)).
Proof.
  intros (Hi & Hl & Hn) Hcn Hc.
  destruct (fst (result_of (ph_install_hook env n r h b g))) eqn:Er.
  1: { destruct (install_success_inv env n r h b g Er)
         as (name & h0 & blk & -> & -> & -> & Hr & Hini & Hfind & Hd & Hg & Hh).
       rewrite Hg, Hh.
       apply eff_install
         with (name := name)
              (e := Entry.mk
                      (store (strncpy (Entry.function_name blk) name (256 - 1))
                             (256 - 1) NUL)
                      (dlsym env name) r true).
       - exact Hcn.
       - congruence.
       - exact Hini.
       - congruence.
       - apply c_str_bounded_copy.
       - reflexivity.
       - unfold set_next_hook_id, set_list_head.
         cbn [g_hook_list_head]. now rewrite Hl.
       - cbn [issued_id Handle.id]. now rewrite Hn.
       - unfold set_next_hook_id. cbn [g_next_hook_id]. now rewrite Hn.
       - apply (Hc (PH_SUCCESS, None)). }
  all: destruct (install_failure_unchanged env n r h b g) as [Hg Hh];
    [rewrite Er; discriminate|];
    rewrite Hg; apply eff_quiet;
    [ now repeat split
    | reflexivity
    | match goal with |- removed_name _ (RInstall ?a ?b) = _ =>
        apply (Hc (a, b)) end ].
Qed.

Lemma call_effect (env : Env) (c : Call) (g : Globals) :
  effect c g (result_of (call env c g)) (globals_of (call env c g)).
Proof.
  destruct c as [ | | n r h b | h | h | n | cfg h b | cfg h b | cfg h b
                | cfg h b | en | | buf sz ].
  - (* ph_initialize *)
    unfold call, ph_initialize, ph_is_platform_supported. unfold_monad; simpl.
    destruct (g_hook_system_initialized g) eqn:Ei; simpl.
    + apply eff_quiet; auto using registry_eq_refl.
    + destruct (apple env); simpl.
      * apply eff_init; auto.
      * apply eff_quiet; auto using registry_eq_refl.
  - (* ph_cleanup *)
    unfold call, ph_cleanup. unfold_monad; simpl.
    destruct (g_hook_system_initialized g) eqn:Ei; simpl.
    + apply eff_cleanup; auto.
    + apply eff_quiet; auto using registry_eq_refl.
  - (* ph_install_hook *)
    unfold call, fmap, bind, ret, result_of, globals_of.
    pose proof (install_effect env (CallInstallHook n r h b) n r h b g g
                  (registry_eq_refl g) eq_refl (fun _ => eq_refl)) as H.
    unfold result_of, globals_of in H.
    destruct (ph_install_hook env n r h b g) as [[[res h'] g'] t].
    exact H.
  - (* ph_remove_hook *)
    unfold call, fmap, bind, ret, result_of, globals_of.
    pose proof (remove_handle_untouched h g) as Hh.
    destruct (fst (result_of (ph_remove_hook h g))) eqn:Er.
    1: { destruct (remove_success_inv h g Er)
           as (h0 & l' & -> & Hv & Hi & Hl & Hg).
         unfold result_of, globals_of in *.
         destruct (ph_remove_hook (Some h0) g) as [[[res h'] g'] t].
         simpl in *. subst.
         eapply eff_remove; simpl; eauto. }
    all: pose proof (remove_failure_unchanged h g) as Hg;
      rewrite Er in Hg; specialize (Hg ltac:(discriminate));
      unfold result_of, globals_of in *;
      destruct (ph_remove_hook h g) as [[[res h'] g'] t];
      simpl in *; subst;
      apply eff_quiet; auto using registry_eq_refl; now destruct h.
  - (* ph_get_original *)
    unfold call, ph_get_original.
    destruct h as [h0|]; [destruct (Handle.is_valid h0)|];
      unfold_monad; simpl; apply eff_quiet; auto using registry_eq_refl.
  - (* ph_is_hooked *)
    unfold call, ph_is_hooked.
    destruct n; unfold_monad; simpl;
      apply eff_quiet; auto using registry_eq_refl.
  - (* ph_install_getuid_hook *)
    unfold call, ph_install_getuid_hook.
    destruct cfg as [cfg|], h as [h0|];
      try solve [unfold_monad; simpl; apply eff_quiet;
                 auto using registry_eq_refl].
    unfold fmap, bind, ret, result_of, globals_of,
      pthread_mutex_lock, pthread_mutex_unlock, config_write.
    cbv beta iota zeta.
    match goal with |- context [ph_install_hook env ?n ?r ?h ?b ?g1] =>
      pose proof (install_effect env (CallInstallGetuidHook (Some cfg) h b)
                    n r h b g g1 (registry_eq_set_config _ g) eq_refl
                    (fun _ => eq_refl)) as H;
      unfold result_of, globals_of in H;
      destruct (ph_install_hook env n r h b g1) as [[[res h'] g'] t]
    end.
    exact H.
  - (* ph_install_getgid_hook *)
    unfold call, ph_install_getgid_hook.
    destruct cfg as [cfg|], h as [h0|];
      try solve [unfold_monad; simpl; apply eff_quiet;
                 auto using registry_eq_refl].
    unfold fmap, bind, ret, result_of, globals_of,
      pthread_mutex_lock, pthread_mutex_unlock, config_write.
    cbv beta iota zeta.
    match goal with |- context [ph_install_hook env ?n ?r ?h ?b ?g1] =>
      pose proof (install_effect env (CallInstallGetgidHook (Some cfg) h b)
                    n r h b g g1 (registry_eq_set_config _ g) eq_refl
                    (fun _ => eq_refl)) as H;
      unfold result_of, globals_of in H;
      destruct (ph_install_hook env n r h b g1) as [[[res h'] g'] t]
    end.
    exact H.
  - (* ph_install_gethostname_hook *)
    unfold call, ph_install_gethostname_hook.
    destruct cfg as [cfg|], h as [h0|];
      try solve [unfold_monad; simpl; apply eff_quiet;
                 auto using registry_eq_refl].
    unfold fmap, bind, ret, result_of, globals_of,
      pthread_mutex_lock, pthread_mutex_unlock, config_write.
    cbv beta iota zeta.
    match goal with |- context [ph_install_hook env ?n ?r ?h ?b ?g1] =>
      pose proof (install_effect env
                    (CallInstallGethostnameHook (Some cfg) h b)
                    n r h b g g1 ltac:(now repeat split) eq_refl
                    (fun _ => eq_refl)) as H;
      unfold result_of, globals_of in H;
      destruct (ph_install_hook env n r h b g1) as [[[res h'] g'] t]
    end.
    exact H.
  - (* ph_install_uname_hook *)
    unfold call, ph_install_uname_hook.
    destruct cfg as [cfg|], h as [h0|];
      try solve [unfold_monad; simpl; apply eff_quiet;
                 auto using registry_eq_refl].
    unfold fmap, bind, ret, result_of, globals_of,
      pthread_mutex_lock, pthread_mutex_unlock, config_write.
    cbv beta iota zeta.
    match goal with |- context [ph_install_hook env ?n ?r ?h ?b ?g1] =>
      pose proof (install_effect env (CallInstallUnameHook (Some cfg) h b)
                    n r h b g g1 ltac:(now repeat split) eq_refl
                    (fun _ => eq_refl)) as H;
      unfold result_of, globals_of in H;
      destruct (ph_install_hook env n r h b g1) as [[[res h'] g'] t]
    end.
    exact H.
  - (* ph_set_debug_logging *)
    unfold call, ph_set_debug_logging. unfold_monad; simpl.
    apply eff_quiet; auto. now repeat split.
  - (* ph_get_active_hook_count *)
    unfold call, ph_get_active_hook_count. unfold_monad; simpl.
    apply eff_quiet; auto using registry_eq_refl.
  - (* ph_get_active_hooks *)
    unfold call, ph_get_active_hooks.
    destruct buf as [buf|]; [destruct (sz =? 0)|];
      unfold_monad; simpl;
      try solve [apply eff_quiet; auto using registry_eq_refl].
    destruct (active_hooks_loop (g_hook_list_head g) buf sz 0 0); simpl.
    apply eff_quiet; auto using registry_eq_refl.
Qed.

(** ** Sequences of calls *)

Lemma calls_cons_result (env : Env) (c : Call) (cs : list Call)
      (g : Globals) :
  result_of (calls env (c :: cs) g) =
  result_of (call env c g)
  :: result_of (calls env cs (globals_of (call env c g))).
Proof.
  simpl. unfold bind, ret, result_of, globals_of.
  destruct (call env c g) as [[r g1] t1]. simpl.
  now destruct (calls env cs g1) as [[rs g2] t2].
Qed.

Lemma calls_cons_globals (env : Env) (c : Call) (cs : list Call)
      (g : Globals) :
  globals_of (calls env (c :: cs) g) =
  globals_of (calls env cs (globals_of (call env c g))).
Proof.
  simpl. unfold bind, ret, result_of, globals_of.
  destruct (call env c g) as [[r g1] t1]. simpl.
  now destruct (calls env cs g1) as [[rs g2] t2].
Qed.

Lemma calls_app_globals (env : Env) (cs1 cs2 : list Call) (g : Globals) :
  globals_of (calls env (cs1 ++ cs2) g) =
  globals_of (calls env cs2 (globals_of (calls env cs1 g))).
Proof.
  revert g. induction cs1 as [|c cs1 IH]; intros g.
  - reflexivity.
  - rewrite <- app_comm_cons, !calls_cons_globals. apply IH.
Qed.

Lemma call_no_entry_before_init (env : Env) (c : Call) (g : Globals) :
  no_entry_before_init g ->
  no_entry_before_init (globals_of (call env c g)).
Proof.
  unfold no_entry_before_init. intros Hg.
  destruct (call_effect env c g)
    as [(Hi & Hl & _) _ _ | _ Hi' | _ _ Hl' | e name _ _ Hi' | name _ Hi'];
    try congruence.
  intros H. rewrite <- Hl. apply Hg. congruence.
Qed.

Lemma reachable_no_entry_before_init (env : Env) (g : Globals) :
  reachable env g -> no_entry_before_init g.
Proof.
  intros [cs <-].
  assert (H : forall g0, no_entry_before_init g0 ->
                    no_entry_before_init (globals_of (calls env cs g0))).
  { induction cs as [|c cs IH]; intros g0 H0; [exact H0|].
    rewrite calls_cons_globals. now apply IH, call_no_entry_before_init. }
  apply H. intros _. reflexivity.
Qed.

(** ** Searching and unlinking *)

Lemma find_some_inv (l : list PHookEntry) (name : list byte)
      (e : PHookEntry) :
  ph_find_hook_by_name l name = Some e ->
  In e l /\ c_str (Entry.function_name e) = c_str name.
Proof.
  induction l as [|x l IH]; simpl; [discriminate|].
  destruct (strcmp (Entry.function_name x) name =? 0) eqn:E.
  - intros [= <-]. split; [now left | now apply strcmp_eqb_true].
  - intros H. destruct (IH H). split; [now right | assumption].
Qed.

Lemma find_none_iff (l : list PHookEntry) (name : list byte) :
  ph_find_hook_by_name l name = None <-> ~ In (c_str name) (entry_names l).
Proof.
  induction l as [|x l IH]; simpl; [tauto|].
  destruct (strcmp (Entry.function_name x) name =? 0) eqn:E.
  - apply strcmp_eqb_true in E. split; [discriminate|]. intros H. elim H.
    now left.
  - apply strcmp_eqb_false in E. rewrite IH. tauto.
Qed.

Lemma find_congr (l : list PHookEntry) (a b : list byte) :
  c_str a = c_str b -> ph_find_hook_by_name l a = ph_find_hook_by_name l b.
Proof.
  intros H. induction l as [|x l IH]; simpl; [reflexivity|].
  now rewrite (strcmp_congr_r _ a b H), IH.
Qed.

Lemma remove_loop_none_iff (l : list PHookEntry) (name : list byte) :
  remove_loop l name = None <-> ph_find_hook_by_name l name = None.
Proof.
  induction l as [|x l IH]; simpl; [tauto|].
  destruct (strcmp (Entry.function_name x) name =? 0); [split; discriminate|].
  destruct (remove_loop l name); rewrite <- IH; split; congruence.
Qed.

(** Unlinking the entry of one name leaves the search for any other name
    as it was. *)
Lemma remove_loop_other (l l' : list PHookEntry) (name other : list byte) :
  remove_loop l name = Some l' -> c_str name <> c_str other ->
  ph_find_hook_by_name l' other = ph_find_hook_by_name l other.
Proof.
  revert l'. induction l as [|x l IH]; simpl; intros l'; [discriminate|].
  destruct (strcmp (Entry.function_name x) name =? 0) eqn:E.
  - intros [= <-] Hne. apply strcmp_eqb_true in E.
    destruct (strcmp (Entry.function_name x) other =? 0) eqn:E2;
      [|reflexivity].
    apply strcmp_eqb_true in E2. congruence.
  - destruct (remove_loop l name) as [l0|]; [|discriminate].
    intros [= <-] Hne. simpl.
    destruct (strcmp (Entry.function_name x) other =? 0); [reflexivity|].
    now apply IH.
Qed.


Lemma remove_loop_head (e : PHookEntry) (l : list PHookEntry)
      (name : list byte) :
  c_str (Entry.function_name e) = c_str name ->
  remove_loop (e :: l) name = Some l.
Proof.
  intros H. simpl. now rewrite (proj2 (strcmp_eqb_true _ _) H).
Qed.

(** ** Installing over an existing entry *)

(** After a successful install of a name that fits the field, the search
    for that name returns the entry just built. *)
Lemma install_then_find (env : Env) (name : list byte) (r : Z)
      (h : option PHookHandle) (b : option PHookEntry) (g : Globals) :
  strlen name <= 255 ->
  fst (result_of (ph_install_hook env (Some name) r h b g)) = PH_SUCCESS ->
  exists e,
    ph_find_hook_by_name
      (g_hook_list_head (globals_of (ph_install_hook env (Some name) r h b g)))
      name = Some e /\
    Entry.replacement_function e = r /\
    Entry.original_function e = dlsym env name /\
    Entry.is_active e = true.
Proof.
  intros Hlen Hs.
  destruct (install_success_inv env _ r h b g Hs)
    as (name' & h0 & blk & [= <-] & -> & -> & Hr & Hini & Hfind & Hd & Hg & _).
  rewrite Hg. unfold set_next_hook_id, set_list_head.
  cbn [g_hook_list_head ph_find_hook_by_name Entry.function_name].
  rewrite (proj2 (strcmp_eqb_true _ _) (bounded_copy_matches _ _ Hlen)).
  eexists. split; [reflexivity|]. now repeat split.
Qed.

(** When the lookup finds an entry under [name] in a reachable state, a
    further [ph_install_hook] for [name] returns
    [PH_ERROR_ALREADY_HOOKED] and leaves everything as it was. *)
Lemma install_over_found_entry
      (env : Env) (g : Globals) (name : list byte) (e : PHookEntry)
      (r2 : Z) (h : PHookHandle) (b : option PHookEntry) :
  reachable env g ->
  ph_find_hook_by_name (g_hook_list_head g) name = Some e ->
  r2 <> 0 ->
  let out := ph_install_hook env (Some name) r2 (Some h) b g in
  result_of out = (PH_ERROR_ALREADY_HOOKED, Some h) /\
  globals_of out = g /\
  ph_find_hook_by_name (g_hook_list_head (globals_of out)) name = Some e.
Proof.
  intros Hreach Hfind Hr out.
  assert (Hini : g_hook_system_initialized g = true).
  { destruct (g_hook_system_initialized g) eqn:Ei; [reflexivity|].
    apply reachable_no_entry_before_init in Hreach.
    rewrite (Hreach Ei) in Hfind. discriminate. }
  assert (Hout : out = ((PH_ERROR_ALREADY_HOOKED, Some h), g, [EvLock; EvUnlock])).
  { unfold out, ph_install_hook. apply Z.eqb_neq in Hr. rewrite Hr.
    unfold_monad. simpl. rewrite Hini. simpl. rewrite Hfind. reflexivity. }
  rewrite Hout. unfold result_of, globals_of. simpl. auto.
Qed.

(** C2 fails on the code for a name longer than the 255 characters an
    entry keeps.  The entry stores the name cut by [strncpy], the check
    for an existing hook compares the stored names with the full name, so
    the second [ph_install_hook] of such a name does not see the first: it
    returns [PH_SUCCESS], puts a second entry in front of the first and
    hands out a new id.  Here for a name of 300 characters. *)
Theorem C2_long_name_second_install_succeeds :
  let first := CallInstallHook (Some long_name) 12288 (Some blank_handle)
                               (Some fresh_block) in
  let second := CallInstallHook (Some long_name) 20480 (Some blank_handle)
                                (Some fresh_block) in
  let g1 := globals_of (calls sample_env [CallInitialize; first]
                              initial_globals) in
  let out := call sample_env second g1 in
  strlen long_name = 300 /\
  result_of (ph_get_active_hook_count g1) = 1 /\
  map Entry.replacement_function (g_hook_list_head g1) = [12288] /\
  match result_of out with
  | RInstall code (Some h) => code = PH_SUCCESS /\ Handle.id h = 2
  | _ => False
  end /\
  globals_of out <> g1 /\
  map Entry.replacement_function (g_hook_list_head (globals_of out))
  = [20480; 12288] /\
  entry_names (g_hook_list_head (globals_of out))
  = [repeat "a"%byte 255; repeat "a"%byte 255] /\
  result_of (ph_get_active_hook_count (globals_of out)) = 2.
Proof.
  cbv zeta.
  split; [vm_compute; reflexivity|]. split; [vm_compute; reflexivity|].
  split; [vm_compute; reflexivity|]. split; [vm_compute; split; reflexivity|].
  split.
  - intros E. apply (f_equal g_next_hook_id) in E. vm_compute in E.
    discriminate.
  - split; [vm_compute; reflexivity|]. split; vm_compute; reflexivity.
Qed.

(** The scenario of the specification: two installs in a row. *)
Lemma install_twice (env : Env) (name : list byte) (r r2 : Z)
      (h : option PHookHandle) (h2 : PHookHandle)
      (b b2 : option PHookEntry) (g : Globals) :
  strlen name <= 255 -> r2 <> 0 ->
  fst (result_of (ph_install_hook env (Some name) r h b g)) = PH_SUCCESS ->
  let g1 := globals_of (ph_install_hook env (Some name) r h b g) in
  let out := ph_install_hook env (Some name) r2 (Some h2) b2 g1 in
  fst (result_of out) = PH_ERROR_ALREADY_HOOKED /\
  globals_of out = g1 /\
  option_map Entry.replacement_function
    (ph_find_hook_by_name (g_hook_list_head (globals_of out)) name) = Some r.
Proof.
  intros Hlen Hr2 Hs g1 out.
  destruct (install_then_find env name r h b g Hlen Hs) as (e & Hf & Hr & _).
  fold g1 in Hf.
  destruct (install_success_inv env _ r h b g Hs)
    as (name' & h0 & blk & _ & _ & _ & _ & _ & _ & _ & Hg & _).
  assert (Hini : g_hook_system_initialized g1 = true).
  { unfold g1. rewrite Hg. simpl.
    destruct (install_success_inv env _ r h b g Hs)
      as (? & ? & ? & _ & _ & _ & _ & Hi & _). exact Hi. }
  assert (Hout : out = ((PH_ERROR_ALREADY_HOOKED, Some h2), g1,
                        [EvLock; EvUnlock])).
  { unfold out, ph_install_hook. apply Z.eqb_neq in Hr2. rewrite Hr2.
    unfold_monad. simpl. rewrite Hini. simpl. rewrite Hf. reflexivity. }
  rewrite Hout. unfold result_of, globals_of. simpl.
  rewrite Hf. simpl. now rewrite Hr.
Qed.

(** ** Failing installs *)




(** ** Argument checks *)

(** C7, as the code has it: a null name, a null replacement or a null
    handle makes [ph_install_hook] return [PH_ERROR_INVALID_PARAM] before
    the lock is taken and with the globals and the handle untouched.  An
    empty name is not among the rejected arguments: once the library is
    initialised, a call with a name (empty or not), a replacement and a
    handle never returns [PH_ERROR_INVALID_PARAM]; the empty name is looked
    up and resolved like any other, and gives
    [PH_ERROR_FUNCTION_NOT_FOUND], again with nothing changed, when the
    registry has no entry for it and [dlsym] does not resolve it. *)
Theorem C7_null_arguments_rejected_empty_name_resolved
        (env : Env) (g : Globals) :
  (forall (n : option (list byte)) (r : Z) (h : option PHookHandle)
          (b : option PHookEntry),
      n = None \/ r = 0 \/ h = None ->
      ph_install_hook env n r h b g = ((PH_ERROR_INVALID_PARAM, h), g, [])) /\
  (forall (name : list byte) (r : Z) (h : PHookHandle)
          (b : option PHookEntry),
      g_hook_system_initialized g = true -> r <> 0 ->
      fst (result_of (ph_install_hook env (Some name) r (Some h) b g))
      <> PH_ERROR_INVALID_PARAM) /\
  (forall (name : list byte) (r : Z) (h : PHookHandle)
          (b : option PHookEntry),
      strlen name = 0 ->
      g_hook_system_initialized g = true -> r <> 0 ->
      ph_find_hook_by_name (g_hook_list_head g) name = None ->
      dlsym env name = 0 ->
      let out := ph_install_hook env (Some name) r (Some h) b g in
      fst (result_of out) = PH_ERROR_FUNCTION_NOT_FOUND /\
      globals_of out = g /\ snd (result_of out) = Some h).
Proof.
  split; [|split].
  - intros n r h b H. unfold ph_install_hook.
    destruct n as [name|], h as [h0|]; try reflexivity.
    destruct H as [H|[H|H]]; try discriminate. subst r. reflexivity.
  - intros name r h b Hini Hr.
    unfold ph_install_hook. apply Z.eqb_neq in Hr. rewrite Hr.
    unfold_monad. simpl. rewrite Hini. simpl.
    destruct (ph_find_hook_by_name (g_hook_list_head g) name); simpl;
      [discriminate|].
    destruct (dlsym env name =? 0); simpl; [discriminate|].
    destruct b; simpl; discriminate.
  - intros name r h b _ Hini Hr Hfind Hd out.
    assert (Hout : out = ((PH_ERROR_FUNCTION_NOT_FOUND, Some h), g,
                          [EvLock; EvUnlock])).
    { unfold out, ph_install_hook. apply Z.eqb_neq in Hr. rewrite Hr.
      unfold_monad. simpl. rewrite Hini. simpl. rewrite Hfind, Hd.
      reflexivity. }
    rewrite Hout. auto.
Qed.

Lemma C7_witness :
  ph_install_hook sample_env None 12288 (Some blank_handle)
                  (Some fresh_block) ready_globals
  = ((PH_ERROR_INVALID_PARAM, Some blank_handle), ready_globals, []) /\
  ph_install_hook sample_env (Some (lit "getuid")) 0 (Some blank_handle)
                  (Some fresh_block) ready_globals
  = ((PH_ERROR_INVALID_PARAM, Some blank_handle), ready_globals, []) /\
  ph_install_hook sample_env (Some (lit "getuid")) 12288 None
                  (Some fresh_block) ready_globals
  = ((PH_ERROR_INVALID_PARAM, None), ready_globals, []) /\
  (let out := ph_install_hook sample_env (Some (lit "")) 12288
                              (Some blank_handle) (Some fresh_block)
                              ready_globals in
   fst (result_of out) <> PH_ERROR_INVALID_PARAM /\
   fst (result_of out) = PH_ERROR_FUNCTION_NOT_FOUND /\
   globals_of out = ready_globals /\ snd (result_of out) = Some blank_handle).
Proof.
  destruct (C7_null_arguments_rejected_empty_name_resolved
              sample_env ready_globals) as (A & B & C).
  split; [apply A; now left|].
  split; [apply A; right; now left|].
  split; [apply A; right; now right|].
  cbv zeta. split.
  - apply B; [reflexivity | lia].
  - apply C; [reflexivity | reflexivity | lia | reflexivity | reflexivity].
Defined.

(** The claim as worded fails on an empty name: the call below reaches the
    symbol resolver and reports [PH_ERROR_FUNCTION_NOT_FOUND]. *)
Lemma C7_counterexample :
  strlen (lit "") = 0 /\
  fst (result_of (ph_install_hook sample_env (Some (lit "")) 12288
                                  (Some blank_handle) (Some fresh_block)
                                  ready_globals))
  = PH_ERROR_FUNCTION_NOT_FOUND /\
  PH_ERROR_FUNCTION_NOT_FOUND <> PH_ERROR_INVALID_PARAM.
Proof.
  split; [reflexivity|]. split; [vm_compute; reflexivity | discriminate].
Qed.

(** ** The host name handler *)

Lemma skipn_app_exact {A} (n : nat) (a b : list A) :
  length a = n -> skipn n (a ++ b) = b.
Proof.
  intros <-. rewrite skipn_app, skipn_all, Nat.sub_diag. reflexivity.
Qed.

Lemma firstn_app_exact {A} (n : nat) (a b : list A) :
  length a = n -> firstn n (a ++ b) = a.
Proof.
  intros <-. rewrite firstn_app, firstn_all, Nat.sub_diag, firstn_0.
  apply app_nil_r.
Qed.

(** A bounded copy of [n - 1] bytes followed by [dst[n - 1] = 0], when the
    source has fewer than [n] characters: the characters, NULs up to byte
    [n - 1] included, and the rest of the destination untouched. *)
Lemma bounded_copy_layout (dst src : list byte) (n : Z) :
  strlen src < n ->
  store (strncpy dst src (n - 1)) (n - 1) NUL
  = c_str src
    ++ repeat NUL (Z.to_nat n - length (c_str src))
    ++ skipn (Z.to_nat n) dst.
Proof.
  unfold strlen, store, strncpy. intros Hlen.
  set (k := Z.to_nat (n - 1)).
  set (L := length (c_str src)) in *.
  assert (Hk : Z.to_nat n = S k) by (unfold k; lia).
  assert (HL : (L <= k)%nat) by (unfold k; lia).
  assert (HX : firstn k (c_str src ++ repeat NUL k)
               = c_str src ++ repeat NUL (k - L)).
  { rewrite firstn_app. fold L. rewrite firstn_all2 by (fold L; lia).
    now rewrite firstn_repeat by lia. }
  rewrite HX.
  assert (HlenX : length (c_str src ++ repeat NUL (k - L)) = k).
  { rewrite length_app, repeat_length. fold L. lia. }
  rewrite (firstn_app_exact k _ _ HlenX).
  replace (S k) with (1 + k)%nat by lia.
  rewrite <- skipn_skipn, (skipn_app_exact k _ _ HlenX), skipn_skipn.
  rewrite Hk. replace (S k - L)%nat with ((k - L) + 1)%nat by lia.
  rewrite repeat_app. simpl repeat. rewrite <- !app_assoc.
  replace (1 + k)%nat with (S k) by lia. reflexivity.
Qed.

(** C4: with [len] the capacity of the caller's buffer, the handler
    returns [0] exactly when [len] exceeds the length of the configured
    host name.  It then leaves the host name and a NUL at the start of the
    buffer, all within the first [len] bytes, and every byte from index
    [len] on is as before; otherwise it returns [-1] and the memory is
    untouched. *)
Theorem C4_hooked_gethostname_bounds
        (g : Globals) (name : list byte) (len : Z) :
  0 <= len <= Z.of_nat (length name) ->
  let host := c_str (hostname (g_config_data g)) in
  let out := hooked_gethostname g name len in
  (fst out = 0 <-> Z.of_nat (length host) < len) /\
  (Z.of_nat (length host) < len ->
     firstn (length host + 1) (snd out) = host ++ [NUL] /\
     Z.of_nat (length host + 1) <= len /\
     c_str (snd out) = host /\
     skipn (Z.to_nat len) (snd out) = skipn (Z.to_nat len) name /\
     length (snd out) = length name) /\
  (len <= Z.of_nat (length host) -> fst out = -1 /\ snd out = name).
Proof.
  intros Hcap host out. unfold out, hooked_gethostname.
  fold (strlen (hostname (g_config_data g))).
  assert (Hs : strlen (hostname (g_config_data g)) = Z.of_nat (length host))
    by reflexivity.
  destruct (len <=? strlen (hostname (g_config_data g))) eqn:E.
  - apply Z.leb_le in E. simpl. repeat split; try lia; auto.
  - apply Z.leb_gt in E. cbn [fst snd].
    rewrite (bounded_copy_layout name _ len E). fold host.
    set (pad := (Z.to_nat len - length host)%nat).
    assert (Hpad : exists p, pad = S p).
    { exists (pad - 1)%nat. unfold pad. lia. }
    destruct Hpad as [p Hp].
    split; [split; [lia | reflexivity]|].
    split; [|lia]. intros _.
    split; [|split; [lia|split; [|split]]].
    + rewrite Hp. simpl repeat.
      replace (host ++ (NUL :: repeat NUL p) ++ skipn (Z.to_nat len) name)
        with ((host ++ [NUL]) ++ repeat NUL p ++ skipn (Z.to_nat len) name)
        by (rewrite <- !app_assoc; reflexivity).
      apply firstn_app_exact. rewrite length_app. simpl. lia.
    + rewrite Hp. simpl repeat. simpl app.
      apply c_str_app_NUL. apply c_str_no_NUL.
    + rewrite app_assoc. apply skipn_app_exact.
      rewrite length_app, repeat_length. unfold pad. lia.
    + rewrite !length_app, repeat_length, length_skipn. unfold pad. lia.
Qed.

Lemma C4_witness :
  let g := set_config (set_hostname (lit "abc") zero_config)
                      initial_globals in
  let buffer := repeat "?"%byte 6 in
  hooked_gethostname g buffer 4
  = (0, ["a"; "b"; "c"; NUL; "?"; "?"]%byte) /\
  hooked_gethostname g buffer 3 = (-1, buffer).
Proof.
  intros g buffer.
  destruct (C4_hooked_gethostname_bounds g buffer 4) as (A & B & _);
    [vm_compute; split; discriminate|].
  destruct (C4_hooked_gethostname_bounds g buffer 3) as (_ & _ & C);
    [vm_compute; split; discriminate|].
  split; [|destruct C as [C1 C2]; [vm_compute; discriminate|];
           rewrite (surjective_pairing (hooked_gethostname g buffer 3));
           now rewrite C1, C2].
  destruct B as (B1 & _ & _ & B4 & B5); [reflexivity|].
  reflexivity.
Defined.

(** ** Invariants of the registry *)

Lemma remove_loop_incl (l l' : list PHookEntry) (name : list byte) :
  remove_loop l name = Some l' -> forall e, In e l' -> In e l.
Proof.
  revert l'. induction l as [|x l IH]; simpl; intros l'; [discriminate|].
  destruct (strcmp (Entry.function_name x) name =? 0).
  - intros [= <-] e He. now right.
  - destruct (remove_loop l name) as [l0|]; [|discriminate].
    intros [= <-] e [He|He]; [now left | right; now apply (IH l0)].
Qed.

Lemma remove_loop_NoDup (l l' : list PHookEntry) (name : list byte) :
  remove_loop l name = Some l' ->
  NoDup (entry_names l) -> NoDup (entry_names l').
Proof.
  revert l'. induction l as [|x l IH]; simpl; intros l'; [discriminate|].
  intros H Hnd. inversion Hnd as [|? ? Hnotin Hnd']; subst.
  destruct (strcmp (Entry.function_name x) name =? 0).
  - injection H as <-. exact Hnd'.
  - destruct (remove_loop l name) as [l0|] eqn:E; [|discriminate].
    injection H as <-. simpl. constructor; [|now apply IH].
    intros Hin. apply Hnotin. unfold entry_names in *.
    apply in_map_iff in Hin. destruct Hin as (y & Hy & Hin).
    apply in_map_iff. exists y. split; [exact Hy|].
    eapply remove_loop_incl; eauto.
Qed.

(** Every call keeps the entries well formed. *)
Lemma call_entries_ok (env : Env) (c : Call) (g : Globals) :
  Forall entry_ok (g_hook_list_head g) ->
  Forall entry_ok (g_hook_list_head (globals_of (call env c g))).
Proof.
  intros Hok.
  destruct (call_effect env c g)
    as [(_ & El & _) _ _ | _ _ El | _ _ El | e nm _ _ _ _ En Ea El _
        | nm _ _ _ El _].
  - now rewrite <- El.
  - rewrite El. constructor.
  - rewrite El. constructor.
  - rewrite El. constructor; [|exact Hok]. split; [|exact Ea].
    unfold strlen. rewrite En, length_firstn. lia.
  - rewrite Forall_forall in *. intros e He.
    apply Hok. eapply remove_loop_incl; eauto.
Qed.

Lemma reachable_entries_ok (env : Env) (g : Globals) :
  reachable env g -> Forall entry_ok (g_hook_list_head g).
Proof.
  intros [cs <-].
  assert (H : forall g0, Forall entry_ok (g_hook_list_head g0) ->
                    Forall entry_ok
                           (g_hook_list_head (globals_of (calls env cs g0)))).
  { induction cs as [|c cs IH]; intros g0 H0; [exact H0|].
    rewrite calls_cons_globals. now apply IH, call_entries_ok. }
  apply H. constructor.
Qed.

(** As long as the names installed fit the field, the registry holds one
    entry per name. *)
Lemma call_unique_names (env : Env) (c : Call) (g : Globals) :
  short_call c ->
  NoDup (entry_names (g_hook_list_head g)) ->
  NoDup (entry_names (g_hook_list_head (globals_of (call env c g)))).
Proof.
  intros Hshort Hnd.
  destruct (call_effect env c g)
    as [(_ & El & _) _ _ | _ _ El | _ _ El | e nm Hc _ _ Hf En _ El _
        | nm _ _ _ El _].
  - now rewrite <- El.
  - rewrite El. constructor.
  - rewrite El. constructor.
  - rewrite El. simpl. constructor; [|exact Hnd].
    rewrite En. specialize (Hshort nm Hc). unfold strlen in Hshort.
    rewrite firstn_all2 by lia. now apply find_none_iff.
  - eapply remove_loop_NoDup; eauto.
Qed.

Lemma calls_unique_names (env : Env) (cs : list Call) :
  Forall short_call cs ->
  NoDup (entry_names
           (g_hook_list_head (globals_of (calls env cs initial_globals)))).
Proof.
  assert (H : forall g0, Forall short_call cs ->
                    NoDup (entry_names (g_hook_list_head g0)) ->
                    NoDup (entry_names
                             (g_hook_list_head
                                (globals_of (calls env cs g0))))).
  { induction cs as [|c cs IH]; intros g0 Hs H0; [exact H0|].
    inversion Hs; subst. rewrite calls_cons_globals.
    apply IH; [assumption | now apply call_unique_names]. }
  intros Hs. apply H; [exact Hs | constructor].
Qed.

(** ** Removing *)

Lemma is_hooked_find (name : list byte) (g : Globals) :
  result_of (ph_is_hooked (Some name) g) =
  match ph_find_hook_by_name (g_hook_list_head g) name with
  | Some _ => true
  | None => false
  end.
Proof. reflexivity. Qed.

Lemma remove_not_hooked (h0 : PHookHandle) (g : Globals) :
  Handle.is_valid h0 = true ->
  g_hook_system_initialized g = true ->
  ph_find_hook_by_name (g_hook_list_head g) (Handle.function_name h0) = None ->
  ph_remove_hook (Some h0) g
  = ((PH_ERROR_NOT_HOOKED, Some h0), g, [EvLock; EvUnlock]).
Proof.
  intros Hv Hi Hf. apply remove_loop_none_iff in Hf.
  unfold ph_remove_hook. rewrite Hv. unfold_monad. simpl.
  rewrite Hi. simpl. rewrite Hf. reflexivity.
Qed.




(** The entry [remove_loop] unlinks: the first one whose name equals the
    name asked for; everything else stays, in order. *)
Lemma remove_loop_split (l l' : list PHookEntry) (name : list byte) :
  remove_loop l name = Some l' ->
  exists l1 e l2,
    l = l1 ++ e :: l2 /\
    c_str (Entry.function_name e) = c_str name /\
    Forall (fun x => c_str (Entry.function_name x) <> c_str name) l1 /\
    l' = l1 ++ l2.
Proof.
  revert l'. induction l as [|x l IH]; simpl; intros l'; [discriminate|].
  destruct (strcmp (Entry.function_name x) name =? 0) eqn:E.
  - intros [= <-]. apply strcmp_eqb_true in E.
    exists [], x, l. repeat split; auto.
  - destruct (remove_loop l name) as [l0|]; [|discriminate].
    intros [= <-]. apply strcmp_eqb_false in E.
    destruct (IH l0 eq_refl) as (l1 & e & l2 & -> & He & Hl1 & ->).
    exists (x :: l1), e, l2. repeat split; auto.
Qed.

(** C10: [ph_remove_hook] finds its entry by the handle's function name
    and by nothing else.  The entry a successful call unlinks is the first
    one of the list whose name is the handle's, every other entry stays in
    place; a valid handle whose name no entry carries gets
    [PH_ERROR_NOT_HOOKED] and removes nothing; the id in the handle makes
    no difference; and the handle comes back unmodified.  Consequently a
    handle for [n] that was already used for a successful removal removes
    the entry of a later install of [n]: that entry, put at the head of the
    list under the same stored name, is the one the third call unlinks,
    and the list is back to what the first removal left. *)
Theorem C10_stale_handle_removes_later_entry
        (env : Env) (h0 : PHookHandle) (n : list byte) (r : Z)
        (slot : option PHookHandle) (b : option PHookEntry) (g : Globals) :
  c_str (Handle.function_name h0) = firstn 255 (c_str n) ->
  fst (result_of (ph_remove_hook (Some h0) g)) = PH_SUCCESS ->
  fst (result_of (ph_install_hook env (Some n) r slot b
                    (globals_of (ph_remove_hook (Some h0) g)))) = PH_SUCCESS ->
  let out1 := ph_remove_hook (Some h0) g in
  let out2 := ph_install_hook env (Some n) r slot b (globals_of out1) in
  let out3 := ph_remove_hook (snd (result_of out1)) (globals_of out2) in
  (forall i : Z,
      let hi := Handle.mk i (Handle.function_name h0) (Handle.is_valid h0) in
      fst (result_of (ph_remove_hook (Some hi) g)) = fst (result_of out1) /\
      globals_of (ph_remove_hook (Some hi) g) = globals_of out1) /\
  snd (result_of out1) = Some h0 /\
  (exists e,
      g_hook_list_head (globals_of out2)
      = e :: g_hook_list_head (globals_of out1) /\
      Entry.replacement_function e = r) /\
  fst (result_of out3) = PH_SUCCESS /\
  g_hook_list_head (globals_of out3) = g_hook_list_head (globals_of out1) /\
  (exists l1 e1 l2,
      g_hook_list_head g = l1 ++ e1 :: l2 /\
      c_str (Entry.function_name e1) = c_str (Handle.function_name h0) /\
      Forall (fun x => c_str (Entry.function_name x)
                       <> c_str (Handle.function_name h0)) l1 /\
      g_hook_list_head (globals_of out1) = l1 ++ l2) /\
  (exists e,
      g_hook_list_head (globals_of out2)
      = e :: g_hook_list_head (globals_of out1) /\
      c_str (Entry.function_name e) = c_str (Handle.function_name h0) /\
      g_hook_list_head (globals_of out3)
      = g_hook_list_head (globals_of out1)) /\
  (forall hx : PHookHandle,
      Handle.is_valid hx = true ->
      ph_find_hook_by_name (g_hook_list_head g) (Handle.function_name hx)
      = None ->
      result_of (ph_remove_hook (Some hx) g)
      = (PH_ERROR_NOT_HOOKED, Some hx) /\
      globals_of (ph_remove_hook (Some hx) g) = g).
Proof.
  intros Hname Hs1 Hs2 out1 out2 out3.
  pose proof (remove_handle_untouched (Some h0) g) as Hh. fold out1 in Hh.
  destruct (install_success_inv env _ r slot b _ Hs2)
    as (name & s0 & blk & [= <-] & -> & -> & Hr & Hini & Hfind & Hd & Hg & _).
  fold out1 in Hg, Hini. fold out2 in Hg.
  destruct (remove_success_inv _ _ Hs1)
    as (h' & l' & [= <-] & Hv & Hig & Hrl & Hg1).
  fold out1 in Hg1.
  assert (Hhead : remove_loop (g_hook_list_head (globals_of out2))
                              (Handle.function_name h0)
                  = Some (g_hook_list_head (globals_of out1))).
  { rewrite Hg. unfold set_next_hook_id, set_list_head.
    cbn [g_hook_list_head]. apply remove_loop_head.
    cbn [Entry.function_name]. now rewrite c_str_bounded_copy. }
  assert (Hi2 : g_hook_system_initialized (globals_of out2) = true)
    by (now rewrite Hg).
  assert (Hout3 : out3 = ((PH_SUCCESS, Some h0),
                          set_list_head (g_hook_list_head (globals_of out1))
                                        (globals_of out2),
                          [EvLock; EvUnlock])).
  { unfold out3. rewrite Hh. unfold ph_remove_hook. rewrite Hv.
    unfold_monad. simpl. rewrite Hi2. simpl. rewrite Hhead. reflexivity. }
  split; [|split; [exact Hh|split; [|split; [|split; [|split; [|split]]]]]].
  - intros i hi. unfold out1, ph_remove_hook, hi. simpl.
    destruct (Handle.is_valid h0); simpl; [|split; reflexivity].
    unfold_monad. simpl.
    destruct (g_hook_system_initialized g); simpl; [|split; reflexivity].
    destruct (remove_loop (g_hook_list_head g) (Handle.function_name h0));
      split; reflexivity.
  - eexists. rewrite Hg. split; reflexivity.
  - now rewrite Hout3.
  - now rewrite Hout3.
  - destruct (remove_loop_split _ _ _ Hrl) as (l1 & e1 & l2 & E1 & E2 & E3 & E4).
    exists l1, e1, l2. rewrite Hg1. cbn [set_list_head g_hook_list_head].
    auto.
  - eexists. rewrite Hg. split; [reflexivity|].
    cbn [Entry.function_name]. rewrite c_str_bounded_copy.
    split; [now rewrite Hname | now rewrite Hout3].
  - intros hx Hvx Hfx.
    rewrite (remove_not_hooked hx g Hvx Hig Hfx). split; reflexivity.
Qed.

Lemma C10_witness :
  let g := globals_of (ph_install_hook sample_env (Some (lit "uname")) 16384
                                       (Some blank_handle) (Some fresh_block)
                                       getuid_globals) in
  let h0 := the_handle getuid_handle in
  let out1 := ph_remove_hook (Some h0) g in
  let out2 := ph_install_hook sample_env (Some (lit "getuid")) 20480
                              (Some blank_handle) (Some fresh_block)
                              (globals_of out1) in
  let out3 := ph_remove_hook (snd (result_of out1)) (globals_of out2) in
  let absent := Handle.mk 1 (lit "getgid") true in
  map Entry.replacement_function (g_hook_list_head g) = [16384; 12288] /\
  fst (result_of out1) = PH_SUCCESS /\
  option_map Handle.id (snd (result_of out1)) = Some 1 /\
  map Entry.replacement_function (g_hook_list_head (globals_of out1))
  = [16384] /\
  fst (result_of out2) = PH_SUCCESS /\
  option_map Handle.id (snd (result_of out2)) = Some 3 /\
  map Entry.replacement_function (g_hook_list_head (globals_of out2))
  = [20480; 16384] /\
  fst (result_of out3) = PH_SUCCESS /\
  map Entry.replacement_function (g_hook_list_head (globals_of out3))
  = [16384] /\
  fst (result_of (ph_remove_hook (Some absent) g)) = PH_ERROR_NOT_HOOKED /\
  globals_of (ph_remove_hook (Some absent) g) = g.
Proof.
  intros g h0 out1 out2 out3 absent.
  destruct (C10_stale_handle_removes_later_entry
              sample_env h0 (lit "getuid") 20480 (Some blank_handle)
              (Some fresh_block) g)
    as (_ & H2 & _ & H4 & H5 & _ & _ & H8);
    [vm_compute; reflexivity | reflexivity | reflexivity |].
  destruct (H8 absent) as [H9 H10]; [reflexivity | reflexivity |].
  split; [reflexivity|]. split; [reflexivity|].
  split; [etransitivity; [exact (f_equal (option_map Handle.id) H2)
                         | reflexivity]|].
  split; [reflexivity|]. split; [reflexivity|]. split; [reflexivity|].
  split; [reflexivity|]. split; [exact H4|].
  split; [etransitivity;
          [exact (f_equal (map Entry.replacement_function) H5)
          | reflexivity]|].
  split; [exact (f_equal fst H9) | exact H10].
Defined.

(** ** A hook stays in place until it is released *)

Lemma stays_hooked (env : Env) (name : list byte) (cs : list Call) :
  forall g : Globals,
    g_hook_system_initialized g = true ->
    ph_find_hook_by_name (g_hook_list_head g) name <> None ->
    no_release env name cs g = true ->
    ph_find_hook_by_name
      (g_hook_list_head (globals_of (calls env cs g))) name <> None.
Proof.
  induction cs as [|c cs IH]; intros g Hi Hf Hn; [exact Hf|].
  rewrite calls_cons_globals. simpl in Hn.
  apply andb_prop in Hn. destruct Hn as [Hrel Hn].
  apply negb_true_iff in Hrel. unfold releases in Hrel.
  apply orb_false_iff in Hrel. destruct Hrel as [Hcl Hrm].
  apply IH; [| |exact Hn];
    destruct (call_effect env c g)
      as [(Ei & El & _) _ _ | Ei _ | Ec _ | e nm _ _ Ei' _ _ _ El _
          | nm _ Ei' Er El _]; try congruence.
  - (* an install puts its entry in front *)
    rewrite El. simpl.
    destruct (strcmp (Entry.function_name e) name =? 0);
      [discriminate | exact Hf].
  - (* a removal for another name *)
    rewrite Er in Hrm. apply strcmp_eqb_false in Hrm.
    now rewrite (remove_loop_other _ _ _ _ El Hrm).
Qed.

(** C3, as the code has it: for a name of at most 255 characters, after
    [ph_install_hook] returned [PH_SUCCESS], [ph_is_hooked] returns true
    for it, and still does after any calls of the interface among which
    there is neither a [ph_cleanup] nor a successful [ph_remove_hook] for a
    handle with that name. *)
Theorem C3_hooked_until_removed_or_cleaned_up
        (env : Env) (name : list byte) (r : Z) (h : option PHookHandle)
        (b : option PHookEntry) (g : Globals) (cs : list Call) :
  strlen name <= 255 ->
  fst (result_of (ph_install_hook env (Some name) r h b g)) = PH_SUCCESS ->
  let g1 := globals_of (ph_install_hook env (Some name) r h b g) in
  no_release env name cs g1 = true ->
  result_of (ph_is_hooked (Some name) g1) = true /\
  result_of (ph_is_hooked (Some name) (globals_of (calls env cs g1))) = true.
Proof.
  intros Hlen Hs g1 Hn.
  destruct (install_then_find env name r h b g Hlen Hs) as (e & Hf & _).
  fold g1 in Hf.
  assert (Hi : g_hook_system_initialized g1 = true).
  { destruct (install_success_inv env _ r h b g Hs)
      as (? & ? & ? & _ & _ & _ & _ & Hi & _ & _ & Hg & _).
    unfold g1. now rewrite Hg. }
  rewrite !is_hooked_find, Hf. split; [reflexivity|].
  pose proof (stays_hooked env name cs g1 Hi) as H.
  rewrite Hf in H. specialize (H ltac:(discriminate) Hn).
  destruct (ph_find_hook_by_name
              (g_hook_list_head (globals_of (calls env cs g1))) name);
    [reflexivity | now elim H].
Qed.

Lemma C3_witness :
  let cs := [ CallInstallGethostnameHook (Some sample_config)
                                         (Some blank_handle)
                                         (Some fresh_block);
              CallRemoveHook (Some (Handle.mk 2 (lit "gethostname") true));
              CallInitialize;
              CallIsHooked (Some (lit "getuid")) ] in
  result_of (ph_is_hooked (Some (lit "getuid")) getuid_globals) = true /\
  result_of (calls sample_env cs getuid_globals)
  = [ RInstall PH_SUCCESS
               (Some (Handle.mk 2 (store (strncpy (repeat NUL 256)
                                                  (lit "gethostname")
                                                  (256 - 1))
                                         (256 - 1) NUL) true));
      RRemove PH_SUCCESS (Some (Handle.mk 2 (lit "gethostname") true));
      RInit PH_SUCCESS;
      RBool true ] /\
  result_of (ph_is_hooked (Some (lit "getuid"))
                          (globals_of (calls sample_env cs getuid_globals)))
  = true.
Proof.
  intros cs.
  destruct (C3_hooked_until_removed_or_cleaned_up
              sample_env (lit "getuid") 12288 (Some blank_handle)
              (Some fresh_block) ready_globals cs)
    as [H1 H2]; [vm_compute; discriminate | reflexivity | reflexivity |].
  split; [exact H1|]. split; [vm_compute; reflexivity | exact H2].
Defined.

(** The claim as worded fails twice over: [ph_cleanup] drops the hook
    without any [ph_remove_hook], and for a name longer than the 255
    characters the entry keeps, [ph_is_hooked] answers false right after
    the successful install. *)
Lemma C3_counterexample :
  (let out := calls sample_env
                    [ CallInitialize;
                      CallInstallHook (Some (lit "getuid")) 12288
                                      (Some blank_handle) (Some fresh_block);
                      CallIsHooked (Some (lit "getuid"));
                      CallCleanup;
                      CallIsHooked (Some (lit "getuid")) ]
                    initial_globals in
   map (fun x => match x with
                 | RInstall res _ => RInstall res None
                 | _ => x
                 end) (result_of out)
   = [ RInit PH_SUCCESS; RInstall PH_SUCCESS None; RBool true; RUnit;
       RBool false ]) /\
  (let out := calls sample_env
                    [ CallInitialize;
                      CallInstallHook (Some long_name) 12288
                                      (Some blank_handle) (Some fresh_block);
                      CallIsHooked (Some long_name) ]
                    initial_globals in
   map (fun x => match x with
                 | RInstall res _ => RInstall res None
                 | _ => x
                 end) (result_of out)
   = [ RInit PH_SUCCESS; RInstall PH_SUCCESS None; RBool false ]).
Proof. split; vm_compute; reflexivity. Qed.

(** ** Handle ids *)

Lemma u32_small (z : Z) : 0 <= z < 2 ^ 32 -> u32 z = z.
Proof. intros H. unfold u32. now apply Z.mod_small. Qed.

Lemma ids_increase (env : Env) (cs : list Call) :
  forall g : Globals,
    g_hook_system_initialized g = true ->
    forallb (fun c => negb (is_cleanup c)) cs = true ->
    0 <= g_next_hook_id g ->
    g_next_hook_id g + Z.of_nat (length cs) < 2 ^ 32 ->
    let ids := issued_ids (result_of (calls env cs g)) in
    let g' := globals_of (calls env cs g) in
    StronglySorted Z.lt ids /\
    Forall (fun i => g_next_hook_id g <= i < g_next_hook_id g') ids /\
    g_next_hook_id g <= g_next_hook_id g'
      <= g_next_hook_id g + Z.of_nat (length cs).
Proof.
  induction cs as [|c cs IH]; intros g Hi Hnc H0 Hb.
  - unfold calls, ret, globals_of, result_of. simpl.
    split; [constructor|]. split; [constructor|]. lia.
  - rewrite calls_cons_result, calls_cons_globals.
    simpl in Hnc. apply andb_prop in Hnc. destruct Hnc as [Hc Hnc].
    apply negb_true_iff in Hc.
    change (length (c :: cs)) with (S (length cs)) in *.
    cbn [issued_ids].
    destruct (call_effect env c g)
      as [(Ei & _ & En) Eid _ | Ei _ | Ec _
          | e nm _ _ Ei' _ _ _ _ Eid En _ | nm _ Ei' _ _ En Eid];
      try congruence.
    + (* the registry is as before *)
      rewrite Eid.
      destruct (IH (globals_of (call env c g))) as (S1 & F1 & B1);
        try congruence; try lia.
      rewrite <- En in *. repeat split; auto; lia.
    + (* an install: the id is the counter, the counter moves on *)
      rewrite Eid. rewrite u32_small in En by lia.
      destruct (IH (globals_of (call env c g))) as (S1 & F1 & B1);
        try congruence; try lia.
      rewrite En in *. split; [|split].
      * constructor; [exact S1|].
        eapply Forall_impl; [|exact F1]. simpl. intros; lia.
      * constructor; [lia|].
        eapply Forall_impl; [|exact F1]. simpl. intros; lia.
      * lia.
    + (* a removal *)
      rewrite Eid.
      destruct (IH (globals_of (call env c g))) as (S1 & F1 & B1);
        try congruence; try lia.
      rewrite En in *. repeat split; auto; lia.
Qed.

Lemma sorted_lt_NoDup (l : list Z) : StronglySorted Z.lt l -> NoDup l.
Proof.
  induction 1 as [|a l Hs IH Hf]; constructor; [|exact IH].
  intros Hin. rewrite Forall_forall in Hf. specialize (Hf a Hin). lia.
Qed.

(** [ph_cleanup] and then [ph_initialize] start the counter afresh. *)
Lemma cleanup_initialize_resets (env : Env) (g : Globals) :
  apple env = true ->
  g_next_hook_id
    (globals_of (calls env [CallCleanup; CallInitialize] g)) = 1.
Proof.
  intros Ha. destruct g as [ini dbg l nxt cfg].
  unfold calls, call, ph_cleanup, ph_initialize, ph_is_platform_supported,
    fmap, bind, ret, gets, modify, pthread_mutex_lock, pthread_mutex_unlock,
    globals_of.
  rewrite Ha. destruct ini; reflexivity.
Qed.

(** C6, as the code has it: while the library stays initialised (no
    [ph_cleanup] among the calls) and the 32-bit counter does not wrap,
    the ids handed out by successful installs are the successive values of
    the counter: strictly increasing, hence pairwise distinct, and not
    below the counter at the start.  [ph_cleanup] followed by
    [ph_initialize] sets the counter back to [1]. *)
Theorem C6_ids_increase_until_cleanup
        (env : Env) (cs : list Call) (g : Globals) :
  g_hook_system_initialized g = true ->
  forallb (fun c => negb (is_cleanup c)) cs = true ->
  0 <= g_next_hook_id g ->
  g_next_hook_id g + Z.of_nat (length cs) < 2 ^ 32 ->
  let ids := issued_ids (result_of (calls env cs g)) in
  StronglySorted Z.lt ids /\
  NoDup ids /\
  Forall (fun i => g_next_hook_id g <= i) ids /\
  (apple env = true ->
   g_next_hook_id
     (globals_of (calls env [CallCleanup; CallInitialize]
                        (globals_of (calls env cs g)))) = 1).
Proof.
  intros Hi Hnc H0 Hb ids.
  destruct (ids_increase env cs g Hi Hnc H0 Hb) as (S1 & F1 & B1).
  fold ids in S1, F1.
  split; [exact S1|]. split; [now apply sorted_lt_NoDup|]. split.
  - eapply Forall_impl; [|exact F1]. simpl. intros; lia.
  - intros Ha. now apply cleanup_initialize_resets.
Qed.

Lemma C6_witness :
  let cs := [ CallInstallHook (Some (lit "getuid")) 12288
                              (Some blank_handle) (Some fresh_block);
              CallInstallHook (Some (lit "getuid")) 12288
                              (Some blank_handle) (Some fresh_block);
              CallInstallGethostnameHook (Some sample_config)
                                         (Some blank_handle)
                                         (Some fresh_block);
              CallRemoveHook (Some (Handle.mk 1 (lit "getuid") true));
              CallInstallHook (Some (lit "getuid")) 12288
                              (Some blank_handle) (Some fresh_block) ] in
  issued_ids (result_of (calls sample_env cs ready_globals)) = [1; 2; 3] /\
  StronglySorted Z.lt
    (issued_ids (result_of (calls sample_env cs ready_globals))) /\
  g_next_hook_id
    (globals_of (calls sample_env [CallCleanup; CallInitialize]
                       (globals_of (calls sample_env cs ready_globals)))) = 1.
Proof.
  intros cs.
  destruct (C6_ids_increase_until_cleanup sample_env cs ready_globals)
    as (H1 & _ & _ & H4);
    [reflexivity | reflexivity | vm_compute; discriminate
     | vm_compute; reflexivity |].
  split; [vm_compute; reflexivity|]. split; [exact H1|].
  apply H4. reflexivity.
Defined.

(** The claim as worded fails across a re-initialisation: the first
    install after [ph_cleanup] and [ph_initialize] gets id 1 again. *)
Lemma C6_counterexample :
  issued_ids
    (result_of
       (calls sample_env
              [ CallInitialize;
                CallInstallHook (Some (lit "getuid")) 12288
                                (Some blank_handle) (Some fresh_block);
                CallCleanup;
                CallInitialize;
                CallInstallHook (Some (lit "gethostname")) 12288
                                (Some blank_handle) (Some fresh_block) ]
              initial_globals))
  = [1; 1].
Proof. vm_compute. reflexivity. Qed.

(** ** Locking discipline of the configuration setters *)

Lemma install_trace (env : Env) (n : option (list byte)) (r : Z)
      (h : option PHookHandle) (b : option PHookEntry) (g : Globals) :
  trace_of (ph_install_hook env n r h b g) = [] \/
  trace_of (ph_install_hook env n r h b g) = [EvLock; EvUnlock].
Proof.
  unfold ph_install_hook.
  destruct n as [name|], h as [h0|]; try (now left).
  destruct (r =? 0); [now left|]. right.
  unfold_monad. simpl.
  destruct (g_hook_system_initialized g); simpl; [|reflexivity].
  destruct (ph_find_hook_by_name (g_hook_list_head g) name); simpl;
    [reflexivity|].
  destruct (dlsym env name =? 0); simpl; [reflexivity|].
  destruct b; reflexivity.
Qed.

(** The two numeric setters store under the mutex. *)
Lemma numeric_setters_locked (env : Env) (cfg : option PHookConfigData)
      (h : option PHookHandle) (b : option PHookEntry) (g : Globals) :
  writes_locked false (trace_of (ph_install_getuid_hook env cfg h b g))
  = true /\
  writes_locked false (trace_of (ph_install_getgid_hook env cfg h b g))
  = true.
Proof.
  unfold ph_install_getuid_hook, ph_install_getgid_hook.
  destruct cfg as [cfg|], h as [h0|]; try (split; reflexivity).
  unfold bind, pthread_mutex_lock, pthread_mutex_unlock, config_write,
    trace_of.
  cbv beta iota zeta.
  split.
  - pose proof (install_trace env (Some (lit "getuid"))
                  (addr_hooked_getuid env) (Some h0) b
                  (set_config (set_user_id (user_id cfg) (g_config_data g)) g))
      as H.
    unfold trace_of in H.
    destruct (ph_install_hook env _ _ _ _ _) as [[x g'] t].
    simpl in *. destruct H as [-> | ->]; reflexivity.
  - pose proof (install_trace env (Some (lit "getgid"))
                  (addr_hooked_getgid env) (Some h0) b
                  (set_config (set_group_id (group_id cfg) (g_config_data g))
                              g))
      as H.
    unfold trace_of in H.
    destruct (ph_install_hook env _ _ _ _ _) as [[x g'] t].
    simpl in *. destruct H as [-> | ->]; reflexivity.
Qed.

(** C9 fails on the code: [ph_install_gethostname_hook] and
    [ph_install_uname_hook], given a configuration and a handle, store
    into [g_config_data] before the mutex is taken for the first time. *)
Theorem C9_string_setters_write_without_lock
        (env : Env) (cfg : PHookConfigData) (h : PHookHandle)
        (b : option PHookEntry) (g : Globals) :
  (exists t,
      trace_of (ph_install_gethostname_hook env (Some cfg) (Some h) b g)
      = EvConfigWrite F_hostname :: t) /\
  writes_locked false
    (trace_of (ph_install_gethostname_hook env (Some cfg) (Some h) b g))
  = false /\
  (exists t,
      trace_of (ph_install_uname_hook env (Some cfg) (Some h) b g)
      = EvConfigWrite F_system_name :: t) /\
  writes_locked false
    (trace_of (ph_install_uname_hook env (Some cfg) (Some h) b g))
  = false.
Proof.
  unfold ph_install_gethostname_hook, ph_install_uname_hook.
  unfold bind, config_write, trace_of. cbv beta iota zeta.
  repeat match goal with
         | |- context [ph_install_hook ?e ?n ?r ?hh ?bb ?gg] =>
             destruct (ph_install_hook e n r hh bb gg) as [[? ?] ?]
         end.
  simpl. repeat split; eexists; reflexivity.
Qed.

(** ** Listing the active names *)

Lemma usize_small (z : Z) : 0 <= z < 2 ^ 64 -> usize z = z.
Proof. intros H. unfold usize. now apply Z.mod_small. Qed.

Lemma write_at_nil (buffer : list byte) (off : nat) :
  write_at buffer off [] = buffer.
Proof.
  unfold write_at. simpl. rewrite Nat.add_0_r. apply firstn_skipn.
Qed.

Lemma write_at_length (buffer : list byte) (off : nat) (bytes : list byte) :
  (off + length bytes <= length buffer)%nat ->
  length (write_at buffer off bytes) = length buffer.
Proof.
  intros H. unfold write_at.
  rewrite !length_app, length_firstn, length_skipn. lia.
Qed.

Lemma write_at_write_at (buffer : list byte) (off : nat)
      (a b : list byte) :
  (off <= length buffer)%nat ->
  write_at (write_at buffer off a) (off + length a) b
  = write_at buffer off (a ++ b).
Proof.
  intros H. unfold write_at at 1 3.
  assert (Hp : length (firstn off buffer ++ a) = (off + length a)%nat).
  { rewrite length_app, length_firstn. lia. }
  assert (Hw : write_at buffer off a
               = (firstn off buffer ++ a) ++ skipn (off + length a) buffer).
  { unfold write_at. now rewrite app_assoc. }
  rewrite Hw, (firstn_app_exact _ _ _ Hp).
  replace (off + length a + length b)%nat
    with (length b + (off + length a))%nat by lia.
  rewrite <- skipn_skipn, (skipn_app_exact _ _ _ Hp), skipn_skipn.
  rewrite length_app, <- !app_assoc.
  do 3 f_equal. f_equal. lia.
Qed.

Lemma strcpy_at_write_at (buffer : list byte) (offset : Z)
      (src : list byte) :
  strcpy_at buffer offset src
  = write_at buffer (Z.to_nat offset) (c_str src ++ [NUL]).
Proof. reflexivity. Qed.

Lemma fitting_none (names : list (list byte)) (sz off : Z) :
  sz - 1 <= off -> fitting names sz off = [].
Proof.
  intros H. destruct names as [|n rest]; [reflexivity|]. simpl.
  destruct (off + Z.of_nat (length n) + 1 <? sz) eqn:E; [|reflexivity].
  apply Z.ltb_lt in E. lia.
Qed.

(** The loop computes [fitting] and lays the names out from [offset]. *)
Lemma active_hooks_loop_fitting (sz : Z) (l : list PHookEntry) :
  0 < sz -> sz + 256 <= 2 ^ 64 ->
  Forall (fun e => strlen (Entry.function_name e) <= 255) l ->
  forall (buffer : list byte) (off cnt : Z),
    sz <= Z.of_nat (length buffer) ->
    0 <= off <= sz ->
    0 <= cnt -> cnt + Z.of_nat (length l) < 2 ^ 32 ->
    active_hooks_loop l buffer sz off cnt
    = (cnt + Z.of_nat (length (fitting (active_names l) sz off)),
       write_at buffer (Z.to_nat off)
                (layout (fitting (active_names l) sz off))).
Proof.
  intros Hsz Hmax. induction 1 as [|e next He Hall IH];
    intros buffer off cnt Hbuf Hoff Hcnt Hwrap.
  - simpl. now rewrite write_at_nil, Z.add_0_r.
  - cbn [active_hooks_loop]. unfold strlen in *.
    cbn [length] in Hwrap.
    rewrite (usize_small (sz - 1)) by lia.
    destruct (off <? sz - 1) eqn:Eloop.
    + apply Z.ltb_lt in Eloop.
      unfold active_names. cbn [filter].
      destruct (Entry.is_active e) eqn:Eact.
      * cbn [map fitting].
        set (n := c_str (Entry.function_name e)) in *.
        rewrite (usize_small (off + Z.of_nat (length n) + 1)) by lia.
        destruct (off + Z.of_nat (length n) + 1 <? sz) eqn:Efit.
        -- apply Z.ltb_lt in Efit.
           rewrite Z.add_assoc.
           rewrite (usize_small (off + Z.of_nat (length n) + 1)) by lia.
           rewrite (u32_small (cnt + 1)) by lia.
           rewrite strcpy_at_write_at. fold n.
           assert (Hlen : length (write_at buffer (Z.to_nat off) (n ++ [NUL]))
                          = length buffer).
           { apply write_at_length. rewrite length_app. simpl. lia. }
           rewrite IH; [|rewrite Hlen; lia|lia|lia|lia].
           fold (active_names next).
           cbn [length layout]. f_equal; [lia|].
           replace (Z.to_nat (off + Z.of_nat (length n) + 1))
             with (Z.to_nat off + length (n ++ [NUL]))%nat
             by (rewrite length_app; simpl; lia).
           apply write_at_write_at. lia.
        -- simpl. now rewrite write_at_nil, Z.add_0_r.
      * fold (active_names next). apply IH; lia.
    + apply Z.ltb_ge in Eloop.
      rewrite fitting_none by lia.
      simpl. now rewrite write_at_nil, Z.add_0_r.
Qed.

(** What [fitting] selects: a prefix of the names, laid out below
    [buffer_size], that stops at the first name for which
    [offset + length + 1 < buffer_size] fails. *)
Lemma fitting_prefix (names : list (list byte)) (sz : Z) :
  forall off : Z,
    0 <= off ->
    exists rest,
      names = fitting names sz off ++ rest /\
      (fitting names sz off <> [] ->
       off + Z.of_nat (length (layout (fitting names sz off))) < sz) /\
      (forall n rest', rest = n :: rest' ->
         sz <= off + Z.of_nat (length (layout (fitting names sz off)))
               + Z.of_nat (length n) + 1).
Proof.
  induction names as [|n names IH]; intros off Hoff.
  - exists []. simpl. repeat split; [congruence | discriminate].
  - cbn [fitting].
    destruct (off + Z.of_nat (length n) + 1 <? sz) eqn:E.
    + apply Z.ltb_lt in E.
      destruct (IH (off + Z.of_nat (length n) + 1)) as (rest & H1 & H2 & H3);
        [lia|].
      exists rest. split; [simpl; now rewrite <- H1|].
      cbn [layout]. rewrite !length_app. cbn [length].
      split.
      * intros _.
        destruct (fitting names sz (off + Z.of_nat (length n) + 1)) eqn:Ef.
        -- simpl. lia.
        -- rewrite <- Ef in *.
           specialize (H2 ltac:(rewrite Ef; discriminate)). lia.
      * intros m rest' Hr. specialize (H3 m rest' Hr). lia.
    + apply Z.ltb_ge in E. exists (n :: names).
      split; [reflexivity|]. split; [congruence|].
      intros m rest' [= <- <-]. simpl. lia.
Qed.

(** C8, as the code has it: the names written are a prefix [written] of
    the active names; they lie one after the other from the start of the
    buffer, each followed by a NUL, and the bytes after them are
    untouched; the count returned is their number; the bytes written stay
    strictly below [buffer_size], so the last byte of the capacity is
    never written; and the listing stops, without any error, at the first
    name for which offset + length + 1 is not strictly below
    [buffer_size]. *)
Theorem C8_active_hooks_listing
        (g : Globals) (buffer : list byte) (buffer_size : Z) :
  0 <= buffer_size <= Z.of_nat (length buffer) ->
  buffer_size + 256 <= 2 ^ 64 ->
  Forall (fun e => strlen (Entry.function_name e) <= 255)
         (g_hook_list_head g) ->
  Z.of_nat (length (g_hook_list_head g)) < 2 ^ 32 ->
  let out := ph_get_active_hooks (Some buffer) buffer_size g in
  exists written rest,
    active_names (g_hook_list_head g) = written ++ rest /\
    result_of out
    = (Z.of_nat (length written),
       Some (layout written ++ skipn (length (layout written)) buffer)) /\
    Z.of_nat (length (layout written)) <= Z.max 0 (buffer_size - 1) /\
    (forall n rest', rest = n :: rest' ->
       buffer_size <= Z.of_nat (length (layout written))
                      + Z.of_nat (length n) + 1) /\
    globals_of out = g.
Proof.
  intros Hcap Hmax Hshort Hcount out.
  destruct (Z.eq_dec buffer_size 0) as [Hz|Hnz].
  - exists [], (active_names (g_hook_list_head g)).
    unfold out, ph_get_active_hooks. subst buffer_size. simpl.
    repeat split; lia.
  - destruct (fitting_prefix (active_names (g_hook_list_head g))
                             buffer_size 0 ltac:(lia))
      as (rest & H1 & H2 & H3).
    set (W := fitting (active_names (g_hook_list_head g)) buffer_size 0) in *.
    exists W, rest.
    assert (Hout : out = ((Z.of_nat (length W),
                           Some (write_at buffer 0 (layout W))), g,
                          [EvLock; EvUnlock])).
    { unfold out, ph_get_active_hooks.
      apply Z.eqb_neq in Hnz. rewrite Hnz. unfold_monad.
      cbv beta iota zeta.
      rewrite (active_hooks_loop_fitting buffer_size (g_hook_list_head g))
        by (auto; lia).
      reflexivity. }
    rewrite Hout. unfold result_of, globals_of. cbn [fst snd].
    split; [exact H1|]. split; [reflexivity|].
    split; [|split; [|reflexivity]].
    + destruct W as [|w W'] eqn:EW; [simpl; lia|].
      specialize (H2 ltac:(discriminate)). lia.
    + intros n rest' Hr. specialize (H3 n rest' Hr). lia.
Qed.

Lemma C8_witness :
  let g := globals_of
             (calls sample_env
                    [ CallInstallHook (Some (lit "uname")) 12288
                                      (Some blank_handle) (Some fresh_block);
                      CallInstallHook (Some (lit "getgid")) 12288
                                      (Some blank_handle) (Some fresh_block) ]
                    getuid_globals) in
  let buffer := repeat "?"%byte 16 in
  active_names (g_hook_list_head g)
  = [ c_str (lit "getgid"); c_str (lit "uname"); c_str (lit "getuid") ] /\
  result_of (ph_get_active_hooks (Some buffer) 14 g)
  = (2, Some (c_str (lit "getgid") ++ [NUL] ++ c_str (lit "uname") ++ [NUL]
              ++ repeat "?"%byte 3)) /\
  (exists written rest,
      active_names (g_hook_list_head g) = written ++ rest /\
      fst (result_of (ph_get_active_hooks (Some buffer) 14 g))
      = Z.of_nat (length written) /\
      Z.of_nat (length (layout written)) <= 13).
Proof.
  intros g buffer.
  destruct (C8_active_hooks_listing g buffer 14)
    as (written & rest & H1 & H2 & H3 & H4 & H5);
    [ vm_compute; split; discriminate
    | vm_compute; discriminate
    | vm_compute; repeat constructor; discriminate
    | vm_compute; reflexivity | ].
  split; [vm_compute; reflexivity|]. split; [vm_compute; reflexivity|].
  exists written, rest. split; [exact H1|]. split; [now rewrite H2|].
  exact H3.
Defined.

(** The claim as worded fails at an exact fit: ["getuid"] and its
    terminator take 7 bytes, the buffer has 7, and nothing is written. *)
Lemma C8_counterexample :
  let buffer := repeat "?"%byte 7 in
  active_names (g_hook_list_head getuid_globals) = [c_str (lit "getuid")] /\
  strlen (lit "getuid") + 1 <= 7 - 0 /\
  result_of (ph_get_active_hooks (Some buffer) 7 getuid_globals)
  = (0, Some buffer) /\
  result_of (ph_get_active_hooks (Some (repeat "?"%byte 8)) 8 getuid_globals)
  = (1, Some (c_str (lit "getuid") ++ [NUL; "?"%byte])).
Proof.
  cbv zeta. split; [vm_compute; reflexivity|].
  split; [vm_compute; discriminate|].
  split; vm_compute; reflexivity.
Qed.

(** * Further properties of the library *)

(** ** Life cycle *)

(** X1: while the library is not initialised (before [ph_initialize], after
    [ph_cleanup]), [ph_install_hook] and [ph_remove_hook] return
    [PH_ERROR_INVALID_PARAM] and change nothing, and in a reachable state
    nothing is hooked: [ph_is_hooked] is false, [ph_get_original] is null
    and the active count is [0]. *)
Theorem X1_not_initialised_rejects_and_reports_nothing
        (env : Env) (g : Globals) :
  reachable env g ->
  g_hook_system_initialized g = false ->
  (forall n r h b,
      fst (result_of (ph_install_hook env n r h b g)) = PH_ERROR_INVALID_PARAM
      /\ globals_of (ph_install_hook env n r h b g) = g
      /\ snd (result_of (ph_install_hook env n r h b g)) = h) /\
  (forall h,
      fst (result_of (ph_remove_hook h g)) = PH_ERROR_INVALID_PARAM /\
      globals_of (ph_remove_hook h g) = g) /\
  (forall n, result_of (ph_is_hooked n g) = false) /\
  (forall h, result_of (ph_get_original h g) = 0) /\
  result_of (ph_get_active_hook_count g) = 0.
Proof.
  intros Hreach Hini.
  pose proof (reachable_no_entry_before_init env g Hreach Hini) as Hl.
  split; [|split; [|split; [|split]]].
  - intros n r h b. unfold ph_install_hook.
    destruct n as [name|], h as [h0|]; try (repeat split; reflexivity).
    destruct (r =? 0); [repeat split; reflexivity|].
    unfold_monad. simpl. rewrite Hini. simpl. repeat split; reflexivity.
  - intros h. unfold ph_remove_hook.
    destruct h as [h0|]; [|split; reflexivity].
    destruct (Handle.is_valid h0); simpl; [|split; reflexivity].
    unfold_monad. simpl. rewrite Hini. simpl. split; reflexivity.
  - intros [name|]; [|reflexivity].
    rewrite is_hooked_find, Hl. reflexivity.
  - intros [h0|]; [|reflexivity]. unfold ph_get_original.
    destruct (Handle.is_valid h0); simpl; [|reflexivity].
    unfold_monad. simpl. rewrite Hl. reflexivity.
  - unfold ph_get_active_hook_count. unfold_monad. simpl. rewrite Hl.
    reflexivity.
Qed.

Lemma X1_witness :
  let g := globals_of (calls sample_env
                             [ CallInitialize;
                               CallInstallHook (Some (lit "getuid")) 12288
                                               (Some blank_handle)
                                               (Some fresh_block);
                               CallCleanup ] initial_globals) in
  fst (result_of (ph_install_hook sample_env (Some (lit "getuid")) 12288
                                  (Some blank_handle) (Some fresh_block) g))
  = PH_ERROR_INVALID_PARAM /\
  fst (result_of (ph_remove_hook getuid_handle g)) = PH_ERROR_INVALID_PARAM /\
  result_of (ph_is_hooked (Some (lit "getuid")) g) = false /\
  result_of (ph_get_original getuid_handle g) = 0 /\
  result_of (ph_get_active_hook_count g) = 0.
Proof.
  intros g.
  assert (Hreach : reachable sample_env g) by (eexists; reflexivity).
  destruct (X1_not_initialised_rejects_and_reports_nothing
              sample_env g Hreach ltac:(reflexivity))
    as (A & B & C & D & E).
  split; [apply A|]. split; [apply B|]. split; [apply C|].
  split; [apply D | exact E].
Defined.

(** X2: what [ph_initialize] does, in all: on an initialised library it
    returns [PH_SUCCESS] and keeps the hooks and the counter; on an
    unsupported platform it returns [PH_ERROR_UNSUPPORTED_PLATFORM] and
    leaves the library uninitialised and unchanged; otherwise it returns
    [PH_SUCCESS] with an empty list and the counter at [1].  It never
    touches the configuration or the logging flag, and it returns no other
    code. *)
Theorem X2_initialize_cases (env : Env) (g : Globals) :
  let out := ph_initialize env g in
  (g_hook_system_initialized g = true ->
   result_of out = PH_SUCCESS /\ globals_of out = g) /\
  (g_hook_system_initialized g = false -> apple env = false ->
   result_of out = PH_ERROR_UNSUPPORTED_PLATFORM /\ globals_of out = g) /\
  (g_hook_system_initialized g = false -> apple env = true ->
   result_of out = PH_SUCCESS /\
   globals_of out
   = mkGlobals true (g_debug_logging_enabled g) [] 1 (g_config_data g)) /\
  g_config_data (globals_of out) = g_config_data g /\
  g_debug_logging_enabled (globals_of out) = g_debug_logging_enabled g /\
  (result_of out = PH_SUCCESS <->
   g_hook_system_initialized (globals_of out) = true).
Proof.
  unfold ph_initialize, ph_is_platform_supported. unfold_monad.
  destruct g as [ini dbg l nxt cfg]. simpl.
  destruct ini, (apple env); simpl;
    repeat split; intros; try discriminate; try reflexivity.
Qed.

Lemma X2_witness :
  ph_initialize sample_env getuid_globals
  = (PH_SUCCESS, getuid_globals, [EvLock; EvUnlock]) /\
  result_of (ph_initialize other_platform_env initial_globals)
  = PH_ERROR_UNSUPPORTED_PLATFORM /\
  globals_of (ph_initialize other_platform_env initial_globals)
  = initial_globals /\
  g_next_hook_id (globals_of (ph_initialize sample_env initial_globals)) = 1.
Proof.
  destruct (X2_initialize_cases sample_env getuid_globals)
    as ((A1 & A2) & _); [reflexivity|].
  destruct (X2_initialize_cases other_platform_env initial_globals)
    as (_ & (B1 & B2) & _); [reflexivity | reflexivity |].
  destruct (X2_initialize_cases sample_env initial_globals)
    as (_ & _ & (C1 & C2) & _); [reflexivity | reflexivity |].
  split; [reflexivity|]. split; [exact B1|]. split; [exact B2|].
  now rewrite C2.
Defined.

(** X3: [ph_cleanup] leaves the library uninitialised with no entry, so
    that no name is hooked and the count is [0]; it keeps the counter, the
    configuration and the logging flag; and a second [ph_cleanup] changes
    nothing. *)
Theorem X3_cleanup_drops_every_hook (env : Env) (g : Globals) :
  reachable env g ->
  let g' := globals_of (ph_cleanup g) in
  g' = mkGlobals false (g_debug_logging_enabled g) [] (g_next_hook_id g)
                 (g_config_data g) /\
  (forall n, result_of (ph_is_hooked n g') = false) /\
  result_of (ph_get_active_hook_count g') = 0 /\
  globals_of (ph_cleanup g') = g'.
Proof.
  intros Hreach g'.
  assert (Hg : g' = mkGlobals false (g_debug_logging_enabled g) []
                              (g_next_hook_id g) (g_config_data g)).
  { unfold g', ph_cleanup. unfold_monad.
    pose proof (reachable_no_entry_before_init env g Hreach) as Hinv.
    unfold no_entry_before_init in Hinv.
    destruct g as [ini dbg l nxt cfg]. simpl in *.
    destruct ini; simpl; [reflexivity|]. now rewrite Hinv. }
  rewrite Hg. split; [reflexivity|]. split; [|split; reflexivity].
  intros [name|]; reflexivity.
Qed.

Lemma X3_witness :
  let g' := globals_of (ph_cleanup getuid_globals) in
  g_hook_list_head g' = [] /\
  g_next_hook_id g' = 2 /\
  result_of (ph_is_hooked (Some (lit "getuid")) g') = false /\
  globals_of (ph_cleanup g') = g'.
Proof.
  intros g'.
  assert (Hreach : reachable sample_env getuid_globals).
  { exists [CallInitialize;
            CallInstallHook (Some (lit "getuid")) 12288 (Some blank_handle)
                            (Some fresh_block)].
    reflexivity. }
  destruct (X3_cleanup_drops_every_hook sample_env getuid_globals Hreach)
    as (A & B & C & D).
  fold g' in A, B, C, D.
  split; [now rewrite A|]. split; [now rewrite A|].
  split; [apply B | exact D].
Defined.

(** X4: the four queries are reads: [ph_is_hooked], [ph_get_original],
    [ph_get_active_hook_count] and [ph_get_active_hooks] leave every global
    as it was, whatever their arguments. *)
Theorem X4_queries_change_nothing (g : Globals) :
  (forall n, globals_of (ph_is_hooked n g) = g) /\
  (forall h, globals_of (ph_get_original h g) = g) /\
  globals_of (ph_get_active_hook_count g) = g /\
  (forall buffer size, globals_of (ph_get_active_hooks buffer size g) = g).
Proof.
  split; [|split; [|split]].
  - intros [name|]; reflexivity.
  - intros [h0|]; [|reflexivity]. unfold ph_get_original.
    now destruct (Handle.is_valid h0).
  - reflexivity.
  - intros [buf|] size; [|reflexivity]. unfold ph_get_active_hooks.
    destruct (size =? 0); [reflexivity|]. unfold_monad. simpl.
    now destruct (active_hooks_loop (g_hook_list_head g) buf size 0 0).
Qed.

(** ** The mutex *)

Lemma mutex_after_install (env : Env) (n : option (list byte)) (r : Z)
      (h : option PHookHandle) (b : option PHookEntry) (g : Globals) :
  mutex_after false (trace_of (ph_install_hook env n r h b g)) = Some false.
Proof.
  destruct (install_trace env n r h b g) as [-> | ->]; reflexivity.
Qed.

(** X5: every call of the interface leaves [g_hook_mutex] free: along its
    trace the mutex is never locked while held nor unlocked while free,
    and each path that locks it, early returns included, unlocks it
    before returning. *)
Theorem X5_every_call_releases_the_mutex
        (env : Env) (c : Call) (g : Globals) :
  mutex_after false (trace_of (call env c g)) = Some false.
Proof.
  destruct c as [ | | n r h b | h | h | n | cfg h b | cfg h b | cfg h b
                | cfg h b | en | | buf sz ].
  - unfold call, ph_initialize, ph_is_platform_supported. unfold_monad.
    simpl. destruct (g_hook_system_initialized g); simpl; [reflexivity|].
    destruct (apple env); reflexivity.
  - unfold call, ph_cleanup. unfold_monad. simpl.
    destruct (g_hook_system_initialized g); reflexivity.
  - pose proof (mutex_after_install env n r h b g) as H.
    unfold call, fmap, bind, ret, trace_of in *.
    destruct (ph_install_hook env n r h b g) as [[x g'] t].
    simpl in *. now rewrite app_nil_r.
  - unfold call, ph_remove_hook.
    destruct h as [h0|]; [|reflexivity].
    destruct (Handle.is_valid h0); [|reflexivity].
    unfold_monad. simpl.
    destruct (g_hook_system_initialized g); simpl; [|reflexivity].
    now destruct (remove_loop (g_hook_list_head g) (Handle.function_name h0)).
  - unfold call, ph_get_original.
    destruct h as [h0|]; [|reflexivity].
    now destruct (Handle.is_valid h0).
  - now destruct n.
  - unfold call, ph_install_getuid_hook.
    destruct cfg as [cfg|], h as [h0|]; try reflexivity.
    unfold fmap, bind, ret, pthread_mutex_lock, pthread_mutex_unlock,
      config_write, trace_of.
    cbv beta iota zeta.
    match goal with |- context [ph_install_hook env ?n ?r ?h ?b ?g1] =>
      pose proof (mutex_after_install env n r h b g1) as H;
      unfold trace_of in H;
      destruct (ph_install_hook env n r h b g1) as [[x g'] t]
    end.
    simpl in *. now rewrite app_nil_r.
  - unfold call, ph_install_getgid_hook.
    destruct cfg as [cfg|], h as [h0|]; try reflexivity.
    unfold fmap, bind, ret, pthread_mutex_lock, pthread_mutex_unlock,
      config_write, trace_of.
    cbv beta iota zeta.
    match goal with |- context [ph_install_hook env ?n ?r ?h ?b ?g1] =>
      pose proof (mutex_after_install env n r h b g1) as H;
      unfold trace_of in H;
      destruct (ph_install_hook env n r h b g1) as [[x g'] t]
    end.
    simpl in *. now rewrite app_nil_r.
  - unfold call, ph_install_gethostname_hook.
    destruct cfg as [cfg|], h as [h0|]; try reflexivity.
    unfold fmap, bind, ret, pthread_mutex_lock, pthread_mutex_unlock,
      config_write, trace_of.
    cbv beta iota zeta.
    match goal with |- context [ph_install_hook env ?n ?r ?h ?b ?g1] =>
      pose proof (mutex_after_install env n r h b g1) as H;
      unfold trace_of in H;
      destruct (ph_install_hook env n r h b g1) as [[x g'] t]
    end.
    simpl in *. now rewrite app_nil_r.
  - unfold call, ph_install_uname_hook.
    destruct cfg as [cfg|], h as [h0|]; try reflexivity.
    unfold fmap, bind, ret, pthread_mutex_lock, pthread_mutex_unlock,
      config_write, trace_of.
    cbv beta iota zeta.
    match goal with |- context [ph_install_hook env ?n ?r ?h ?b ?g1] =>
      pose proof (mutex_after_install env n r h b g1) as H;
      unfold trace_of in H;
      destruct (ph_install_hook env n r h b g1) as [[x g'] t]
    end.
    simpl in *. now rewrite app_nil_r.
  - reflexivity.
  - reflexivity.
  - unfold call, ph_get_active_hooks.
    destruct buf as [buf|]; [|reflexivity].
    destruct (sz =? 0); [reflexivity|]. unfold_monad. simpl.
    now destruct (active_hooks_loop (g_hook_list_head g) buf sz 0 0).
Qed.

(** ** Bounded copies into fixed arrays *)

(** The copy of [n - 1] bytes and the terminator at [n - 1], for any
    source: what is kept of the source, the padding, the NUL, and the
    destination beyond byte [n - 1]. *)
Lemma bounded_copy_shape (dst src : list byte) (n : Z) :
  store (strncpy dst src (n - 1)) (n - 1) NUL
  = firstn (Z.to_nat (n - 1))
           (c_str src ++ repeat NUL (Z.to_nat (n - 1)))
    ++ NUL :: skipn (S (Z.to_nat (n - 1))) dst.
Proof.
  unfold store, strncpy. set (k := Z.to_nat (n - 1)).
  set (X := firstn k (c_str src ++ repeat NUL k)).
  assert (HX : length X = k).
  { unfold X. rewrite length_firstn, length_app, repeat_length.
    apply Nat.min_l. lia. }
  rewrite (firstn_app_exact k _ _ HX).
  replace (S k) with (1 + k)%nat by lia.
  rewrite <- skipn_skipn, (skipn_app_exact k _ _ HX), skipn_skipn.
  reflexivity.
Qed.

Lemma bounded_copy_length (dst src : list byte) (n : Z) :
  0 < n -> length dst = Z.to_nat n ->
  length (store (strncpy dst src (n - 1)) (n - 1) NUL) = Z.to_nat n.
Proof.
  intros Hn Hlen. rewrite bounded_copy_shape.
  rewrite length_app, length_firstn, length_app, repeat_length.
  cbn [length]. rewrite length_skipn, Hlen.
  rewrite Nat.min_l by lia. lia.
Qed.

Lemma bounded_copy_c_str (dst src : list byte) (n : Z) :
  c_str (store (strncpy dst src (n - 1)) (n - 1) NUL)
  = firstn (Z.to_nat (n - 1)) (c_str src).
Proof.
  rewrite bounded_copy_shape. set (k := Z.to_nat (n - 1)).
  rewrite firstn_app.
  destruct (Nat.le_gt_cases k (length (c_str src))) as [Hl|Hl].
  - replace (k - length (c_str src))%nat with 0%nat by lia.
    rewrite firstn_0, app_nil_r.
    apply c_str_app_NUL, firstn_no_NUL, c_str_no_NUL.
  - rewrite (firstn_all2 (c_str src)) by lia.
    rewrite firstn_repeat by lia. rewrite <- app_assoc.
    destruct (k - length (c_str src))%nat; simpl; apply c_str_lit_free.
Qed.

Lemma bounded_copy_terminated (dst src : list byte) (size : nat) :
  (0 < size)%nat -> length dst = size ->
  terminated_array size
    (store (strncpy dst src (Z.of_nat size - 1)) (Z.of_nat size - 1) NUL).
Proof.
  intros Hs Hlen. split.
  - rewrite <- (Nat2Z.id size) at 3.
    apply bounded_copy_length; [lia|]. now rewrite Nat2Z.id.
  - unfold strlen. rewrite bounded_copy_c_str, length_firstn. lia.
Qed.

(** ** Handles and the entries they designate *)

Lemma get_original_found (h0 : PHookHandle) (g : Globals) (e : PHookEntry) :
  Handle.is_valid h0 = true ->
  ph_find_hook_by_name (g_hook_list_head g) (Handle.function_name h0)
  = Some e ->
  ph_get_original (Some h0) g
  = (Entry.original_function e, g, [EvLock; EvUnlock]).
Proof.
  intros Hv Hf. unfold ph_get_original. rewrite Hv. unfold_monad.
  cbv beta iota zeta. cbn [negb]. cbv beta iota zeta. now rewrite Hf.
Qed.

Lemma remove_found (h0 : PHookHandle) (g : Globals) (l' : list PHookEntry) :
  Handle.is_valid h0 = true ->
  g_hook_system_initialized g = true ->
  remove_loop (g_hook_list_head g) (Handle.function_name h0) = Some l' ->
  ph_remove_hook (Some h0) g
  = ((PH_SUCCESS, Some h0), set_list_head l' g, [EvLock; EvUnlock]).
Proof.
  intros Hv Hi Hl. unfold ph_remove_hook. rewrite Hv. unfold_monad.
  cbv beta iota zeta. cbn [negb]. cbv beta iota zeta.
  rewrite Hi. cbn [negb]. cbv beta iota zeta. now rewrite Hl.
Qed.

(** X6: the handle a successful [ph_install_hook] fills in designates the
    new entry, whatever the length of the name: [ph_get_original] on it
    returns the address [dlsym] gave (not null), and [ph_remove_hook] on it
    succeeds and puts the list back to what it was before the install. *)
Theorem X6_returned_handle_designates_the_entry
        (env : Env) (name : list byte) (r : Z) (h : option PHookHandle)
        (b : option PHookEntry) (g : Globals) :
  fst (result_of (ph_install_hook env (Some name) r h b g)) = PH_SUCCESS ->
  let out := ph_install_hook env (Some name) r h b g in
  let h' := snd (result_of out) in
  let g1 := globals_of out in
  result_of (ph_get_original h' g1) = dlsym env name /\
  dlsym env name <> 0 /\
  fst (result_of (ph_remove_hook h' g1)) = PH_SUCCESS /\
  g_hook_list_head (globals_of (ph_remove_hook h' g1)) = g_hook_list_head g /\
  g_next_hook_id (globals_of (ph_remove_hook h' g1))
  = u32 (g_next_hook_id g + 1).
Proof.
  intros Hs out h' g1.
  destruct (install_success_inv env _ r h b g Hs)
    as (name' & h0 & blk & [= <-] & -> & -> & Hr & Hini & Hfind & Hd & Hg & Hh).
  fold out in Hg, Hh. fold g1 in Hg. fold h' in Hh.
  set (e := Entry.mk (store (strncpy (Entry.function_name blk) name
                                     (256 - 1)) (256 - 1) NUL)
                     (dlsym env name) r true) in *.
  set (hn := store (strncpy (Handle.function_name h0) name (256 - 1))
                   (256 - 1) NUL) in *.
  assert (Hmatch : c_str (Entry.function_name e) = c_str hn).
  { unfold e, hn. cbn [Entry.function_name]. now rewrite !c_str_bounded_copy. }
  assert (Hi1 : g_hook_system_initialized g1 = true) by now rewrite Hg.
  assert (Hl1 : g_hook_list_head g1 = e :: g_hook_list_head g)
    by now rewrite Hg.
  assert (Hn1 : g_next_hook_id g1 = u32 (g_next_hook_id g + 1))
    by now rewrite Hg.
  rewrite Hh.
  rewrite (get_original_found _ g1 e); [|reflexivity|].
  2: { rewrite Hl1. cbn [ph_find_hook_by_name Handle.function_name].
       now rewrite (proj2 (strcmp_eqb_true _ _) Hmatch). }
  rewrite (remove_found _ g1 (g_hook_list_head g));
    [|reflexivity|exact Hi1|].
  2: { rewrite Hl1. now apply remove_loop_head. }
  unfold result_of, globals_of. cbn [fst snd].
  split; [reflexivity|]. split; [exact Hd|]. split; [reflexivity|].
  split; [reflexivity | exact Hn1].
Qed.

Lemma X6_witness :
  result_of (ph_get_original getuid_handle getuid_globals) = 4096 /\
  fst (result_of (ph_remove_hook getuid_handle getuid_globals)) = PH_SUCCESS /\
  g_hook_list_head (globals_of (ph_remove_hook getuid_handle getuid_globals))
  = [].
Proof.
  destruct (X6_returned_handle_designates_the_entry
              sample_env (lit "getuid") 12288 (Some blank_handle)
              (Some fresh_block) ready_globals)
    as (A & _ & C & D & _); [reflexivity|].
  split; [exact A|]. split; [exact C | exact D].
Defined.

(** X7: the handle and the entry a successful [ph_install_hook] writes,
    when the caller's handle and the allocated block have their 256-byte
    name fields: both fields still have 256 bytes and hold a terminated
    string, the name cut to 255 characters; the handle is valid and its id
    is the counter before the call; the entry is active and records the
    resolved and the replacement addresses. *)
Theorem X7_install_fills_handle_and_entry
        (env : Env) (name : list byte) (r : Z) (h0 : PHookHandle)
        (blk : PHookEntry) (g : Globals) :
  length (Handle.function_name h0) = 256%nat ->
  length (Entry.function_name blk) = 256%nat ->
  fst (result_of (ph_install_hook env (Some name) r (Some h0) (Some blk) g))
  = PH_SUCCESS ->
  let out := ph_install_hook env (Some name) r (Some h0) (Some blk) g in
  exists h' e,
    snd (result_of out) = Some h' /\
    g_hook_list_head (globals_of out) = e :: g_hook_list_head g /\
    Handle.is_valid h' = true /\
    Handle.id h' = g_next_hook_id g /\
    terminated_array 256 (Handle.function_name h') /\
    c_str (Handle.function_name h') = firstn 255 (c_str name) /\
    terminated_array 256 (Entry.function_name e) /\
    c_str (Entry.function_name e) = firstn 255 (c_str name) /\
    Entry.is_active e = true /\
    Entry.original_function e = dlsym env name /\
    Entry.replacement_function e = r.
Proof.
  intros Hh0 Hblk Hs out.
  destruct (install_success_inv env _ r _ _ g Hs)
    as (name' & h1 & blk1 & [= <-] & [= <-] & [= <-] & Hr & Hini & Hfind
        & Hd & Hg & Hh).
  fold out in Hg, Hh. rewrite Hg, Hh.
  eexists. eexists. split; [reflexivity|]. split; [reflexivity|].
  cbn [Handle.is_valid Handle.id Handle.function_name Entry.function_name
       Entry.is_active Entry.original_function Entry.replacement_function].
  split; [reflexivity|]. split; [reflexivity|].
  split; [now apply (bounded_copy_terminated _ _ 256); [lia|]|].
  split; [apply c_str_bounded_copy|].
  split; [now apply (bounded_copy_terminated _ _ 256); [lia|]|].
  split; [apply c_str_bounded_copy|].
  repeat split.
Qed.

Lemma X7_witness :
  exists h' e,
    getuid_handle = Some h' /\
    g_hook_list_head getuid_globals = [e] /\
    Handle.id h' = 1 /\
    length (Handle.function_name h') = 256%nat /\
    c_str (Handle.function_name h') = c_str (lit "getuid") /\
    length (Entry.function_name e) = 256%nat /\
    Entry.original_function e = 4096 /\
    Entry.replacement_function e = 12288.
Proof.
  destruct (X7_install_fills_handle_and_entry
              sample_env (lit "getuid") 12288 blank_handle fresh_block
              ready_globals)
    as (h' & e & A & B & _ & D & (E & _) & F & (G & _) & _ & _ & J & K);
    [reflexivity | reflexivity | reflexivity |].
  exists h', e.
  split; [exact A|]. split; [exact B|]. split; [exact D|].
  split; [exact E|]. split; [rewrite F; reflexivity|].
  split; [exact G|]. split; [exact J | exact K].
Defined.

(** X8: installing and removing act on one name only.  A successful
    [ph_install_hook] for [name] leaves the entry found for every other
    name as it was (other: different from [name] cut to 255 characters),
    and so does a successful [ph_remove_hook], for every name other than
    the handle's. *)
Theorem X8_other_names_undisturbed
        (env : Env) (g : Globals) (other : list byte) :
  (forall name r h b,
      fst (result_of (ph_install_hook env (Some name) r h b g)) = PH_SUCCESS ->
      firstn 255 (c_str name) <> c_str other ->
      ph_find_hook_by_name
        (g_hook_list_head (globals_of (ph_install_hook env (Some name) r h b g)))
        other
      = ph_find_hook_by_name (g_hook_list_head g) other) /\
  (forall h0,
      fst (result_of (ph_remove_hook (Some h0) g)) = PH_SUCCESS ->
      c_str (Handle.function_name h0) <> c_str other ->
      ph_find_hook_by_name
        (g_hook_list_head (globals_of (ph_remove_hook (Some h0) g))) other
      = ph_find_hook_by_name (g_hook_list_head g) other).
Proof.
  split.
  - intros name r h b Hs Hne.
    destruct (install_success_inv env _ r h b g Hs)
      as (name' & h0 & blk & [= <-] & -> & -> & _ & _ & _ & _ & Hg & _).
    rewrite Hg. unfold set_next_hook_id, set_list_head.
    cbn [g_hook_list_head ph_find_hook_by_name Entry.function_name].
    assert (E : (strcmp (store (strncpy (Entry.function_name blk) name
                                        (256 - 1)) (256 - 1) NUL) other
                 =? 0) = false).
    { apply strcmp_eqb_false. now rewrite c_str_bounded_copy. }
    now rewrite E.
  - intros h0 Hs Hne.
    destruct (remove_success_inv _ g Hs)
      as (h1 & l' & [= <-] & _ & _ & Hl & Hg).
    rewrite Hg. cbn [set_list_head g_hook_list_head].
    now apply (remove_loop_other _ _ _ _ Hl).
Qed.

Lemma X8_witness :
  let g := globals_of
             (calls sample_env
                    [ CallInstallHook (Some (lit "uname")) 16384
                                      (Some blank_handle) (Some fresh_block) ]
                    getuid_globals) in
  option_map Entry.replacement_function
    (ph_find_hook_by_name
       (g_hook_list_head
          (globals_of (ph_install_hook sample_env (Some (lit "getgid")) 20480
                                       (Some blank_handle) (Some fresh_block)
                                       g)))
       (lit "getuid")) = Some 12288 /\
  option_map Entry.replacement_function
    (ph_find_hook_by_name
       (g_hook_list_head
          (globals_of (ph_remove_hook
                         (Some (Handle.mk 7 (lit "uname") true)) g)))
       (lit "getuid")) = Some 12288.
Proof.
  intros g.
  destruct (X8_other_names_undisturbed sample_env g (lit "getuid"))
    as [A B].
  split.
  - rewrite A; [reflexivity | reflexivity | vm_compute; discriminate].
  - rewrite B; [reflexivity | reflexivity | vm_compute; discriminate].
Defined.

(** X9: a name of more than 255 characters is installed but not tracked:
    after the successful [ph_install_hook], [ph_is_hooked] answers false
    for it, and a second [ph_install_hook] of the same name succeeds as
    well and leaves two entries with the same stored name. *)
Theorem X9_long_name_installed_but_not_found
        (env : Env) (name : list byte) (r : Z) (h : option PHookHandle)
        (b : option PHookEntry) (g : Globals)
        (h2 : PHookHandle) (blk2 : PHookEntry) :
  255 < strlen name ->
  fst (result_of (ph_install_hook env (Some name) r h b g)) = PH_SUCCESS ->
  let g1 := globals_of (ph_install_hook env (Some name) r h b g) in
  let out2 := ph_install_hook env (Some name) r (Some h2) (Some blk2) g1 in
  result_of (ph_is_hooked (Some name) g1) = false /\
  fst (result_of out2) = PH_SUCCESS /\
  exists e1 e2,
    g_hook_list_head (globals_of out2) = e2 :: e1 :: g_hook_list_head g /\
    c_str (Entry.function_name e1) = c_str (Entry.function_name e2).
Proof.
  intros Hlen Hs g1 out2.
  destruct (install_success_inv env _ r h b g Hs)
    as (name' & h0 & blk & [= <-] & -> & -> & Hr & Hini & Hfind & Hd & Hg & _).
  fold g1 in Hg.
  assert (Hne : forall dst,
             (strcmp (store (strncpy dst name (256 - 1)) (256 - 1) NUL) name
              =? 0) = false).
  { intros dst. apply strcmp_eqb_false. rewrite c_str_bounded_copy.
    intros E. apply (f_equal (@length byte)) in E.
    rewrite length_firstn in E. unfold strlen in Hlen. lia. }
  assert (Hfind1 : ph_find_hook_by_name (g_hook_list_head g1) name = None).
  { rewrite Hg. unfold set_next_hook_id, set_list_head.
    cbn [g_hook_list_head ph_find_hook_by_name Entry.function_name].
    now rewrite Hne. }
  assert (Hini1 : g_hook_system_initialized g1 = true) by now rewrite Hg.
  split; [now rewrite is_hooked_find, Hfind1|].
  assert (Hout2 :
            out2 = ((PH_SUCCESS,
                     Some (Handle.mk (g_next_hook_id g1)
                             (store (strncpy (Handle.function_name h2) name
                                             (256 - 1)) (256 - 1) NUL) true)),
                    set_next_hook_id (u32 (g_next_hook_id g1 + 1))
                      (set_list_head
                         (Entry.mk (store (strncpy (Entry.function_name blk2)
                                                   name (256 - 1))
                                          (256 - 1) NUL)
                                   (dlsym env name) r true
                          :: g_hook_list_head g1) g1),
                    [EvLock; EvUnlock])).
  { unfold out2, ph_install_hook.
    apply Z.eqb_neq in Hr, Hd. rewrite Hr. unfold_monad. simpl.
    rewrite Hini1. simpl. rewrite Hfind1, Hd. reflexivity. }
  rewrite Hout2. split; [reflexivity|].
  eexists. eexists. unfold globals_of. cbn [fst snd].
  unfold set_next_hook_id, set_list_head. cbn [g_hook_list_head].
  rewrite Hg. cbn [set_next_hook_id set_list_head g_hook_list_head].
  split; [reflexivity|].
  cbn [Entry.function_name]. now rewrite !c_str_bounded_copy.
Qed.

Lemma X9_witness :
  let g1 := globals_of (ph_install_hook sample_env (Some long_name) 12288
                                        (Some blank_handle)
                                        (Some fresh_block) ready_globals) in
  let out2 := ph_install_hook sample_env (Some long_name) 12288
                              (Some blank_handle) (Some fresh_block) g1 in
  result_of (ph_is_hooked (Some long_name) g1) = false /\
  fst (result_of out2) = PH_SUCCESS /\
  length (g_hook_list_head (globals_of out2)) = 2%nat.
Proof.
  intros g1 out2.
  destruct (X9_long_name_installed_but_not_found
              sample_env long_name 12288 (Some blank_handle)
              (Some fresh_block) ready_globals blank_handle fresh_block)
    as (A & B & e1 & e2 & C & _);
    [vm_compute; reflexivity | vm_compute; reflexivity |].
  split; [exact A|]. split; [exact B|].
  etransitivity; [exact (f_equal (@length _) C) | reflexivity].
Defined.

(** ** Counting and listing *)

Lemma count_loop_filter (l : list PHookEntry) :
  forall c : Z,
    0 <= c -> c + Z.of_nat (length l) < 2 ^ 32 ->
    count_loop l c = c + Z.of_nat (length (filter Entry.is_active l)).
Proof.
  induction l as [|e l IH]; intros c Hc Hb; simpl; [lia|].
  cbn [length] in Hb.
  pose proof (filter_length_le Entry.is_active l) as Hle.
  destruct (Entry.is_active e); simpl.
  - rewrite u32_small by lia. rewrite IH by lia. lia.
  - apply IH; lia.
Qed.

Lemma filter_all_active (l : list PHookEntry) :
  Forall entry_ok l -> filter Entry.is_active l = l.
Proof.
  induction 1 as [|e l [_ Ha] _ IH]; simpl; [reflexivity|].
  now rewrite Ha, IH.
Qed.

Lemma active_count_value (g : Globals) :
  Forall entry_ok (g_hook_list_head g) ->
  Z.of_nat (length (g_hook_list_head g)) < 2 ^ 32 ->
  result_of (ph_get_active_hook_count g)
  = Z.of_nat (length (g_hook_list_head g)).
Proof.
  intros Hok Hb. unfold ph_get_active_hook_count. unfold_monad. simpl.
  rewrite count_loop_filter by lia. now rewrite filter_all_active.
Qed.

Lemma remove_loop_length (l l' : list PHookEntry) (name : list byte) :
  remove_loop l name = Some l' -> length l = S (length l').
Proof.
  revert l'. induction l as [|x l IH]; simpl; intros l'; [discriminate|].
  destruct (strcmp (Entry.function_name x) name =? 0).
  - now intros [= <-].
  - destruct (remove_loop l name) as [l0|]; [|discriminate].
    intros [= <-]. simpl. f_equal. now apply IH.
Qed.

(** X10: in a reachable state with fewer than [2^32 - 1] entries,
    [ph_get_active_hook_count] is the number of entries of the list; a
    successful [ph_install_hook] raises it by one and a successful
    [ph_remove_hook] lowers it by one. *)
Theorem X10_active_count_follows_the_list (env : Env) (g : Globals) :
  reachable env g ->
  Z.of_nat (length (g_hook_list_head g)) + 1 < 2 ^ 32 ->
  result_of (ph_get_active_hook_count g)
  = Z.of_nat (length (g_hook_list_head g)) /\
  (forall n r h b,
      fst (result_of (ph_install_hook env n r h b g)) = PH_SUCCESS ->
      result_of (ph_get_active_hook_count
                   (globals_of (ph_install_hook env n r h b g)))
      = result_of (ph_get_active_hook_count g) + 1) /\
  (forall h,
      fst (result_of (ph_remove_hook h g)) = PH_SUCCESS ->
      result_of (ph_get_active_hook_count (globals_of (ph_remove_hook h g)))
      = result_of (ph_get_active_hook_count g) - 1).
Proof.
  intros Hreach Hb.
  pose proof (reachable_entries_ok env g Hreach) as Hok.
  assert (Hc : result_of (ph_get_active_hook_count g)
               = Z.of_nat (length (g_hook_list_head g)))
    by (apply active_count_value; [exact Hok | lia]).
  split; [exact Hc|]. split.
  - intros n r h b Hs. rewrite Hc.
    destruct (install_success_inv env n r h b g Hs)
      as (name & h0 & blk & -> & -> & -> & _ & _ & _ & _ & Hg & _).
    rewrite active_count_value; rewrite Hg;
      unfold set_next_hook_id, set_list_head; cbn [g_hook_list_head].
    + cbn [length]. lia.
    + constructor; [|exact Hok]. split; [|reflexivity].
      cbn [Entry.function_name]. unfold strlen.
      rewrite c_str_bounded_copy, length_firstn. lia.
    + cbn [length]. lia.
  - intros h Hs. rewrite Hc.
    destruct (remove_success_inv h g Hs) as (h0 & l' & -> & _ & _ & Hl & Hg).
    pose proof (remove_loop_length _ _ _ Hl) as Hlen.
    rewrite active_count_value; rewrite Hg; cbn [set_list_head g_hook_list_head].
    + lia.
    + rewrite Forall_forall in *. intros e He. apply Hok.
      eapply remove_loop_incl; eauto.
    + lia.
Qed.

Lemma X10_witness :
  result_of (ph_get_active_hook_count getuid_globals) = 1 /\
  result_of (ph_get_active_hook_count
               (globals_of (ph_install_hook sample_env (Some (lit "uname"))
                                            16384 (Some blank_handle)
                                            (Some fresh_block)
                                            getuid_globals))) = 2 /\
  result_of (ph_get_active_hook_count
               (globals_of (ph_remove_hook getuid_handle getuid_globals))) = 0.
Proof.
  assert (Hreach : reachable sample_env getuid_globals).
  { exists [CallInitialize;
            CallInstallHook (Some (lit "getuid")) 12288 (Some blank_handle)
                            (Some fresh_block)].
    reflexivity. }
  destruct (X10_active_count_follows_the_list sample_env getuid_globals Hreach)
    as (A & B & C); [vm_compute; reflexivity|].
  split; [exact A|]. split.
  - rewrite B; [now rewrite A | reflexivity].
  - rewrite C; [now rewrite A | reflexivity].
Defined.

(** X11: [ph_get_active_hooks] with a null buffer, or with a capacity of
    0 or 1, returns [0] and writes nothing, whatever the registry holds:
    one byte cannot take even an empty name. *)
Theorem X11_listing_needs_two_bytes
        (g : Globals) (buffer : option (list byte)) (buffer_size : Z) :
  buffer = None \/ buffer_size = 0 \/ buffer_size = 1 ->
  result_of (ph_get_active_hooks buffer buffer_size g) = (0, buffer).
Proof.
  intros H. unfold ph_get_active_hooks.
  destruct buffer as [buf|]; [|reflexivity].
  destruct H as [H|[->| ->]]; [discriminate | reflexivity |].
  unfold_monad. simpl. now destruct (g_hook_list_head g).
Qed.

Lemma X11_witness :
  result_of (ph_get_active_hooks None 64 getuid_globals) = (0, None) /\
  result_of (ph_get_active_hooks (Some (repeat "?"%byte 4)) 1 getuid_globals)
  = (0, Some (repeat "?"%byte 4)).
Proof.
  split; apply X11_listing_needs_two_bytes; [now left | right; now right].
Defined.

Lemma fitting_all (names : list (list byte)) (sz : Z) :
  forall off : Z,
    off + Z.of_nat (length (layout names)) < sz ->
    fitting names sz off = names.
Proof.
  induction names as [|n names IH]; intros off H; [reflexivity|].
  cbn [fitting]. cbn [layout] in H. rewrite !length_app in H.
  cbn [length] in H.
  rewrite (proj2 (Z.ltb_lt _ _)) by lia. f_equal. apply IH. lia.
Qed.

(** X12: when the capacity exceeds the bytes all active names take with
    their terminators, [ph_get_active_hooks] writes every one of them, in
    list order, and returns what [ph_get_active_hook_count] returns. *)
Theorem X12_large_buffer_lists_every_name
        (g : Globals) (buffer : list byte) (buffer_size : Z) :
  Forall entry_ok (g_hook_list_head g) ->
  Z.of_nat (length (g_hook_list_head g)) < 2 ^ 32 ->
  buffer_size <= Z.of_nat (length buffer) ->
  buffer_size + 256 <= 2 ^ 64 ->
  Z.of_nat (length (layout (active_names (g_hook_list_head g))))
  < buffer_size ->
  let names := active_names (g_hook_list_head g) in
  result_of (ph_get_active_hooks (Some buffer) buffer_size g)
  = (result_of (ph_get_active_hook_count g),
     Some (layout names ++ skipn (length (layout names)) buffer)) /\
  names = entry_names (g_hook_list_head g).
Proof.
  intros Hok Hcount Hcap Hmax Hfit names.
  assert (Hshort : Forall (fun e => strlen (Entry.function_name e) <= 255)
                          (g_hook_list_head g)).
  { eapply Forall_impl; [|exact Hok]. now intros e [H _]. }
  assert (Hnames : names = entry_names (g_hook_list_head g)).
  { unfold names, active_names, entry_names.
    now rewrite filter_all_active. }
  split; [|exact Hnames].
  rewrite (active_count_value g Hok Hcount).
  unfold ph_get_active_hooks.
  assert (Hpos : 0 < buffer_size) by lia.
  assert (Hnz : (buffer_size =? 0) = false) by (apply Z.eqb_neq; lia).
  rewrite Hnz. unfold_monad. cbv beta iota zeta.
  rewrite (active_hooks_loop_fitting buffer_size (g_hook_list_head g)
             Hpos Hmax Hshort buffer 0 0) by lia.
  rewrite fitting_all by lia. fold names.
  cbn [fst snd].
  f_equal. rewrite Hnames. unfold entry_names. now rewrite length_map.
Qed.

Lemma X12_witness :
  let g := globals_of
             (calls sample_env
                    [ CallInstallHook (Some (lit "uname")) 16384
                                      (Some blank_handle) (Some fresh_block) ]
                    getuid_globals) in
  result_of (ph_get_active_hooks (Some (repeat "?"%byte 16)) 14 g)
  = (2, Some (c_str (lit "uname") ++ [NUL] ++ c_str (lit "getuid") ++ [NUL]
              ++ repeat "?"%byte 3)).
Proof.
  intros g.
  destruct (X12_large_buffer_lists_every_name g (repeat "?"%byte 16) 14)
    as [A _];
    [ vm_compute; repeat constructor; discriminate
    | vm_compute; reflexivity
    | vm_compute; discriminate
    | vm_compute; discriminate
    | vm_compute; reflexivity | ].
  rewrite A. reflexivity.
Defined.

(** X13: whatever the capacity, the names [ph_get_active_hooks] writes are
    names of the registry: for each of them [ph_is_hooked] is true. *)
Theorem X13_listed_names_are_hooked
        (g : Globals) (buffer : list byte) (buffer_size : Z) :
  Forall entry_ok (g_hook_list_head g) ->
  Z.of_nat (length (g_hook_list_head g)) < 2 ^ 32 ->
  0 < buffer_size <= Z.of_nat (length buffer) ->
  buffer_size + 256 <= 2 ^ 64 ->
  exists written,
    result_of (ph_get_active_hooks (Some buffer) buffer_size g)
    = (Z.of_nat (length written),
       Some (layout written ++ skipn (length (layout written)) buffer)) /\
    forall n, In n written -> result_of (ph_is_hooked (Some n) g) = true.
Proof.
  intros Hok Hcount Hcap Hmax.
  assert (Hshort : Forall (fun e => strlen (Entry.function_name e) <= 255)
                          (g_hook_list_head g)).
  { eapply Forall_impl; [|exact Hok]. now intros e [H _]. }
  destruct (fitting_prefix (active_names (g_hook_list_head g))
                           buffer_size 0 ltac:(lia))
    as (rest & H1 & _).
  set (W := fitting (active_names (g_hook_list_head g)) buffer_size 0) in *.
  exists W. split.
  - unfold ph_get_active_hooks.
    assert (Hpos : 0 < buffer_size) by lia.
    assert (Hnz : (buffer_size =? 0) = false) by (apply Z.eqb_neq; lia).
    rewrite Hnz. unfold_monad. cbv beta iota zeta.
    rewrite (active_hooks_loop_fitting buffer_size (g_hook_list_head g)
               Hpos Hmax Hshort buffer 0 0) by lia.
    reflexivity.
  - intros n Hn. rewrite is_hooked_find.
    destruct (ph_find_hook_by_name (g_hook_list_head g) n) eqn:Ef;
      [reflexivity|].
    exfalso. apply find_none_iff in Ef. apply Ef.
    assert (Hin : In n (active_names (g_hook_list_head g)))
      by (rewrite H1; apply in_or_app; now left).
    unfold active_names in Hin. apply in_map_iff in Hin.
    destruct Hin as (e & He & Hin). apply filter_In in Hin.
    destruct Hin as [Hin _]. subst n. rewrite c_str_idem.
    unfold entry_names. apply in_map_iff. now exists e.
Qed.

Lemma X13_witness :
  exists written,
    fst (result_of (ph_get_active_hooks (Some (repeat "?"%byte 9)) 9
                                        getuid_globals))
    = Z.of_nat (length written) /\
    forall n, In n written ->
              result_of (ph_is_hooked (Some n) getuid_globals) = true.
Proof.
  destruct (X13_listed_names_are_hooked getuid_globals (repeat "?"%byte 9) 9)
    as (written & A & B);
    [ vm_compute; repeat constructor; discriminate
    | vm_compute; reflexivity
    | vm_compute; split; [reflexivity | discriminate]
    | vm_compute; discriminate | ].
  exists written. split; [now rewrite A | exact B].
Defined.

(** ** The configuration store *)

(** [ph_install_hook] does not touch the configuration. *)
Lemma install_keeps_config (env : Env) (n : option (list byte)) (r : Z)
      (h : option PHookHandle) (b : option PHookEntry) (g : Globals) :
  g_config_data (globals_of (ph_install_hook env n r h b g))
  = g_config_data g.
Proof.
  destruct (fst (result_of (ph_install_hook env n r h b g))) eqn:E.
  1: { destruct (install_success_inv env n r h b g E)
         as (? & ? & ? & _ & _ & _ & _ & _ & _ & _ & Hg & _).
       now rewrite Hg. }
  all: destruct (install_failure_unchanged env n r h b g) as [Hg _];
    [rewrite E; discriminate | now rewrite Hg].
Qed.

(** Each configuration-driven installer is its stores followed by
    [ph_install_hook] on the literal name with the canned replacement. *)
Lemma getuid_hook_unfolded (env : Env) (cfg : PHookConfigData)
      (h : PHookHandle) (b : option PHookEntry) (g : Globals) :
  let g0 := set_config (set_user_id (user_id cfg) (g_config_data g)) g in
  let inner := ph_install_hook env (Some (lit "getuid"))
                               (addr_hooked_getuid env) (Some h) b g0 in
  result_of (ph_install_getuid_hook env (Some cfg) (Some h) b g)
  = result_of inner /\
  globals_of (ph_install_getuid_hook env (Some cfg) (Some h) b g)
  = globals_of inner.
Proof.
  intros g0 inner. unfold ph_install_getuid_hook.
  unfold bind, pthread_mutex_lock, pthread_mutex_unlock, config_write,
    result_of, globals_of.
  cbv beta iota zeta. fold g0. fold inner.
  now destruct inner as [[x g'] t].
Qed.

Lemma getgid_hook_unfolded (env : Env) (cfg : PHookConfigData)
      (h : PHookHandle) (b : option PHookEntry) (g : Globals) :
  let g0 := set_config (set_group_id (group_id cfg) (g_config_data g)) g in
  let inner := ph_install_hook env (Some (lit "getgid"))
                               (addr_hooked_getgid env) (Some h) b g0 in
  result_of (ph_install_getgid_hook env (Some cfg) (Some h) b g)
  = result_of inner /\
  globals_of (ph_install_getgid_hook env (Some cfg) (Some h) b g)
  = globals_of inner.
Proof.
  intros g0 inner. unfold ph_install_getgid_hook.
  unfold bind, pthread_mutex_lock, pthread_mutex_unlock, config_write,
    result_of, globals_of.
  cbv beta iota zeta. fold g0. fold inner.
  now destruct inner as [[x g'] t].
Qed.

Lemma gethostname_hook_unfolded (env : Env) (cfg : PHookConfigData)
      (h : PHookHandle) (b : option PHookEntry) (g : Globals) :
  let g0 := set_config
              (set_hostname
                 (store (strncpy (hostname (g_config_data g)) (hostname cfg)
                                 (256 - 1)) (256 - 1) NUL)
                 (g_config_data g)) g in
  let inner := ph_install_hook env (Some (lit "gethostname"))
                               (addr_hooked_gethostname env) (Some h) b g0 in
  result_of (ph_install_gethostname_hook env (Some cfg) (Some h) b g)
  = result_of inner /\
  globals_of (ph_install_gethostname_hook env (Some cfg) (Some h) b g)
  = globals_of inner.
Proof.
  intros g0 inner. unfold ph_install_gethostname_hook.
  unfold bind, config_write, result_of, globals_of.
  cbv beta iota zeta.
  change (ph_install_hook env (Some (lit "gethostname"))
            (addr_hooked_gethostname env) (Some h) b _) with inner.
  now destruct inner as [[x g'] t].
Qed.

Lemma uname_hook_unfolded (env : Env) (cfg : PHookConfigData)
      (h : PHookHandle) (b : option PHookEntry) (g : Globals) :
  let c := g_config_data g in
  let g0 := set_config
              (mkConfig
                 (user_id c) (group_id c)
                 (store (strncpy (hostname c) (hostname cfg) (256 - 1))
                        (256 - 1) NUL)
                 (store (strncpy (system_name c) (system_name cfg) (256 - 1))
                        (256 - 1) NUL)
                 (store (strncpy (machine c) (machine cfg) (256 - 1))
                        (256 - 1) NUL)
                 (store (strncpy (release c) (release cfg) (256 - 1))
                        (256 - 1) NUL)
                 (store (strncpy (version c) (version cfg) (512 - 1))
                        (512 - 1) NUL)) g in
  let inner := ph_install_hook env (Some (lit "uname"))
                               (addr_hooked_uname env) (Some h) b g0 in
  result_of (ph_install_uname_hook env (Some cfg) (Some h) b g)
  = result_of inner /\
  globals_of (ph_install_uname_hook env (Some cfg) (Some h) b g)
  = globals_of inner.
Proof.
  intros c g0 inner. unfold ph_install_uname_hook.
  unfold bind, config_write, result_of, globals_of.
  cbv beta iota zeta.
  change (ph_install_hook env (Some (lit "uname"))
            (addr_hooked_uname env) (Some h) b _) with inner.
  now destruct inner as [[x g'] t].
Qed.

(** X14: the numeric setters take effect at once and whatever the install
    returns: after [ph_install_getuid_hook] (resp.
    [ph_install_getgid_hook]) with a configuration and a handle,
    [hooked_getuid] (resp. [hooked_getgid]) returns the configured id, and
    no other field of the configuration has changed. *)
Theorem X14_numeric_setters_take_effect_at_once
        (env : Env) (cfg : PHookConfigData) (h : PHookHandle)
        (b : option PHookEntry) (g : Globals) :
  let g1 := globals_of (ph_install_getuid_hook env (Some cfg) (Some h) b g) in
  let g2 := globals_of (ph_install_getgid_hook env (Some cfg) (Some h) b g) in
  hooked_getuid g1 = user_id cfg /\
  g_config_data g1 = set_user_id (user_id cfg) (g_config_data g) /\
  hooked_getgid g2 = group_id cfg /\
  g_config_data g2 = set_group_id (group_id cfg) (g_config_data g).
Proof.
  intros g1 g2.
  destruct (getuid_hook_unfolded env cfg h b g) as [_ H1].
  destruct (getgid_hook_unfolded env cfg h b g) as [_ H2].
  fold g1 in H1. fold g2 in H2.
  assert (C1 : g_config_data g1
               = set_user_id (user_id cfg) (g_config_data g))
    by (rewrite H1, install_keeps_config; reflexivity).
  assert (C2 : g_config_data g2
               = set_group_id (group_id cfg) (g_config_data g))
    by (rewrite H2, install_keeps_config; reflexivity).
  unfold hooked_getuid, hooked_getgid. rewrite C1, C2. auto.
Qed.

(** X15: the host name set by [ph_install_gethostname_hook] is what
    [hooked_gethostname] serves, cut to 255 characters: with a capacity
    within the caller's memory and above the length of the cut name, the
    handler returns [0] and leaves exactly that string in the buffer,
    whether the install itself succeeded or not. *)
Theorem X15_hostname_setter_then_handler
        (env : Env) (cfg : PHookConfigData) (h : PHookHandle)
        (b : option PHookEntry) (g : Globals)
        (buffer : list byte) (len : Z) :
  0 <= len <= Z.of_nat (length buffer) ->
  Z.of_nat (length (firstn 255 (c_str (hostname cfg)))) < len ->
  let g1 := globals_of
              (ph_install_gethostname_hook env (Some cfg) (Some h) b g) in
  fst (hooked_gethostname g1 buffer len) = 0 /\
  c_str (snd (hooked_gethostname g1 buffer len))
  = firstn 255 (c_str (hostname cfg)).
Proof.
  intros Hcap Hfit g1.
  destruct (gethostname_hook_unfolded env cfg h b g) as [_ H1].
  fold g1 in H1.
  assert (Hhost : c_str (hostname (g_config_data g1))
                  = firstn 255 (c_str (hostname cfg))).
  { rewrite H1, install_keeps_config. cbn [g_config_data set_config hostname
                                               set_hostname].
    apply c_str_bounded_copy. }
  unfold hooked_gethostname, strlen. rewrite Hhost.
  rewrite (proj2 (Z.leb_gt _ _)) by lia. cbn [fst snd].
  split; [reflexivity|].
  rewrite bounded_copy_c_str, Hhost.
  apply firstn_all2. rewrite length_firstn in *. lia.
Qed.

Lemma X15_witness :
  let g1 := globals_of
              (ph_install_gethostname_hook sample_env (Some sample_config)
                                           (Some blank_handle)
                                           (Some fresh_block)
                                           initial_globals) in
  fst (result_of (ph_install_gethostname_hook sample_env (Some sample_config)
                                              (Some blank_handle)
                                              (Some fresh_block)
                                              initial_globals))
  = PH_ERROR_INVALID_PARAM /\
  fst (hooked_gethostname g1 (repeat "?"%byte 12) 10) = 0 /\
  c_str (snd (hooked_gethostname g1 (repeat "?"%byte 12) 10))
  = c_str (lit "test-host").
Proof.
  intros g1.
  destruct (X15_hostname_setter_then_handler
              sample_env sample_config blank_handle (Some fresh_block)
              initial_globals (repeat "?"%byte 12) 10)
    as [A B]; [vm_compute; split; discriminate | vm_compute; reflexivity |].
  split; [reflexivity|]. split; [exact A|].
  etransitivity; [exact B | reflexivity].
Defined.

Lemma zero_config_ok : config_ok zero_config.
Proof.
  unfold config_ok, terminated_array, zero_config, strlen. simpl.
  repeat split; lia.
Qed.

Lemma call_config_ok (env : Env) (c : Call) (g : Globals) :
  config_ok (g_config_data g) ->
  config_ok (g_config_data (globals_of (call env c g))).
Proof.
  intros Hok.
  destruct c as [ | | n r h b | h | h | n | cfg h b | cfg h b | cfg h b
                | cfg h b | en | | buf sz ].
  - unfold call, ph_initialize, ph_is_platform_supported. unfold_monad.
    simpl. destruct (g_hook_system_initialized g); simpl; [exact Hok|].
    destruct (apple env); exact Hok.
  - unfold call, ph_cleanup. unfold_monad. simpl.
    destruct (g_hook_system_initialized g); exact Hok.
  - pose proof (install_keeps_config env n r h b g) as H.
    unfold call, fmap, bind, ret, globals_of in *.
    destruct (ph_install_hook env n r h b g) as [[x g'] t].
    simpl in *. now rewrite H.
  - unfold call, ph_remove_hook.
    destruct h as [h0|]; [|exact Hok].
    destruct (Handle.is_valid h0); simpl; [|exact Hok].
    unfold_monad. simpl.
    destruct (g_hook_system_initialized g); simpl; [|exact Hok].
    now destruct (remove_loop (g_hook_list_head g)
                              (Handle.function_name h0)).
  - unfold call, ph_get_original.
    destruct h as [h0|]; [|exact Hok].
    now destruct (Handle.is_valid h0).
  - now destruct n.
  - destruct cfg as [cfg|], h as [h0|]; try exact Hok.
    destruct (getuid_hook_unfolded env cfg h0 b g) as [_ H].
    unfold call, fmap, bind, ret, globals_of in *.
    destruct (ph_install_getuid_hook env (Some cfg) (Some h0) b g)
      as [[x g'] t].
    simpl in *. rewrite H.
    change (config_ok (g_config_data (globals_of
      (ph_install_hook env (Some (lit "getuid")) (addr_hooked_getuid env)
         (Some h0) b
         (set_config (set_user_id (user_id cfg) (g_config_data g)) g))))).
    rewrite install_keeps_config. exact Hok.
  - destruct cfg as [cfg|], h as [h0|]; try exact Hok.
    destruct (getgid_hook_unfolded env cfg h0 b g) as [_ H].
    unfold call, fmap, bind, ret, globals_of in *.
    destruct (ph_install_getgid_hook env (Some cfg) (Some h0) b g)
      as [[x g'] t].
    simpl in *. rewrite H.
    change (config_ok (g_config_data (globals_of
      (ph_install_hook env (Some (lit "getgid")) (addr_hooked_getgid env)
         (Some h0) b
         (set_config (set_group_id (group_id cfg) (g_config_data g)) g))))).
    rewrite install_keeps_config. exact Hok.
  - destruct cfg as [cfg|], h as [h0|]; try exact Hok.
    destruct (gethostname_hook_unfolded env cfg h0 b g) as [_ H].
    cbv zeta in H.
    assert (E : globals_of (call env (CallInstallGethostnameHook (Some cfg)
                                        (Some h0) b) g)
                = globals_of (ph_install_gethostname_hook env (Some cfg)
                                (Some h0) b g)).
    { unfold call, fmap, bind, ret, globals_of.
      now destruct (ph_install_gethostname_hook env (Some cfg) (Some h0) b g)
        as [[x g'] t]. }
    rewrite E, H, install_keeps_config.
    destruct Hok as (H1 & H2 & H3 & H4 & H5).
    repeat split; try apply H2; try apply H3; try apply H4; try apply H5;
      cbn [g_config_data set_config hostname set_hostname];
      apply (bounded_copy_terminated _ _ 256); try lia; apply H1.
  - destruct cfg as [cfg|], h as [h0|]; try exact Hok.
    destruct (uname_hook_unfolded env cfg h0 b g) as [_ H].
    cbv zeta in H.
    assert (E : globals_of (call env (CallInstallUnameHook (Some cfg)
                                        (Some h0) b) g)
                = globals_of (ph_install_uname_hook env (Some cfg)
                                (Some h0) b g)).
    { unfold call, fmap, bind, ret, globals_of.
      now destruct (ph_install_uname_hook env (Some cfg) (Some h0) b g)
        as [[x g'] t]. }
    rewrite E, H, install_keeps_config.
    destruct Hok as (H1 & H2 & H3 & H4 & H5).
    unfold config_ok.
    cbn [g_config_data set_config hostname system_name machine release
         version].
    split; [apply (bounded_copy_terminated _ _ 256); try lia; apply H1|].
    split; [apply (bounded_copy_terminated _ _ 256); try lia; apply H2|].
    split; [apply (bounded_copy_terminated _ _ 256); try lia; apply H3|].
    split; [apply (bounded_copy_terminated _ _ 256); try lia; apply H4|].
    apply (bounded_copy_terminated _ _ 512); try lia; apply H5.
  - exact Hok.
  - exact Hok.
  - unfold call, ph_get_active_hooks.
    destruct buf as [buf|]; [|exact Hok].
    destruct (sz =? 0); [exact Hok|]. unfold_monad. simpl.
    now destruct (active_hooks_loop (g_hook_list_head g) buf sz 0 0).
Qed.

(** X16: whatever a client calls and whatever strings it passes, each
    text field of [g_config_data] keeps its size (256 bytes, 512 for
    [version]) and holds a NUL within it: the setters never overrun a
    field nor leave it unterminated. *)
Theorem X16_config_fields_stay_terminated (env : Env) (g : Globals) :
  reachable env g -> config_ok (g_config_data g).
Proof.
  intros [cs <-].
  assert (H : forall g0, config_ok (g_config_data g0) ->
                    config_ok (g_config_data (globals_of (calls env cs g0)))).
  { induction cs as [|c cs IH]; intros g0 H0; [exact H0|].
    rewrite calls_cons_globals. now apply IH, call_config_ok. }
  apply H. apply zero_config_ok.
Qed.

Lemma X16_witness :
  let cfg := mkConfig 0 0 (repeat "h"%byte 300) (repeat "s"%byte 256)
                      (lit "arm64") (lit "23.0.0") (repeat "v"%byte 600) in
  let g := globals_of
             (calls sample_env
                    [ CallInstallUnameHook (Some cfg) (Some blank_handle)
                                           (Some fresh_block) ]
                    initial_globals) in
  length (hostname (g_config_data g)) = 256%nat /\
  strlen (hostname (g_config_data g)) = 255 /\
  length (version (g_config_data g)) = 512%nat /\
  strlen (version (g_config_data g)) = 511.
Proof.
  intros cfg g.
  assert (Hreach : reachable sample_env g) by (eexists; reflexivity).
  destruct (X16_config_fields_stay_terminated sample_env g Hreach)
    as ((A & _) & _ & _ & _ & (B & _)).
  split; [exact A|]. split; [vm_compute; reflexivity|].
  split; [exact B | vm_compute; reflexivity].
Defined.

(** ** The system information handler *)

Lemma bounded_copy_field (dst src : list byte) (n : Z) :
  1 <= n -> length dst = Z.to_nat n ->
  terminated_array (Z.to_nat n)
                   (store (strncpy dst src (n - 1)) (n - 1) NUL) /\
  c_str (store (strncpy dst src (n - 1)) (n - 1) NUL)
  = firstn (Z.to_nat (n - 1)) (c_str src).
Proof.
  intros Hn Hlen. split; [split|].
  - apply bounded_copy_length; [lia | exact Hlen].
  - unfold strlen. rewrite bounded_copy_c_str, length_firstn. lia.
  - apply bounded_copy_c_str.
Qed.

(** X17: [hooked_uname] returns [-1] on a null pointer.  Otherwise, with
    [namelen] the size of each field of [struct utsname], it returns [0]
    and every field keeps its size and holds a terminated string: the
    configured string cut to [namelen - 1] characters, the node name being
    the configured host name. *)
Theorem X17_hooked_uname_fills_terminated_fields
        (namelen : Z) (g : Globals) (u : Utsname.utsname) :
  1 <= namelen < 2 ^ 64 ->
  length (Utsname.sysname u) = Z.to_nat namelen ->
  length (Utsname.nodename u) = Z.to_nat namelen ->
  length (Utsname.release u) = Z.to_nat namelen ->
  length (Utsname.version u) = Z.to_nat namelen ->
  length (Utsname.machine u) = Z.to_nat namelen ->
  let c := g_config_data g in
  let cut := fun s => firstn (Z.to_nat (namelen - 1)) (c_str s) in
  hooked_uname namelen g None = (-1, None) /\
  exists u',
    hooked_uname namelen g (Some u) = (0, Some u') /\
    terminated_array (Z.to_nat namelen) (Utsname.sysname u') /\
    terminated_array (Z.to_nat namelen) (Utsname.nodename u') /\
    terminated_array (Z.to_nat namelen) (Utsname.release u') /\
    terminated_array (Z.to_nat namelen) (Utsname.version u') /\
    terminated_array (Z.to_nat namelen) (Utsname.machine u') /\
    c_str (Utsname.sysname u') = cut (system_name c) /\
    c_str (Utsname.nodename u') = cut (hostname c) /\
    c_str (Utsname.release u') = cut (release c) /\
    c_str (Utsname.version u') = cut (version c) /\
    c_str (Utsname.machine u') = cut (machine c).
Proof.
  intros Hn H1 H2 H3 H4 H5 c cut. split; [reflexivity|].
  unfold hooked_uname. rewrite (usize_small (namelen - 1)) by lia.
  fold c. eexists. split; [reflexivity|].
  cbn [Utsname.sysname Utsname.nodename Utsname.release Utsname.version
       Utsname.machine].
  destruct (bounded_copy_field (Utsname.sysname u) (system_name c) namelen)
    as [A1 B1]; [lia | exact H1 |].
  destruct (bounded_copy_field (Utsname.nodename u) (hostname c) namelen)
    as [A2 B2]; [lia | exact H2 |].
  destruct (bounded_copy_field (Utsname.release u) (release c) namelen)
    as [A3 B3]; [lia | exact H3 |].
  destruct (bounded_copy_field (Utsname.version u) (version c) namelen)
    as [A4 B4]; [lia | exact H4 |].
  destruct (bounded_copy_field (Utsname.machine u) (machine c) namelen)
    as [A5 B5]; [lia | exact H5 |].
  unfold cut. repeat split; try apply A1; try apply A2; try apply A3;
    try apply A4; try apply A5; assumption.
Qed.

Lemma X17_witness :
  let g := set_config sample_config initial_globals in
  exists u',
    hooked_uname 8 g (Some blank_utsname) = (0, Some u') /\
    Utsname.sysname u' = c_str (lit "Darwin") ++ [NUL; NUL] /\
    c_str (Utsname.nodename u') = c_str (lit "test-ho") /\
    length (Utsname.version u') = 8%nat /\
    c_str (Utsname.version u') = c_str (lit "Darwin ").
Proof.
  intros g.
  destruct (X17_hooked_uname_fills_terminated_fields 8 g blank_utsname)
    as (_ & u' & A & _ & _ & _ & (D & _) & _ & _ & G & _ & I & _);
    [vm_compute; split; [discriminate | reflexivity]
    | reflexivity | reflexivity | reflexivity | reflexivity | reflexivity |].
  exists u'. split; [exact A|].
  assert (E : u' = Utsname.mk (c_str (lit "Darwin") ++ [NUL; NUL])
                              (Utsname.nodename u') (Utsname.release u')
                              (Utsname.version u') (Utsname.machine u')).
  { assert (E0 : Some u' = snd (hooked_uname 8 g (Some blank_utsname)))
      by now rewrite A.
    vm_compute in E0. injection E0 as ->. reflexivity. }
  split; [rewrite E; reflexivity|].
  split; [etransitivity; [exact G | reflexivity]|].
  split; [exact D|]. etransitivity; [exact I | reflexivity].
Defined.

(** ** The convenience installers and the generic interface *)

Lemma lit_getuid_short : strlen (lit "getuid") <= 255.
Proof. vm_compute. discriminate. Qed.
Lemma lit_getgid_short : strlen (lit "getgid") <= 255.
Proof. vm_compute. discriminate. Qed.
Lemma lit_gethostname_short : strlen (lit "gethostname") <= 255.
Proof. vm_compute. discriminate. Qed.
Lemma lit_uname_short : strlen (lit "uname") <= 255.
Proof. vm_compute. discriminate. Qed.

(** X18: a configuration-driven installer and the generic wrapper of the
    same system call share one registry name.  After a successful
    [ph_install_getuid_hook] the entry found for ["getuid"] carries the
    address of [hooked_getuid], and [ph_hook_getuid] with any replacement
    and handle returns [PH_ERROR_ALREADY_HOOKED]; likewise for
    [getgid], [gethostname] and [uname]. *)
Theorem X18_convenience_installers_own_their_name
        (env : Env) (cfg : PHookConfigData) (h : PHookHandle)
        (b : option PHookEntry) (g : Globals)
        (r : Z) (h2 : PHookHandle) (b2 : option PHookEntry) :
  r <> 0 ->
  (fst (result_of (ph_install_getuid_hook env (Some cfg) (Some h) b g))
   = PH_SUCCESS ->
   let g1 := globals_of (ph_install_getuid_hook env (Some cfg) (Some h) b g) in
   option_map Entry.replacement_function
     (ph_find_hook_by_name (g_hook_list_head g1) (lit "getuid"))
   = Some (addr_hooked_getuid env) /\
   fst (result_of (ph_hook_getuid env r (Some h2) b2 g1))
   = PH_ERROR_ALREADY_HOOKED) /\
  (fst (result_of (ph_install_getgid_hook env (Some cfg) (Some h) b g))
   = PH_SUCCESS ->
   let g1 := globals_of (ph_install_getgid_hook env (Some cfg) (Some h) b g) in
   option_map Entry.replacement_function
     (ph_find_hook_by_name (g_hook_list_head g1) (lit "getgid"))
   = Some (addr_hooked_getgid env) /\
   fst (result_of (ph_hook_getgid env r (Some h2) b2 g1))
   = PH_ERROR_ALREADY_HOOKED) /\
  (fst (result_of (ph_install_gethostname_hook env (Some cfg) (Some h) b g))
   = PH_SUCCESS ->
   let g1 := globals_of
               (ph_install_gethostname_hook env (Some cfg) (Some h) b g) in
   option_map Entry.replacement_function
     (ph_find_hook_by_name (g_hook_list_head g1) (lit "gethostname"))
   = Some (addr_hooked_gethostname env) /\
   fst (result_of (ph_hook_gethostname env r (Some h2) b2 g1))
   = PH_ERROR_ALREADY_HOOKED) /\
  (fst (result_of (ph_install_uname_hook env (Some cfg) (Some h) b g))
   = PH_SUCCESS ->
   let g1 := globals_of (ph_install_uname_hook env (Some cfg) (Some h) b g) in
   option_map Entry.replacement_function
     (ph_find_hook_by_name (g_hook_list_head g1) (lit "uname"))
   = Some (addr_hooked_uname env) /\
   fst (result_of (ph_hook_uname env r (Some h2) b2 g1))
   = PH_ERROR_ALREADY_HOOKED).
Proof.
  intros Hr. split; [|split; [|split]].
  - destruct (getuid_hook_unfolded env cfg h b g) as [E1 E2].
    cbv zeta in E1, E2. rewrite E1, E2. intros Hs.
    destruct (install_twice env _ _ r _ h2 _ b2 _ lit_getuid_short Hr Hs)
      as (A & B & C).
    cbv zeta. rewrite B in C. split; [exact C | exact A].
  - destruct (getgid_hook_unfolded env cfg h b g) as [E1 E2].
    cbv zeta in E1, E2. rewrite E1, E2. intros Hs.
    destruct (install_twice env _ _ r _ h2 _ b2 _ lit_getgid_short Hr Hs)
      as (A & B & C).
    cbv zeta. rewrite B in C. split; [exact C | exact A].
  - destruct (gethostname_hook_unfolded env cfg h b g) as [E1 E2].
    cbv zeta in E1, E2. rewrite E1, E2. intros Hs.
    destruct (install_twice env _ _ r _ h2 _ b2 _ lit_gethostname_short
                            Hr Hs) as (A & B & C).
    cbv zeta. rewrite B in C. split; [exact C | exact A].
  - destruct (uname_hook_unfolded env cfg h b g) as [E1 E2].
    cbv zeta in E1, E2. rewrite E1, E2. intros Hs.
    destruct (install_twice env _ _ r _ h2 _ b2 _ lit_uname_short Hr Hs)
      as (A & B & C).
    cbv zeta. rewrite B in C. split; [exact C | exact A].
Qed.

Lemma X18_witness :
  let g1 := globals_of
              (ph_install_gethostname_hook sample_env (Some sample_config)
                                           (Some blank_handle)
                                           (Some fresh_block)
                                           ready_globals) in
  option_map Entry.replacement_function
    (ph_find_hook_by_name (g_hook_list_head g1) (lit "gethostname"))
  = Some 8224 /\
  fst (result_of (ph_hook_gethostname sample_env 12288 (Some blank_handle)
                                      (Some fresh_block) g1))
  = PH_ERROR_ALREADY_HOOKED.
Proof.
  intros g1.
  destruct (X18_convenience_installers_own_their_name
              sample_env sample_config blank_handle (Some fresh_block)
              ready_globals 12288 blank_handle (Some fresh_block))
    as (_ & _ & C & _); [lia|].
  apply C. reflexivity.
Defined.

(** ** Invariants of reachable states *)

(** X19: after any sequence of calls from the initial state, no entry
    exists while the library is not initialised, every entry is active
    with a terminated name of at most 255 characters, and, when no call
    installed a name longer than that, no two entries have the same
    name. *)
Theorem X19_registry_invariants (env : Env) (cs : list Call) :
  let g := globals_of (calls env cs initial_globals) in
  (g_hook_system_initialized g = false -> g_hook_list_head g = []) /\
  Forall entry_ok (g_hook_list_head g) /\
  (Forall short_call cs -> NoDup (entry_names (g_hook_list_head g))).
Proof.
  intros g.
  assert (Hreach : reachable env g) by (now exists cs).
  split; [|split].
  - apply (reachable_no_entry_before_init env g Hreach).
  - apply (reachable_entries_ok env g Hreach).
  - apply calls_unique_names.
Qed.

Lemma X19_witness :
  let cs := [ CallInitialize;
              CallInstallHook (Some (lit "getuid")) 12288
                              (Some blank_handle) (Some fresh_block);
              CallInstallGetuidHook (Some sample_config) (Some blank_handle)
                                    (Some fresh_block);
              CallInstallUnameHook (Some sample_config) (Some blank_handle)
                                   (Some fresh_block) ] in
  let g := globals_of (calls sample_env cs initial_globals) in
  entry_names (g_hook_list_head g)
  = [c_str (lit "uname"); c_str (lit "getuid")] /\
  NoDup (entry_names (g_hook_list_head g)).
Proof.
  intros cs g.
  destruct (X19_registry_invariants sample_env cs) as (_ & _ & C).
  split; [vm_compute; reflexivity|].
  apply C. unfold cs.
  repeat constructor; intros n; simpl; try discriminate;
    intros [= <-]; vm_compute; discriminate.
Defined.

(** ** Result codes *)

(** X20: the result of [ph_install_hook] and the order of its checks:
    [PH_ERROR_INVALID_PARAM] exactly for a null argument or a library that
    is not initialised; past that, [PH_ERROR_ALREADY_HOOKED] exactly when
    an entry is found for the name; past that,
    [PH_ERROR_FUNCTION_NOT_FOUND] exactly when [dlsym] fails; past that,
    [PH_ERROR_MEMORY_ERROR] exactly when [malloc] fails; [PH_SUCCESS]
    otherwise. *)
Theorem X20_install_result_codes
        (env : Env) (name : list byte) (r : Z) (h : PHookHandle)
        (b : option PHookEntry) (g : Globals) :
  let code n r' h' :=
      fst (result_of (ph_install_hook env n r' h' b g)) in
  (forall n r' h',
      code n r' h' = PH_ERROR_INVALID_PARAM <->
      n = None \/ r' = 0 \/ h' = None \/
      g_hook_system_initialized g = false) /\
  (r <> 0 -> g_hook_system_initialized g = true ->
   (code (Some name) r (Some h) = PH_ERROR_ALREADY_HOOKED <->
    ph_find_hook_by_name (g_hook_list_head g) name <> None) /\
   (code (Some name) r (Some h) = PH_ERROR_FUNCTION_NOT_FOUND <->
    ph_find_hook_by_name (g_hook_list_head g) name = None /\
    dlsym env name = 0) /\
   (code (Some name) r (Some h) = PH_ERROR_MEMORY_ERROR <->
    ph_find_hook_by_name (g_hook_list_head g) name = None /\
    dlsym env name <> 0 /\ b = None) /\
   (code (Some name) r (Some h) = PH_SUCCESS <->
    ph_find_hook_by_name (g_hook_list_head g) name = None /\
    dlsym env name <> 0 /\ b <> None)).
Proof.
  intros code. split.
  - intros n r' h'. unfold code, ph_install_hook.
    destruct n as [nm|], h' as [h0|];
      try (split; [intros _|reflexivity]; auto).
    destruct (r' =? 0) eqn:Er.
    + apply Z.eqb_eq in Er. split; [intros _; auto | reflexivity].
    + apply Z.eqb_neq in Er. unfold_monad. simpl.
      destruct (g_hook_system_initialized g); simpl.
      * destruct (ph_find_hook_by_name (g_hook_list_head g) nm); simpl;
          [split; [discriminate|]; intros [H|[H|[H|H]]]; try discriminate;
           contradiction|].
        destruct (dlsym env nm =? 0); simpl;
          [split; [discriminate|]; intros [H|[H|[H|H]]]; try discriminate;
           contradiction|].
        destruct b; simpl;
          (split; [discriminate|]; intros [H|[H|[H|H]]]; try discriminate;
           contradiction).
      * split; [intros _; auto | reflexivity].
  - intros Hr Hini. unfold code, ph_install_hook.
    apply Z.eqb_neq in Hr. rewrite Hr. unfold_monad. simpl.
    rewrite Hini. simpl.
    destruct (ph_find_hook_by_name (g_hook_list_head g) name); simpl.
    + repeat split; try discriminate; try (intros [H _]; discriminate).
    + destruct (dlsym env name =? 0) eqn:Ed; simpl.
      * apply Z.eqb_eq in Ed.
        repeat split; try discriminate; try congruence; auto;
          try (intros (_ & H & _); contradiction).
      * apply Z.eqb_neq in Ed.
        destruct b; simpl;
          repeat split; try discriminate; try congruence; auto;
            try (intros [_ H]; contradiction);
            try (intros (_ & _ & H); congruence).
Qed.

Lemma X20_witness :
  fst (result_of (ph_install_hook sample_env (Some (lit "getuid")) 12288
                                  (Some blank_handle) None getuid_globals))
  = PH_ERROR_ALREADY_HOOKED /\
  fst (result_of (ph_install_hook sample_env (Some (lit "getgid")) 12288
                                  (Some blank_handle) None getuid_globals))
  = PH_ERROR_MEMORY_ERROR.
Proof.
  destruct (X20_install_result_codes sample_env (lit "getuid") 12288
              blank_handle None getuid_globals) as [_ A].
  destruct (X20_install_result_codes sample_env (lit "getgid") 12288
              blank_handle None getuid_globals) as [_ B].
  destruct A as (A & _); [lia | reflexivity |].
  destruct B as (_ & _ & B & _); [lia | reflexivity |].
  split.
  - apply A. vm_compute. discriminate.
  - apply B. repeat split. vm_compute. discriminate.
Defined.

(** X21: the result of [ph_remove_hook]: [PH_ERROR_INVALID_PARAM] exactly
    for a null handle, a handle whose valid flag is clear or a library
    that is not initialised; otherwise [PH_SUCCESS] when an entry is found
    for the handle's name and [PH_ERROR_NOT_HOOKED] when none is; with
    [PH_ERROR_NOT_HOOKED] nothing changes. *)
Theorem X21_remove_result_codes (h : option PHookHandle) (g : Globals) :
  let code := fst (result_of (ph_remove_hook h g)) in
  let usable :=
      exists h0, h = Some h0 /\ Handle.is_valid h0 = true /\
                 g_hook_system_initialized g = true in
  (code = PH_ERROR_INVALID_PARAM <-> ~ usable) /\
  (code = PH_SUCCESS <->
   exists h0, h = Some h0 /\ Handle.is_valid h0 = true /\
              g_hook_system_initialized g = true /\
              ph_find_hook_by_name (g_hook_list_head g)
                                   (Handle.function_name h0) <> None) /\
  (code = PH_ERROR_NOT_HOOKED <->
   exists h0, h = Some h0 /\ Handle.is_valid h0 = true /\
              g_hook_system_initialized g = true /\
              ph_find_hook_by_name (g_hook_list_head g)
                                   (Handle.function_name h0) = None) /\
  (code = PH_ERROR_NOT_HOOKED -> globals_of (ph_remove_hook h g) = g).
Proof.
  intros code usable. unfold code, usable, ph_remove_hook.
  destruct h as [h0|].
  2: { simpl. repeat split; try discriminate;
         try (intros (? & ? & _); discriminate).
       intros _ (? & ? & _). discriminate. }
  destruct (Handle.is_valid h0) eqn:Ev; simpl.
  2: { repeat split; try discriminate;
         try (intros (? & [= <-] & ? & _); congruence).
       intros _ (? & [= <-] & ? & _). congruence. }
  unfold_monad. simpl.
  destruct (g_hook_system_initialized g) eqn:Ei; simpl.
  2: { repeat split; try discriminate;
         try (intros (? & _ & _ & ? & _); discriminate).
       intros _ (? & _ & _ & ?). discriminate. }
  destruct (remove_loop (g_hook_list_head g) (Handle.function_name h0))
    as [l'|] eqn:El; simpl.
  - assert (Hf : ph_find_hook_by_name (g_hook_list_head g)
                                      (Handle.function_name h0) <> None).
    { intros Hn. apply remove_loop_none_iff in Hn. congruence. }
    repeat split; try discriminate.
    + intros H. exfalso. apply H. now exists h0.
    + intros _. now exists h0.
    + intros (h1 & [= <-] & _ & _ & Hn). contradiction.
  - apply remove_loop_none_iff in El.
    repeat split; try discriminate.
    + intros H. exfalso. apply H. now exists h0.
    + intros (h1 & [= <-] & _ & _ & Hn). contradiction.
    + intros _. now exists h0.
Qed.

Lemma X21_witness :
  let stale := Some (Handle.mk 9 (lit "uname") true) in
  fst (result_of (ph_remove_hook stale getuid_globals)) = PH_ERROR_NOT_HOOKED /\
  globals_of (ph_remove_hook stale getuid_globals) = getuid_globals /\
  fst (result_of (ph_remove_hook getuid_handle getuid_globals)) = PH_SUCCESS.
Proof.
  intros stale.
  destruct (X21_remove_result_codes stale getuid_globals)
    as (_ & _ & (_ & A) & B).
  destruct (X21_remove_result_codes getuid_handle getuid_globals)
    as (_ & (_ & C) & _).
  assert (HA : fst (result_of (ph_remove_hook stale getuid_globals))
               = PH_ERROR_NOT_HOOKED).
  { apply A. eexists. repeat split. }
  split; [exact HA|]. split; [exact (B HA)|].
  apply C. eexists. split; [reflexivity|]. split; [reflexivity|].
  split; [reflexivity|]. vm_compute. discriminate.
Defined.
